(** * The financial-metrics engine of the advisor application

    A shallow embedding of [data_processor.py]: the two ingestion adapters
    ([process_manual_data], [process_csv_data]) and the health scorer
    ([calculate_financial_health]), over a small model of the Python values
    they handle (the values of a decoded JSON document), followed by the
    properties the specification states about them.  The analyzer of
    [ai_analyzer.py] and the views of [app.py] that call them are embedded
    too, with the API, the session and the request as what they are given.

    Python floats are IEEE-754 binary64 numbers: they are Rocq's primitive
    floats.  Python integers are unbounded: they are [Z]. *)

From Stdlib Require Import ZArith List String Ascii Bool Lia.
From Stdlib Require Import Floats DecimalString.
Import ListNotations.

Local Open Scope string_scope.
Local Open Scope Z_scope.
Local Open Scope list_scope.

(** ** Python values and exceptions *)

Module Py.

(** The values of a decoded JSON document, which is what the HTTP boundary
    hands to the adapters and what the session hands back to the scorer.
    A [dict] keeps its insertion order. *)
#[warnings="-register-all"]
Inductive pyval : Type :=
| VNone
| VBool (b : bool)
| VInt (z : Z)
| VFloat (f : float)
| VStr (s : string)
| VList (l : list pyval)
| VDict (d : list (string * pyval)).

(** The exceptions the modelled operations raise; all of them derive from
    Python's [Exception].  [Exception prefix cause] is the value of
    [Exception(f"{prefix}{str(cause)}")]; [LibraryError] stands for whatever
    a library call outside this repository raised. *)
Inductive exn : Type :=
| AttributeError
| TypeError
| ValueError
| OverflowError
| ZeroDivisionError
| LibraryError (name : string)
| Exception (prefix : string) (cause : exn).

Inductive result (A : Type) : Type :=
| Ok (a : A)
| Raise (e : exn).
Arguments Ok {A} a.
Arguments Raise {A} e.

Definition bind {A B : Type} (r : result A) (k : A -> result B) : result B :=
  match r with
  | Ok a => k a
  | Raise e => Raise e
  end.

(** [try: body / except Exception as e: handler e]. *)
Definition try_except {A : Type} (body : result A) (handler : exn -> result A)
  : result A :=
  match body with
  | Ok a => Ok a
  | Raise e => handler e
  end.

(** [try: body / except ValueError: handler]: any other exception goes on. *)
Definition try_except_ValueError {A : Type} (body : result A) (handler : result A)
  : result A :=
  match body with
  | Raise ValueError => handler
  | other => other
  end.

Fixpoint map_result {A B : Type} (f : A -> result B) (l : list A)
  : result (list B) :=
  match l with
  | [] => Ok []
  | x :: xs =>
      bind (f x) (fun y => bind (map_result f xs) (fun ys => Ok (y :: ys)))
  end.

(** [[v for v in l if p v]], where the test itself may raise. *)
Fixpoint filter_result {A : Type} (p : A -> result bool) (l : list A)
  : result (list A) :=
  match l with
  | [] => Ok []
  | x :: xs =>
      bind (p x) (fun keep =>
      bind (filter_result p xs) (fun ys => Ok (if keep then x :: ys else ys)))
  end.

(** *** Dictionaries *)

(** [d[k]], when [k] is a key.  The keys of a [dict] are distinct; on a list
    that repeats a key the first entry is the one read. *)
Fixpoint dict_lookup {V : Type} (k : string) (d : list (string * V)) : option V :=
  match d with
  | [] => None
  | (k', v) :: rest => if String.eqb k k' then Some v else dict_lookup k rest
  end.

(** [k in d]. *)
Definition dict_mem {V : Type} (k : string) (d : list (string * V)) : bool :=
  match dict_lookup k d with
  | Some _ => true
  | None => false
  end.

(** [d[k] = f(d[k])] for a key that is present: the entry keeps its place. *)
Fixpoint dict_update {V : Type} (k : string) (f : V -> V) (d : list (string * V))
  : list (string * V) :=
  match d with
  | [] => []
  | (k', v) :: rest =>
      if String.eqb k k' then (k', f v) :: rest
      else (k', v) :: dict_update k f rest
  end.

(** [x.get(k, default)]: of the values modelled only a [dict] has [get]. *)
Definition py_get (x : pyval) (k : string) (default : pyval) : result pyval :=
  match x with
  | VDict d =>
      match dict_lookup k d with
      | Some v => Ok v
      | None => Ok default
      end
  | _ => Raise AttributeError
  end.

(** [x.values()]. *)
Definition py_values (x : pyval) : result (list pyval) :=
  match x with
  | VDict d => Ok (map snd d)
  | _ => Raise AttributeError
  end.

(** *** Numbers *)

(** Python's numeric tower as far as JSON reaches: [bool] is a subclass of
    [int]. *)
Inductive num : Type :=
| NInt (z : Z)
| NFloat (f : float).

Definition as_num (v : pyval) : option num :=
  match v with
  | VBool b => Some (NInt (Z.b2z b))
  | VInt z => Some (NInt z)
  | VFloat f => Some (NFloat f)
  | _ => None
  end.

Definition of_num (n : num) : pyval :=
  match n with
  | NInt z => VInt z
  | NFloat f => VFloat f
  end.

(** The binary64 number nearest to [z] (ties to even), infinite when [z] is
    out of range. *)
Definition Z2float (z : Z) : float :=
  SF2Prim (binary_normalize prec emax z 0 false).

(** The least integer that rounds beyond the largest float: half-way between
    the largest float and [2 ^ 1024]. *)
Definition float_overflow : Z := 2 ^ 1024 - 2 ^ 970.

(** [float(z)] for an [int]: [OverflowError] when it is too large. *)
Definition int_to_float (z : Z) : result float :=
  if float_overflow <=? Z.abs z then Raise OverflowError else Ok (Z2float z).

Definition num_to_float (n : num) : result float :=
  match n with
  | NInt z => int_to_float z
  | NFloat f => Ok f
  end.

(** The exact order between an integer and a float ([None]: unordered, the
    float is a NaN).  Python compares the two exactly, without rounding the
    integer. *)
Definition Z_SF_compare (z : Z) (x : spec_float) : option comparison :=
  match x with
  | S754_nan => None
  | S754_infinity s => Some (if s then Gt else Lt)
  | S754_zero _ => Some (z ?= 0)
  | S754_finite s m e =>
      let v := if s then Z.neg m else Z.pos m in
      Some (if 0 <=? e then z ?= v * 2 ^ e else z * 2 ^ (- e) ?= v)
  end.

Definition float_compare (x y : float) : option comparison :=
  match PrimFloat.compare x y with
  | FEq => Some Eq
  | FLt => Some Lt
  | FGt => Some Gt
  | FNotComparable => None
  end.

Definition num_compare (a b : num) : option comparison :=
  match a, b with
  | NInt x, NInt y => Some (x ?= y)
  | NInt x, NFloat g => Z_SF_compare x (Prim2SF g)
  | NFloat f, NInt y => option_map CompOpp (Z_SF_compare y (Prim2SF f))
  | NFloat f, NFloat g => float_compare f g
  end.

Definition is_gt (c : option comparison) : bool :=
  match c with Some Gt => true | _ => false end.
Definition is_ge (c : option comparison) : bool :=
  match c with Some Gt | Some Eq => true | _ => false end.
Definition is_le (c : option comparison) : bool :=
  match c with Some Lt | Some Eq => true | _ => false end.
Definition is_eq (c : option comparison) : bool :=
  match c with Some Eq => true | _ => false end.

Definition num_gt (a b : num) : bool := is_gt (num_compare a b).
Definition num_ge (a b : num) : bool := is_ge (num_compare a b).
Definition num_le (a b : num) : bool := is_le (num_compare a b).
Definition num_eq (a b : num) : bool := is_eq (num_compare a b).

Definition num_neg (a : num) : num :=
  match a with
  | NInt z => NInt (- z)
  | NFloat f => NFloat (PrimFloat.opp f)
  end.

(** Mixed arithmetic converts the integer operand to a float first. *)
Definition num_arith (zop : Z -> Z -> Z) (fop : float -> float -> float)
  (a b : num) : result num :=
  match a, b with
  | NInt x, NInt y => Ok (NInt (zop x y))
  | _, _ =>
      bind (num_to_float a) (fun fa =>
      bind (num_to_float b) (fun fb => Ok (NFloat (fop fa fb))))
  end.

Definition num_add : num -> num -> result num := num_arith Z.add PrimFloat.add.
Definition num_sub : num -> num -> result num := num_arith Z.sub PrimFloat.sub.
Definition num_mul : num -> num -> result num := num_arith Z.mul PrimFloat.mul.

(** The float nearest to [n / d] (ties to even) for [0 <= n] and [0 < d],
    with the given sign; infinite when out of range.  The quotient is
    computed to at least 56 significant bits with a sticky last bit, which
    rounds like the exact quotient. *)
Definition ratio_to_float (negative : bool) (n d : Z) : float :=
  if n =? 0 then (if negative then neg_zero else zero)
  else
    let k := Z.max 0 (56 + Z.log2 d - Z.log2 n) in
    let q := (n * 2 ^ k) / d in
    let sticky := if (n * 2 ^ k) mod d =? 0 then 0 else 1 in
    let m := 2 * q + sticky in
    SF2Prim (binary_normalize prec emax
               (if negative then - m else m) (- k - 1) negative).

(** [a / b] for two [int]s: the quotient rounded once. *)
Definition int_truediv (a b : Z) : result float :=
  if b =? 0 then Raise ZeroDivisionError
  else
    let f := ratio_to_float (xorb (a <? 0) (b <? 0)) (Z.abs a) (Z.abs b) in
    if is_infinity f then Raise OverflowError else Ok f.

(** True division: always a float; a zero divisor raises. *)
Definition num_truediv (a b : num) : result num :=
  match a, b with
  | NInt x, NInt y => bind (int_truediv x y) (fun f => Ok (NFloat f))
  | _, _ =>
      bind (num_to_float a) (fun fa =>
      bind (num_to_float b) (fun fb =>
      if is_zero fb then Raise ZeroDivisionError
      else Ok (NFloat (PrimFloat.div fa fb))))
  end.

(** The operators on arbitrary values.  Every use in the source has a number
    on at least one side, where a non-number on the other side is a
    [TypeError]. *)
Definition py_binop (op : num -> num -> result num) (x y : pyval) : result pyval :=
  match as_num x, as_num y with
  | Some a, Some b => bind (op a b) (fun c => Ok (of_num c))
  | _, _ => Raise TypeError
  end.

Definition py_mul : pyval -> pyval -> result pyval := py_binop num_mul.
Definition py_truediv : pyval -> pyval -> result pyval := py_binop num_truediv.

Definition py_neg (x : pyval) : result pyval :=
  match as_num x with
  | Some a => Ok (of_num (num_neg a))
  | None => Raise TypeError
  end.

Definition py_order (test : num -> num -> bool) (x y : pyval) : result bool :=
  match as_num x, as_num y with
  | Some a, Some b => Ok (test a b)
  | _, _ => Raise TypeError
  end.

Definition py_gt : pyval -> pyval -> result bool := py_order num_gt.
Definition py_ge : pyval -> pyval -> result bool := py_order num_ge.
Definition py_le : pyval -> pyval -> result bool := py_order num_le.

(** [x == n] against a number never raises: a non-number is just unequal. *)
Definition py_eq_num (x : pyval) (n : num) : bool :=
  match as_num x with
  | Some a => num_eq a n
  | None => false
  end.

(** [sum(l)] as CPython computes it up to version 3.11: from the integer 0,
    left to right.  From 3.12 on floats are added with a compensated sum,
    which gives the same total whenever no addition rounds. *)
Definition py_sum (l : list num) : result num :=
  fold_left (fun acc x => bind acc (fun a => num_add a x)) l (Ok (NInt 0)).

(** [max(l)] for a non-empty list: the first of the largest items. *)
Definition py_max (first : pyval) (rest : list pyval) : result pyval :=
  fold_left
    (fun acc item =>
       bind acc (fun best =>
       bind (py_gt item best) (fun larger =>
       Ok (if larger then item else best))))
    rest (Ok first).

Module Notations.
Notation "x <- c1 ;; c2" := (bind c1 (fun x => c2))
  (at level 61, c1 at next level, right associativity).
End Notations.

End Py.

Import Py Py.Notations.

(** ** What the Python runtime provides

    The text operations the source calls are those of the Python runtime,
    with its Unicode tables and its decimal conversions.  The embedding takes
    them as they are, as an interface; [ascii_builtins] below implements it
    for ASCII text, for evaluation on concrete inputs. *)
Class Builtins : Type := {
  (** [float(s)] for a [str]: [None] when it raises [ValueError]. *)
  str_to_float : string -> option float;
  (** [round(x, 2)] for a [float]. *)
  round2 : float -> float;
  (** [s.strip()]. *)
  str_strip : string -> string;
  (** [s.title()]. *)
  str_title : string -> string
}.

(** The two readings of [datetime.now()] an ingestion makes. *)
Record clock : Type := {
  now_month : string;   (* datetime.now().strftime("%B %Y") *)
  now_iso : string      (* datetime.now().isoformat() *)
}.

(** One row of the frame [pd.read_csv] returned, after the column names were
    stripped and lower-cased: the text [str(row.get("category", ""))] and the
    value [row.get("amount", 0)]. *)
Record csv_row : Type := {
  category_text : string;
  amount_cell : pyval
}.

(** [s.lower()] on ASCII text, which the category names are. *)
Definition ascii_lower (c : ascii) : ascii :=
  let n := nat_of_ascii c in
  if (Nat.leb 65 n && Nat.leb n 90)%bool then ascii_of_nat (n + 32) else c.

Fixpoint lower (s : string) : string :=
  match s with
  | EmptyString => EmptyString
  | String c rest => String (ascii_lower c) (lower rest)
  end.

(** ** data_processor.py *)

Definition EXPENSE_CATEGORIES : list string :=
  [ "Rent"; "Food"; "Transportation"; "Shopping"; "Entertainment"; "EMI";
    "Utilities"; "Healthcare"; "Others" ].

Section DataProcessor.

Context {B : Builtins}.

(** [float(x)]. *)
Definition py_float (x : pyval) : result float :=
  match x with
  | VBool b => Ok (if b then one else zero)
  | VInt z => int_to_float z
  | VFloat f => Ok f
  | VStr s =>
      match str_to_float s with
      | Some f => Ok f
      | None => Raise ValueError
      end
  | VNone | VList _ | VDict _ => Raise TypeError
  end.

(** [round(x, 2)]: an [int] is returned as it is. *)
Definition py_round2 (x : num) : num :=
  match x with
  | NInt z => NInt z
  | NFloat f => NFloat (round2 f)
  end.

(** The derived metrics, written twice in the source in the same words
    (lines 34-41 of [process_manual_data], 86-93 of [process_csv_data]):
    [total_expenses], [savings], [savings_rate] (not yet rounded) and
    [expense_percentages]. *)
Definition percentage (income amount : num) : result num :=
  if num_gt income (NInt 0) then
    q <- num_truediv amount income ;;
    p <- num_mul q (NInt 100) ;;
    Ok (py_round2 p)
  else Ok (NInt 0).

Definition derive (income : num) (expenses : list (string * num))
  : result (num * num * num * list (string * num)) :=
  total_expenses <- py_sum (map snd expenses) ;;
  savings <- num_sub income total_expenses ;;
  savings_rate <-
    (if num_gt income (NInt 0) then
       q <- num_truediv savings income ;; num_mul q (NInt 100)
     else Ok (NInt 0)) ;;
  expense_percentages <-
    map_result
      (fun entry : string * num =>
         p <- percentage income (snd entry) ;; Ok (fst entry, p))
      expenses ;;
  Ok (total_expenses, savings, savings_rate, expense_percentages).

Definition num_dict (d : list (string * num)) : pyval :=
  VDict (map (fun entry => (fst entry, of_num (snd entry))) d).

(** The Snapshot both adapters return (lines 43-53 and 95-105). *)
Definition snapshot (income : num) (expenses : list (string * num))
  (metrics : num * num * num * list (string * num))
  (month : pyval) (timestamp source : string) : pyval :=
  let '(total_expenses, savings, savings_rate, expense_percentages) := metrics in
  VDict
    [ ("income", of_num income);
      ("expenses", num_dict expenses);
      ("total_expenses", of_num total_expenses);
      ("savings", of_num savings);
      ("savings_rate", of_num (py_round2 savings_rate));
      ("expense_percentages", num_dict expense_percentages);
      ("month", month);
      ("timestamp", VStr timestamp);
      ("source", VStr source) ].

(** *** process_manual_data *)

Definition manual_expense (data : pyval) (category : string)
  : result (string * num) :=
  raw <- py_get data (lower category) (VInt 0) ;;
  amount <- py_float raw ;;
  Ok (category, NFloat amount).

Definition process_manual_body (now : clock) (data : pyval) : result pyval :=
  raw_income <- py_get data "income" (VInt 0) ;;
  income <- py_float raw_income ;;
  expenses <- map_result (manual_expense data) EXPENSE_CATEGORIES ;;
  metrics <- derive (NFloat income) expenses ;;
  month <- py_get data "month" (VStr (now_month now)) ;;
  Ok (snapshot (NFloat income) expenses metrics month (now_iso now) "manual").

Definition process_manual_data (now : clock) (data : pyval) : result pyval :=
  try_except (process_manual_body now data)
    (fun e => Raise (Exception "Error processing manual data: " e)).

(** *** process_csv_data *)

(** Lines 74-77: the amount of a row, 0 when [float] raises [ValueError]. *)
Definition row_amount (row : csv_row) : result num :=
  try_except_ValueError
    (f <- py_float (amount_cell row) ;; Ok (NFloat f))
    (Ok (NInt 0)).

(** [expenses[k] += amount]. *)
Fixpoint dict_add (k : string) (amount : num) (d : list (string * num))
  : result (list (string * num)) :=
  match d with
  | [] => Raise (LibraryError "KeyError")
  | (k', v) :: rest =>
      if String.eqb k k' then
        v' <- num_add v amount ;; Ok ((k', v') :: rest)
      else
        rest' <- dict_add k amount rest ;; Ok ((k', v) :: rest')
  end.

(** The body of the loop over the rows (lines 73-84), on the pair of the
    two variables it updates. *)
Definition csv_step (state : num * list (string * num)) (row : csv_row)
  : result (num * list (string * num)) :=
  let '(income, expenses) := state in
  let category := str_title (str_strip (category_text row)) in
  amount <- row_amount row ;;
  if String.eqb category "Income" then Ok (amount, expenses)
  else if dict_mem category expenses then
    expenses' <- dict_add category amount expenses ;; Ok (income, expenses')
  else
    expenses' <- dict_add "Others" amount expenses ;; Ok (income, expenses').

Definition csv_loop (rows : list csv_row) (state : num * list (string * num))
  : result (num * list (string * num)) :=
  fold_left (fun acc row => state <- acc ;; csv_step state row) rows (Ok state).

Definition csv_initial : num * list (string * num) :=
  (NFloat zero, map (fun category => (category, NFloat zero)) EXPENSE_CATEGORIES).

(** [read] is what [pd.read_csv(filepath)] and the renaming of the columns
    gave: the rows of the frame, or the exception they raised. *)
Definition process_csv_body (now : clock) (read : result (list csv_row))
  : result pyval :=
  rows <- read ;;
  final <- csv_loop rows csv_initial ;;
  let '(income, expenses) := final in
  metrics <- derive income expenses ;;
  Ok (snapshot income expenses metrics (VStr (now_month now)) (now_iso now) "csv").

Definition process_csv_data (now : clock) (read : result (list csv_row))
  : result pyval :=
  try_except (process_csv_body now read)
    (fun e => Raise (Exception "Error processing CSV: " e)).

(** *** calculate_financial_health *)

(** Lines 123-131: savings rate, 40 points. *)
Definition savings_rate_points (savings_rate : pyval) : result Z :=
  c <- py_ge savings_rate (VInt 30) ;;
  if c then Ok 40 else
  c <- py_ge savings_rate (VInt 20) ;;
  if c then Ok 30 else
  c <- py_ge savings_rate (VInt 10) ;;
  if c then Ok 20 else
  c <- py_ge savings_rate (VInt 5) ;;
  if c then Ok 10 else Ok 0.

(** The literal [0.1]: the float nearest to one tenth. *)
Definition tenth : float := 0x1.999999999999ap-4%float.

(** Lines 133-137: positive savings, 20 points. *)
Definition positive_savings_points (savings income : pyval) : result Z :=
  c <- py_gt savings (VInt 0) ;;
  if c then Ok 20 else
  negated <- py_neg income ;;
  floor <- py_mul negated (VFloat tenth) ;;
  c <- py_ge savings floor ;;
  if c then Ok 10 else Ok 0.

(** Lines 139-150: EMI burden, 20 points. *)
Definition emi_points (expenses income : pyval) : result Z :=
  emi <- py_get expenses "EMI" (VInt 0) ;;
  positive <- py_gt income (VInt 0) ;;
  emi_pct <-
    (if positive then q <- py_truediv emi income ;; py_mul q (VInt 100)
     else Ok (VInt 0)) ;;
  if py_eq_num emi_pct (NInt 0) then Ok 20 else
  c <- py_le emi_pct (VInt 30) ;;
  if c then Ok 15 else
  c <- py_le emi_pct (VInt 40) ;;
  if c then Ok 10 else
  c <- py_le emi_pct (VInt 50) ;;
  if c then Ok 5 else Ok 0.

(** Lines 152-163: expense balance, 20 points. *)
Definition balance_points (expenses income : pyval) : result Z :=
  values <- py_values expenses ;;
  positive_expenses <- filter_result (fun v => py_gt v (VInt 0)) values ;;
  match positive_expenses with
  | [] => Ok 0
  | first :: rest =>
      positive <- py_gt income (VInt 0) ;;
      if positive then
        largest <- py_max first rest ;;
        q <- py_truediv largest income ;;
        max_pct <- py_mul q (VInt 100) ;;
        c <- py_le max_pct (VInt 30) ;;
        if c then Ok 20 else
        c <- py_le max_pct (VInt 40) ;;
        if c then Ok 15 else
        c <- py_le max_pct (VInt 50) ;;
        if c then Ok 10 else
        c <- py_le max_pct (VInt 60) ;;
        if c then Ok 5 else Ok 0
      else Ok 0
  end.

(** Lines 167-174. *)
Definition status_color (score : Z) : string * string :=
  if 80 <=? score then ("Excellent", "green")
  else if 60 <=? score then ("Good", "lightgreen")
  else if 40 <=? score then ("Fair", "orange")
  else ("Needs Improvement", "red").

Definition health_result (score : Z) (status color : string) : pyval :=
  VDict [ ("score", VInt score); ("status", VStr status); ("color", VStr color) ].

(** The [try] block, lines 116-176. *)
Definition health_body (financial_data : pyval) : result pyval :=
  let score := 0 in
  income <- py_get financial_data "income" (VInt 0) ;;
  savings <- py_get financial_data "savings" (VInt 0) ;;
  savings_rate <- py_get financial_data "savings_rate" (VInt 0) ;;
  expenses <- py_get financial_data "expenses" (VDict []) ;;
  p1 <- savings_rate_points savings_rate ;;
  let score := score + p1 in
  p2 <- positive_savings_points savings income ;;
  let score := score + p2 in
  p3 <- emi_points expenses income ;;
  let score := score + p3 in
  p4 <- balance_points expenses income ;;
  let score := score + p4 in
  let score := Z.max 0 (Z.min 100 score) in
  let '(status, color) := status_color score in
  Ok (health_result score status color).

Definition calculate_financial_health (financial_data : pyval) : result pyval :=
  try_except (health_body financial_data)
    (fun _ => Ok (health_result 0 "Error" "gray")).

End DataProcessor.

(** ** The runtime on ASCII text

    An implementation of [Builtins] for text made of ASCII characters, where
    Python's Unicode-aware operations reduce to the rules below.  It serves to
    evaluate the adapters on concrete inputs. *)
Module AsciiText.

Definition code (c : ascii) : nat := nat_of_ascii c.
Definition between (lo hi : nat) (c : ascii) : bool :=
  (Nat.leb lo (code c) && Nat.leb (code c) hi)%bool.

(** [str.isspace]: tab to carriage return, the four separators, space. *)
Definition is_space (c : ascii) : bool :=
  (between 9 13 c || between 28 32 c)%bool.
Definition is_upper : ascii -> bool := between 65 90.
Definition is_lower : ascii -> bool := between 97 122.
Definition is_digit : ascii -> bool := between 48 57.
Definition to_upper (c : ascii) : ascii :=
  if is_lower c then ascii_of_nat (code c - 32) else c.

(** The white space [float] skips around an ASCII text: that of C's
    [isspace], without the four separators. *)
Definition is_c_space (c : ascii) : bool :=
  (between 9 13 c || between 32 32 c)%bool.

Fixpoint lstrip (space : ascii -> bool) (l : list ascii) : list ascii :=
  match l with
  | c :: rest => if space c then lstrip space rest else l
  | [] => []
  end.

Definition strip_chars (space : ascii -> bool) (l : list ascii) : list ascii :=
  rev (lstrip space (rev (lstrip space l))).

Definition strip (s : string) : string :=
  string_of_list_ascii (strip_chars is_space (list_ascii_of_string s)).

(** [str.title]: a cased character is upper-cased at the start of a run of
    cased characters and lower-cased inside it. *)
Fixpoint title_from (previous_is_cased : bool) (s : string) : string :=
  match s with
  | EmptyString => EmptyString
  | String c rest =>
      if (is_upper c || is_lower c)%bool then
        String (if previous_is_cased then ascii_lower c else to_upper c)
               (title_from true rest)
      else String c (title_from false rest)
  end.

Definition title : string -> string := title_from false.

(** *** [float] of a string *)

(** An underscore may only stand between two digits; they are dropped. *)
Fixpoint drop_underscores (previous : ascii) (l : list ascii)
  : option (list ascii) :=
  match l with
  | [] => if Ascii.eqb previous "_" then None else Some []
  | c :: rest =>
      if Ascii.eqb c "_" then
        if is_digit previous then drop_underscores c rest else None
      else if (Ascii.eqb previous "_" && negb (is_digit c))%bool then None
      else option_map (cons c) (drop_underscores c rest)
  end.

(** The digits at the front of [l], appended to the numeral [acc]: the
    numeral, how many digits were read, and what follows them. *)
Fixpoint take_digits (acc count : Z) (l : list ascii) : Z * Z * list ascii :=
  match l with
  | c :: rest =>
      if is_digit c then
        take_digits (10 * acc + Z.of_nat (code c - 48)) (count + 1) rest
      else (acc, count, l)
  | [] => (acc, count, [])
  end.

Definition take_sign (l : list ascii) : bool * list ascii :=
  match l with
  | c :: rest =>
      if Ascii.eqb c "-" then (true, rest)
      else if Ascii.eqb c "+" then (false, rest)
      else (false, l)
  | [] => (false, [])
  end.

(** The exponent part: absent, or [e] or [E], an optional sign and at least
    one digit, up to the end of the text. *)
Definition take_exponent (l : list ascii) : option Z :=
  match l with
  | [] => Some 0
  | c :: rest =>
      if (Ascii.eqb c "e" || Ascii.eqb c "E")%bool then
        let '(negative, rest) := take_sign rest in
        match take_digits 0 0 rest with
        | (e, count, []) =>
            if 0 <? count then Some (if negative then - e else e) else None
        | _ => None
        end
      else None
  end.

(** The float nearest to [m * 10 ^ e]. *)
Definition decimal_to_float (negative : bool) (m e : Z) : float :=
  if 0 <=? e then ratio_to_float negative (m * 10 ^ e) 1
  else ratio_to_float negative m (10 ^ (- e)).

Definition parse_decimal (negative : bool) (l : list ascii) : option float :=
  let '(whole, n_whole, rest) := take_digits 0 0 l in
  let '(mantissa, n_fraction, rest) :=
    match rest with
    | c :: rest' =>
        if Ascii.eqb c "." then take_digits whole 0 rest' else (whole, 0, rest)
    | [] => (whole, 0, [])
    end in
  if 0 <? n_whole + n_fraction then
    match take_exponent rest with
    | Some e => Some (decimal_to_float negative mantissa (e - n_fraction))
    | None => None
    end
  else None.

Definition lower_chars (l : list ascii) : string :=
  string_of_list_ascii (map ascii_lower l).

Definition parse_float (s : string) : option float :=
  match drop_underscores "000" (strip_chars is_c_space (list_ascii_of_string s)) with
  | None => None
  | Some l =>
      let '(negative, body) := take_sign l in
      let word := lower_chars body in
      if (String.eqb word "inf" || String.eqb word "infinity")%bool then
        Some (if negative then neg_infinity else infinity)
      else if String.eqb word "nan" then Some nan
      else parse_decimal negative body
  end.

(** *** [round(x, 2)] *)

(** [n / d] rounded to the nearest integer, ties to even ([0 <= n], [0 < d]). *)
Definition round_half_even (n d : Z) : Z :=
  let q := n / d in
  match 2 * (n mod d) ?= d with
  | Lt => q
  | Gt => q + 1
  | Eq => if Z.even q then q else q + 1
  end.

(** The exact value of [x] is rounded to two decimals, ties to even, and the
    decimal is read back as a float. *)
Definition round_2 (x : float) : float :=
  match Prim2SF x with
  | S754_finite s m e =>
      if 0 <=? e then x
      else ratio_to_float s (round_half_even (100 * Z.pos m) (2 ^ (- e))) 100
  | _ => x
  end.

End AsciiText.

#[global] Instance ascii_builtins : Builtins := {
  str_to_float := AsciiText.parse_float;
  round2 := AsciiText.round_2;
  str_strip := AsciiText.strip;
  str_title := AsciiText.title
}.

(** ** Text

    A [str] is its UTF-8 encoding, one character of [string] for each byte;
    the literals of the source are copied byte for byte. *)

Section Text.

Local Open Scope string_scope.

(** The line feed. *)
Definition nl : string := String (ascii_of_nat 10) EmptyString.

(** [bool(x)], the truth value of [x] in a condition. *)
Definition py_truthy (x : pyval) : bool :=
  match x with
  | VNone => false
  | VBool b => b
  | VInt z => negb (z =? 0)%Z
  | VFloat f => negb (is_zero f)
  | VStr s => negb (String.eqb s "")
  | VList l => match l with [] => false | _ :: _ => true end
  | VDict d => match d with [] => false | _ :: _ => true end
  end.

Definition is_lt (c : option comparison) : bool :=
  match c with Some Lt => true | _ => false end.
Definition num_lt (a b : num) : bool := is_lt (num_compare a b).
Definition py_lt : pyval -> pyval -> result bool := py_order num_lt.

(** [x.items()]. *)
Definition py_items (x : pyval) : result (list (string * pyval)) :=
  match x with
  | VDict d => Ok d
  | _ => Raise AttributeError
  end.

(** [enumerate(l, start)]. *)
Fixpoint enumerate {A : Type} (start : Z) (l : list A) : list (Z * A) :=
  match l with
  | [] => []
  | x :: rest => (start, x) :: enumerate (start + 1) rest
  end.

End Text.

(** The fixed-point presentation of a float, [format(x, ".2f")] and the
    like: the exact value of the float rounded to the given number of
    decimals, ties to even, with the sign of the float. *)
Module Format.

Local Open Scope string_scope.

(** The decimal digits of a natural number. *)
Definition digits (n : Z) : string := NilZero.string_of_uint (N.to_uint (Z.to_N n)).

Fixpoint zeros (count : nat) : string :=
  match count with
  | O => ""
  | S count => String "0" (zeros count)
  end.

(** [s] with zeros in front, up to [width] characters. *)
Definition pad_zeros (width : nat) (s : string) : string :=
  zeros (width - String.length s)%nat ++ s.

(** A comma after every third digit, from the lowest digit on. *)
Fixpoint group_from_right (reversed : list ascii) (in_group : nat) : list ascii :=
  match reversed with
  | [] => []
  | c :: rest =>
      match in_group, rest with
      | 2%nat, _ :: _ => c :: ","%char :: group_from_right rest 0
      | _, _ => c :: group_from_right rest (S in_group)
      end
  end.

Definition group_thousands (s : string) : string :=
  string_of_list_ascii (rev (group_from_right (rev (list_ascii_of_string s)) 0)).

(** The digits of [scaled / 10 ^ precision], with [precision] decimals. *)
Definition fixed_digits (precision : nat) (grouping : bool) (scaled : Z) : string :=
  let unit := 10 ^ Z.of_nat precision in
  let whole := digits (scaled / unit) in
  (if grouping then group_thousands whole else whole)
  ++ match precision with
     | O => ""
     | S _ => "." ++ pad_zeros precision (digits (scaled mod unit))
     end.

(** [format(x, ".{precision}f")], or [",.{precision}f"] with [grouping]. *)
Definition fixed (precision : nat) (grouping : bool) (x : float) : string :=
  match Prim2SF x with
  | S754_nan => "nan"
  | S754_infinity s => if s then "-inf" else "inf"
  | S754_zero s => (if s then "-" else "") ++ fixed_digits precision grouping 0
  | S754_finite s m e =>
      let unit := 10 ^ Z.of_nat precision in
      let scaled :=
        if (0 <=? e)%Z then Z.pos m * 2 ^ e * unit
        else AsciiText.round_half_even (Z.pos m * unit) (2 ^ (- e)) in
      (if s then "-" else "") ++ fixed_digits precision grouping scaled
  end.

End Format.

(** [format(x, spec)] for a fixed-point [spec]: an [int] is converted to a
    float first, a [str] has no such presentation ([ValueError]) and the
    other values accept no format at all ([TypeError]). *)
Definition py_format_fixed (precision : nat) (grouping : bool) (x : pyval)
  : result string :=
  match x with
  | VBool b => f <- int_to_float (Z.b2z b) ;; Ok (Format.fixed precision grouping f)
  | VInt z => f <- int_to_float z ;; Ok (Format.fixed precision grouping f)
  | VFloat f => Ok (Format.fixed precision grouping f)
  | VStr _ => Raise ValueError
  | VNone | VList _ | VDict _ => Raise TypeError
  end.

(** ** ai_analyzer.py *)

(** The arguments of one call of [client.chat.completions.create]: the
    content of the system message and of the user message, and the three
    settings. *)
Record request : Type := {
  system_content : string;
  user_content : string;
  model : string;
  temperature : float;
  max_tokens : Z
}.

(** What the module reaches outside the repository, for a client of type
    [C]: the environment variable, the constructor of the client, and a call
    of the API followed by the reading of
    [completion.choices[0].message.content], each of which may raise. *)
Record groq (C : Type) : Type := {
  GROQ_API_KEY : option string;
  Groq : string -> result C;
  create : C -> request -> result pyval
}.
Arguments GROQ_API_KEY {C} _.
Arguments Groq {C} _ _.
Arguments create {C} _ _ _.

(** The literals [0.7] and [0.8]. *)
Definition seven_tenths : float := 0x1.6666666666666p-1%float.
Definition eight_tenths : float := 0x1.999999999999ap-1%float.

Section AiAnalyzer.

Local Open Scope string_scope.

(** *** get_rule_based_analysis *)

(** Lines 170-177. *)
Definition health_paragraph (savings_rate : pyval) : result string :=
  c <- py_ge savings_rate (VInt 20) ;;
  if c then
    rate <- py_format_fixed 1 false savings_rate ;;
    Ok ("Excellent! You're saving " ++ rate ++ ("% of your income." ++ nl ++ nl))
  else
  c <- py_ge savings_rate (VInt 10) ;;
  if c then
    rate <- py_format_fixed 1 false savings_rate ;;
    Ok ("Good job! You're saving " ++ rate ++ ("% of your income. Aim for 20%." ++ nl ++ nl))
  else
  c <- py_gt savings_rate (VInt 0) ;;
  if c then
    rate <- py_format_fixed 1 false savings_rate ;;
    Ok ("You're saving " ++ rate ++ ("% of your income. Try increasing this." ++ nl ++ nl))
  else
    Ok (("âš ï¸ You're currently not saving. Consider reducing expenses." ++ nl ++ nl)).

(** Lines 180-193: the list [recommendations]. *)
Definition key_recommendations (income expenses savings_rate : pyval)
  : result (list string) :=
  let recommendations : list string := [] in
  emi <- py_get expenses "EMI" (VInt 0) ;;
  recommendations <-
    (if py_truthy emi && py_truthy income then
       q <- py_truediv emi income ;;
       emi_pct <- py_mul q (VInt 100) ;;
       c <- py_gt emi_pct (VInt 40) ;;
       if c then
         pct <- py_format_fixed 1 false emi_pct ;;
         Ok (recommendations ++ [ ("Reduce EMI burden: EMI is " ++ pct ++ "% of income.")%string ])%list
       else Ok recommendations
     else Ok recommendations) ;;
  c <- py_lt savings_rate (VInt 20) ;;
  if c && py_truthy income then
    Ok (recommendations ++ [ "Increase savings gradually to reach at least 20% of income." ])%list
  else Ok recommendations.

(** Lines 199-202. *)
Definition highlight (savings : pyval) : result string :=
  c <- py_gt savings (VInt 0) ;;
  if c then
    amount <- py_format_fixed 0 true savings ;;
    Ok ("- You save â‚¹" ++ amount ++ (" every month â€” great discipline!" ++ nl))
  else
    Ok (("- Tracking your finances is a great first step." ++ nl)).

Definition get_rule_based_analysis (financial_data : pyval) : result string :=
  income <- py_get financial_data "income" (VInt 0) ;;
  expenses <- py_get financial_data "expenses" (VDict []) ;;
  savings <- py_get financial_data "savings" (VInt 0) ;;
  savings_rate <- py_get financial_data "savings_rate" (VInt 0) ;;
  let analysis := ("## ðŸ“Š Financial Analysis Report" ++ nl ++ nl) in
  let analysis := analysis ++ ("### Overall Financial Health" ++ nl ++ nl) in
  paragraph <- health_paragraph savings_rate ;;
  let analysis := analysis ++ paragraph in
  let analysis := analysis ++ ("### Key Recommendations" ++ nl ++ nl) in
  recommendations <- key_recommendations income expenses savings_rate ;;
  let analysis :=
    fold_left
      (fun analysis '(i, rec) => analysis ++ Format.digits i ++ ". " ++ rec ++ nl)
      (enumerate 1 (firstn 3 recommendations)) analysis in
  let analysis := analysis ++ (nl ++ "### Positive Highlights" ++ nl ++ nl) in
  line <- highlight savings ;;
  Ok (analysis ++ line).

(** *** analyze_finances *)

(** Lines 63-66: one turn of the loop over [expenses.items()]. *)
Definition breakdown_step (income : pyval) (prompt : string) (item : string * pyval)
  : result string :=
  let '(category, amount) := item in
  c <- py_gt amount (VInt 0) ;;
  if c then
    positive <- py_gt income (VInt 0) ;;
    percentage <-
      (if positive then q <- py_truediv amount income ;; py_mul q (VInt 100)
       else Ok (VInt 0)) ;;
    amount_text <- py_format_fixed 2 true amount ;;
    percentage_text <- py_format_fixed 1 false percentage ;;
    Ok (prompt ++ "- " ++ category ++ ": â‚¹" ++ amount_text ++ " ("
        ++ percentage_text ++ ("% of income)" ++ nl))
  else Ok prompt.

(** Lines 46-78: the text of the user message. *)
Definition analysis_prompt (financial_data : pyval) : result string :=
  income <- py_get financial_data "income" (VInt 0) ;;
  expenses <- py_get financial_data "expenses" (VDict []) ;;
  savings <- py_get financial_data "savings" (VInt 0) ;;
  savings_rate <- py_get financial_data "savings_rate" (VInt 0) ;;
  income_text <- py_format_fixed 2 true income ;;
  total_expenses <- py_get financial_data "total_expenses" (VInt 0) ;;
  total_text <- py_format_fixed 2 true total_expenses ;;
  savings_text <- py_format_fixed 2 true savings ;;
  rate_text <- py_format_fixed 2 false savings_rate ;;
  let prompt :=
    (nl
     ++ "You are a professional financial advisor. Analyze the following financial data and provide personalized advice." ++ nl ++ nl
     ++ "**Financial Summary:**" ++ nl ++ "- Monthly Income: â‚¹")
    ++ income_text
    ++ (nl ++ "- Total Expenses: â‚¹")
    ++ total_text
    ++ (nl ++ "- Monthly Savings: â‚¹")
    ++ savings_text
    ++ (nl ++ "- Savings Rate: ")
    ++ rate_text
    ++ ("%" ++ nl ++ nl ++ "**Expense Breakdown:**" ++ nl) in
  items <- py_items expenses ;;
  prompt <-
    fold_left (fun acc item => prompt <- acc ;; breakdown_step income prompt item)
      items (Ok prompt) ;;
  Ok (prompt
      ++ (nl ++ nl ++ "Please provide:" ++ nl
         ++ "1. **Overall Financial Health Assessment** (2-3 sentences)" ++ nl
         ++ "2. **Top 3 Specific Recommendations** (actionable advice)" ++ nl
         ++ "3. **Warning Signs** (if any concerning patterns)" ++ nl
         ++ "4. **Positive Highlights** (what they're doing well)" ++ nl ++ nl
         ++ "Keep the tone friendly, professional, and encouraging." ++ nl
         ++ "Use Indian financial context and currency (â‚¹)." ++ nl)).

(** Lines 80-95. *)
Definition analysis_request (prompt : string) : request :=
  {| system_content :=
       "You are an expert financial advisor specializing in personal finance for Indian households. Provide practical, actionable advice.";
     user_content := prompt;
     model := "llama-3.1-8b-instant";
     temperature := seven_tenths;
     max_tokens := 1500 |}.

(** *** chat_with_ai *)

(** Line 125: the list of the comprehension. *)
Fixpoint key_expenses (items : list (string * pyval)) : result (list string) :=
  match items with
  | [] => Ok []
  | (k, v) :: rest =>
      c <- py_gt v (VInt 0) ;;
      if c then
        amount <- py_format_fixed 0 true v ;;
        texts <- key_expenses rest ;;
        Ok ((k ++ ": â‚¹" ++ amount) :: texts)
      else key_expenses rest
  end.

(** Lines 117-129; [message_text] is [str(user_message)]. *)
Definition chat_context (message_text : string) (financial_data : pyval)
  : result string :=
  income <- py_get financial_data "income" (VInt 0) ;;
  savings <- py_get financial_data "savings" (VInt 0) ;;
  expenses <- py_get financial_data "expenses" (VDict []) ;;
  income_text <- py_format_fixed 2 true income ;;
  savings_text <- py_format_fixed 2 true savings ;;
  items <- py_items expenses ;;
  texts <- key_expenses items ;;
  Ok ((nl ++ "User Financial Context:" ++ nl ++ "- Monthly Income: â‚¹")
      ++ income_text
      ++ (nl ++ "- Monthly Savings: â‚¹")
      ++ savings_text
      ++ (nl ++ "- Key Expenses: ")
      ++ String.concat ", " texts
      ++ (nl ++ nl ++ "User Question:" ++ nl)
      ++ message_text
      ++ nl).

(** Lines 131-146. *)
Definition chat_request (context : string) : request :=
  {| system_content :=
       "You are a friendly financial advisor chatbot. Answer questions about budgeting, savings, and investments using Indian context and â‚¹ currency. Be concise and practical.";
     user_content := context;
     model := "llama-3.1-8b-instant";
     temperature := eight_tenths;
     max_tokens := 800 |}.

Definition chat_unavailable : string :=
  "AI chat is currently unavailable. Please configure the GROQ_API_KEY to enable this feature.".

Definition chat_trouble : string :=
  "I'm having trouble responding right now. Please try again in a moment.".

(** *** The client *)

Context {C : Type}.

(** The functions below read and write the global [_client]: each takes its
    value and returns the new one.  What is printed is left out. *)

(** [get_client()]: the value returned and the new [_client]. *)
Definition get_client (api : groq C) (_client : option C) : option C * option C :=
  match _client with
  | Some client => (Some client, _client)
  | None =>
      match GROQ_API_KEY api with
      | None => (None, _client)
      | Some api_key =>
          if String.eqb api_key "" then (None, _client)
          else
            match Groq api api_key with
            | Ok client => (Some client, Some client)
            | Raise _ => (None, _client)
            end
      end
  end.

(** [analyze_finances(financial_data)]: what it returns or raises, the new
    [_client], and the requests it sent to the API. *)
Definition analyze_finances (api : groq C) (financial_data : pyval)
  (_client : option C) : result pyval * option C * list request :=
  let fallback := text <- get_rule_based_analysis financial_data ;; Ok (VStr text) in
  let '(client, _client) := get_client api _client in
  let '(body, sent) :=
    match client with
    | None => (fallback, [])
    | Some client =>
        match analysis_prompt financial_data with
        | Raise e => (Raise e, [])
        | Ok prompt =>
            (create api client (analysis_request prompt), [ analysis_request prompt ])
        end
    end in
  (try_except body (fun _ => fallback), _client, sent).

(** [chat_with_ai(user_message, financial_data)], likewise; [str] is
    Python's [str()] on the values of a JSON document. *)
Definition chat_with_ai (str : pyval -> string) (api : groq C)
  (user_message financial_data : pyval) (_client : option C)
  : result pyval * option C * list request :=
  let '(client, _client) := get_client api _client in
  let '(body, sent) :=
    match client with
    | None => (Ok (VStr chat_unavailable), [])
    | Some client =>
        match chat_context (str user_message) financial_data with
        | Raise e => (Raise e, [])
        | Ok context =>
            (create api client (chat_request context), [ chat_request context ])
        end
    end in
  (try_except body (fun _ => Ok (VStr chat_trouble)), _client, sent).

End AiAnalyzer.

(** ** app.py *)

(** What a view returns: the document [jsonify] builds from a value, or a
    rendered template with its context, and the status, 200 unless the view
    gives another. *)
Inductive http_body : Type :=
| jsonify (payload : pyval)
| render_template (name : string) (context : list (string * pyval)).

Record response : Type := {
  body : http_body;
  status : Z
}.

(** The file of the form field [file]: its name, what [file.save(filepath)]
    does, and the frame [pd.read_csv(filepath)] gives once it is saved. *)
Record upload : Type := {
  filename : string;
  save : result unit;
  frame : result (list csv_row)
}.

Section App.

Context {B : Builtins}.

Local Open Scope string_scope.

(** [str(e)] for an exception of the runtime or of a library. *)
Variable message_of : exn -> string.

(** [str(e)]. *)
Fixpoint exn_str (e : exn) : string :=
  match e with
  | Exception prefix cause => prefix ++ exn_str cause
  | _ => message_of e
  end.

(** [s.endswith(suffix)]. *)
Definition endswith (s suffix : string) : bool :=
  (String.length suffix <=? String.length s)%nat
  && String.eqb
       (substring (String.length s - String.length suffix) (String.length suffix) s)
       suffix.

(** [session.get('financial_data', default)], where [stored] is the entry of
    the session, if there is one. *)
Definition session_get (stored : option pyval) (default : pyval) : pyval :=
  match stored with
  | Some financial_data => financial_data
  | None => default
  end.

(** [jsonify({'success': False, 'message': message}), 400]. *)
Definition refuse (message : string) : response :=
  {| body := jsonify (VDict [ ("success", VBool false); ("message", VStr message) ]);
     status := 400 |}.

(** [jsonify({'success': True, 'message': message, 'data': data})]. *)
Definition accept (message : string) (processed_data : pyval) : response :=
  {| body := jsonify (VDict [ ("success", VBool true); ("message", VStr message);
                              ("data", processed_data) ]);
     status := 200 |}.

(** The views below take the entry [financial_data] of the session and
    return it as they leave it. *)

(** [process_manual()], for what [request.json] gave. *)
Definition process_manual (now : clock) (request_json : result pyval)
  (stored : option pyval) : response * option pyval :=
  match (data <- request_json ;; process_manual_data now data) with
  | Ok processed_data =>
      (accept "Data processed successfully!" processed_data, Some processed_data)
  | Raise e => (refuse ("Error processing data: " ++ exn_str e), stored)
  end.

(** [process_csv()], for what [request.files] gave: the file of the field
    [file], if the form has one. *)
Definition process_csv (now : clock) (request_files : result (option upload))
  (stored : option pyval) : response * option pyval :=
  match request_files with
  | Raise e => (refuse ("Error processing CSV: " ++ exn_str e), stored)
  | Ok None => (refuse "No file uploaded", stored)
  | Ok (Some file) =>
      if String.eqb (filename file) "" then (refuse "No file selected", stored)
      else if endswith (filename file) ".csv" then
        match (_ <- save file ;; process_csv_data now (frame file)) with
        | Ok processed_data =>
            (accept "CSV processed successfully!" processed_data, Some processed_data)
        | Raise e => (refuse ("Error processing CSV: " ++ exn_str e), stored)
        end
      else (refuse "Please upload a CSV file", stored)
  end.

(** [dashboard()] and [chat_page()]. *)
Definition page (template : string) (stored : option pyval) : response :=
  let financial_data := session_get stored VNone in
  if negb (py_truthy financial_data) then
    {| body := render_template "input.html"
                 [ ("error", VStr "Please enter your financial data first") ];
       status := 200 |}
  else
    {| body := render_template template [ ("data", financial_data) ]; status := 200 |}.

Definition dashboard : option pyval -> response := page "dashboard.html".
Definition chat_page : option pyval -> response := page "chat.html".

Context {C : Type}.

(** [analyze()]: the response, the new [_client] and the requests sent. *)
Definition analyze (api : groq C) (stored : option pyval) (_client : option C)
  : response * option C * list request :=
  let financial_data := session_get stored VNone in
  if negb (py_truthy financial_data) then
    (refuse "No financial data found. Please enter data first.", _client, [])
  else
    let '(analysis, _client, sent) := analyze_finances api financial_data _client in
    match (analysis <- analysis ;;
           health_score <- calculate_financial_health financial_data ;;
           Ok (analysis, health_score)) with
    | Ok (analysis, health_score) =>
        ({| body := jsonify (VDict [ ("success", VBool true); ("analysis", analysis);
                                     ("health_score", health_score) ]);
            status := 200 |}, _client, sent)
    | Raise e => (refuse ("Error analyzing data: " ++ exn_str e), _client, sent)
    end.

(** [chat()], for what [request.json] gave. *)
Definition chat (str : pyval -> string) (api : groq C) (request_json : result pyval)
  (stored : option pyval) (_client : option C)
  : response * option C * list request :=
  match (data <- request_json ;; py_get data "message" (VStr "")) with
  | Raise e => (refuse ("Error in chat: " ++ exn_str e), _client, [])
  | Ok user_message =>
      let financial_data := session_get stored (VDict []) in
      let '(answer, _client, sent) :=
        chat_with_ai str api user_message financial_data _client in
      match answer with
      | Ok answer =>
          ({| body := jsonify (VDict [ ("success", VBool true); ("response", answer) ]);
              status := 200 |}, _client, sent)
      | Raise e => (refuse ("Error in chat: " ++ exn_str e), _client, sent)
      end
  end.

End App.

(** ** Concrete inputs

    The inputs below are ASCII text: the adapters are evaluated on them with
    [ascii_builtins]. *)

Definition example_clock : clock :=
  {| now_month := "March 2024"; now_iso := "2024-03-15T09:30:00" |}.

(** A manual submission, with amounts given as numbers and as text. *)
Definition manual_example : pyval :=
  VDict [ ("income", VStr "50000"); ("rent", VInt 15000); ("food", VStr "8000");
          ("emi", VFloat 20000) ].

(** A frame with a row of an unknown category and a row that is not a number. *)
Definition csv_example : list csv_row :=
  [ {| category_text := "Income"; amount_cell := VInt 40000 |};
    {| category_text := " rent "; amount_cell := VStr "1,200" |};
    {| category_text := "rent"; amount_cell := VInt 800 |};
    {| category_text := "gym"; amount_cell := VFloat 40.5 |} ].

Definition two_income_rows : list csv_row :=
  [ {| category_text := "Income"; amount_cell := VInt 40000 |};
    {| category_text := "income"; amount_cell := VInt 50000 |} ].

(** A key is set and the constructor accepts it, but every call of the API
    fails. *)
Definition unreachable_api : groq unit :=
  {| GROQ_API_KEY := Some "gsk_example";
     Groq := fun _ => Ok tt;
     create := fun _ _ => Raise (LibraryError "APIConnectionError") |}.

(** No key is set. *)
Definition no_key_api : groq unit :=
  {| GROQ_API_KEY := None;
     Groq := fun _ => Ok tt;
     create := fun _ _ => Ok (VStr "Spend less than you earn.") |}.

(** ** The vocabulary of the specification *)

(** [snap[k]], when [snap] is a mapping that has the key. *)
Definition field (snap : pyval) (k : string) : option pyval :=
  match snap with
  | VDict d => dict_lookup k d
  | _ => None
  end.

(** A value that compares equal to zero: [0], [0.0], [-0.0] or [False]. *)
Definition is_zero_value (v : pyval) : Prop := py_eq_num v (NInt 0) = true.

(** A cell of a frame read from a CSV file: a boolean, a float, a text, or
    an integer of at most 64 bits. *)
Definition csv_cell (v : pyval) : Prop :=
  match v with
  | VBool _ | VFloat _ | VStr _ => True
  | VInt z => - 2 ^ 63 <= z < 2 ^ 64
  | VNone | VList _ | VDict _ => False
  end.

(** A number that is a float. *)
Definition is_float (n : num) : Prop := exists f, n = NFloat f.

(** What the loop of the CSV adapter binds to [amount]: a float, or the
    integer 0. *)
Definition is_amount (n : num) : Prop := n = NInt 0 \/ is_float n.

Definition float_valued (d : list (string * num)) : Prop :=
  Forall (fun entry => is_float (snd entry)) d.

(** The invariant of the loop: the income is a float or the integer 0, and
    the running totals are floats under the keys of the schema. *)
Definition csv_state_ok (state : num * list (string * num)) : Prop :=
  is_amount (fst state)
  /\ map fst (snd state) = EXPENSE_CATEGORIES
  /\ float_valued (snd state).

(** The numbers that compare equal to zero. *)
Definition is_zero_num (n : num) : Prop :=
  n = NInt 0 \/ n = NFloat zero \/ n = NFloat neg_zero.

(** [n + 0], what [expenses[k] += 0] leaves under [k]. *)
Definition plus_zero (n : num) : num :=
  match n with
  | NInt z => NInt (z + 0)
  | NFloat x => NFloat (PrimFloat.add x zero)
  end.

(** The numbers of a Snapshot, in any order.  The views hand the analyzer and the scorer what the session returns, a
    mapping whose entries may come back in another order.  What the code
    needs of it is below: the five numbers under their keys, and floats for
    the expenses. *)
Definition snapshot_numbers (financial_data : pyval) : Prop :=
  exists income expenses total savings rate,
    field financial_data "income" = Some (of_num income) /\ is_amount income
    /\ field financial_data "expenses" = Some (num_dict expenses)
    /\ float_valued expenses
    /\ field financial_data "total_expenses" = Some (of_num total) /\ is_float total
    /\ field financial_data "savings" = Some (of_num savings) /\ is_float savings
    /\ field financial_data "savings_rate" = Some (of_num rate) /\ is_amount rate.

(** The fields the manual adapter reads. *)
Definition manual_fields : list string :=
  "income" :: "month" :: map lower EXPENSE_CATEGORIES.

Section Vocabulary.

Context {B : Builtins}.

(** A value that cannot be parsed as a number: [float] raises on it. *)
Definition unparseable (v : pyval) : Prop := exists e, py_float v = Raise e.

(** The title-cased category of a row. *)
Definition row_category (row : csv_row) : string :=
  str_title (str_strip (category_text row)).

(** Where the specification sends a row: nowhere for an Income row, to its
    own category when that is one of the schema, to Others otherwise. *)
Definition routed_category (row : csv_row) : option string :=
  let category := row_category row in
  if String.eqb category "Income" then None
  else if existsb (String.eqb category) EXPENSE_CATEGORIES then Some category
  else Some "Others".

(** The amounts of the rows sent to category [c], in the order of the rows. *)
Definition amounts_routed_to (c : string) (rows : list csv_row) : list num :=
  flat_map
    (fun row =>
       match routed_category row, row_amount row with
       | Some c', Ok amount => if String.eqb c' c then [amount] else []
       | _, _ => []
       end)
    rows.

(** Adding amounts one after the other to a running total. *)
Definition accumulate (start : num) (amounts : list num) : result num :=
  fold_left (fun acc amount => total <- acc ;; num_add total amount)
    amounts (Ok start).

(** The amounts routed to [c] when the frame is [before], [row], [after] and
    the amount of [row] counts as the integer 0. *)
Definition amounts_with_zero_row (c : string) (before : list csv_row)
  (row : csv_row) (after : list csv_row) : list num :=
  amounts_routed_to c before
  ++ match routed_category row with
     | Some c' => if String.eqb c' c then [NInt 0] else []
     | None => []
     end
  ++ amounts_routed_to c after.

(** [snap] is the Snapshot one of the two ingestion paths returned. *)
Definition ingested (now : clock) (snap : pyval) : Prop :=
  (exists data, process_manual_data now data = Ok snap)
  \/ (exists read, process_csv_data now read = Ok snap).

(** What a Snapshot is made of, for either adapter. *)
Definition snapshot_of (snap : pyval) (income : num) (expenses : list (string * num))
  : Prop :=
  exists total savings rate percentages month timestamp source,
    derive income expenses = Ok (total, savings, rate, percentages)
    /\ snap = snapshot income expenses (total, savings, rate, percentages)
                month timestamp source.

End Vocabulary.

(** ** Properties *)

(** *** The exception monad *)

Lemma bind_Ok {A B : Type} (r : result A) (k : A -> result B) (b : B) :
  bind r k = Ok b -> exists a, r = Ok a /\ k a = Ok b.
Proof.
  destruct r as [a | e]; simpl; intros H.
  - exists a. split; [reflexivity | exact H].
  - discriminate H.
Qed.

Lemma try_except_Ok {A : Type} (body : result A) (e0 : exn -> exn) (a : A) :
  try_except body (fun e => Raise (e0 e)) = Ok a -> body = Ok a.
Proof. destruct body; simpl; [trivial | discriminate]. Qed.

(** Splits a hypothesis [x <- r ;; k = Ok b] into [r = Ok x] and [k = Ok b]. *)
Ltac bind_inv H :=
  let a := fresh "a" in
  let Ha := fresh "Ha" in
  apply bind_Ok in H; destruct H as (a & Ha & H).

Lemma fold_bind_Raise {A X : Type} (step : A -> X -> result A) (l : list X) (e : exn) :
  fold_left (fun acc x => a <- acc ;; step a x) l (Raise e) = Raise e.
Proof. induction l as [| x l IH]; simpl; [reflexivity | exact IH]. Qed.

Lemma fold_bind_cons {A X : Type} (step : A -> X -> result A) (l : list X) (x : X) (a : A) :
  fold_left (fun acc x => a <- acc ;; step a x) (x :: l) (Ok a)
  = (a' <- step a x ;; fold_left (fun acc x => a <- acc ;; step a x) l (Ok a')).
Proof.
  simpl. destruct (step a x) as [a' | e]; simpl; [reflexivity |].
  apply fold_bind_Raise.
Qed.

Lemma fold_bind_app {A X : Type} (step : A -> X -> result A) (l1 l2 : list X) (a : A) :
  fold_left (fun acc x => a <- acc ;; step a x) (l1 ++ l2) (Ok a)
  = (a' <- fold_left (fun acc x => a <- acc ;; step a x) l1 (Ok a) ;;
     fold_left (fun acc x => a <- acc ;; step a x) l2 (Ok a')).
Proof.
  rewrite fold_left_app.
  destruct (fold_left _ l1 (Ok a)) as [a' | e]; simpl; [reflexivity |].
  apply fold_bind_Raise.
Qed.

Lemma map_result_Ok_fst {V W : Type} (f : string * V -> result W)
  (l : list (string * V)) (l' : list (string * W)) :
  map_result (fun entry => w <- f entry ;; Ok (fst entry, w)) l = Ok l' ->
  map fst l' = map fst l.
Proof.
  revert l'. induction l as [| x l IH]; simpl; intros l' H.
  - injection H as <-. reflexivity.
  - bind_inv H. bind_inv Ha. bind_inv H. injection H as <-. injection Ha as <-.
    simpl. f_equal. apply IH. assumption.
Qed.

(** *** Dictionaries *)

Lemma dict_mem_keys {V : Type} (k : string) (d : list (string * V)) :
  dict_mem k d = existsb (String.eqb k) (map fst d).
Proof.
  unfold dict_mem. induction d as [| [k' v] d IH]; simpl; [reflexivity |].
  destruct (String.eqb k k'); [reflexivity | exact IH].
Qed.

Lemma dict_lookup_map {V W : Type} (f : V -> W) (k : string) (d : list (string * V)) :
  dict_lookup k (map (fun entry => (fst entry, f (snd entry))) d)
  = option_map f (dict_lookup k d).
Proof.
  induction d as [| [k' v] d IH]; simpl; [reflexivity |].
  destruct (String.eqb k k'); [reflexivity | exact IH].
Qed.

Lemma map_fst_relabel {V W : Type} (f : string * V -> W) (d : list (string * V)) :
  map fst (map (fun entry => (fst entry, f entry)) d) = map fst d.
Proof. rewrite map_map. reflexivity. Qed.

Lemma dict_lookup_In {V : Type} (k : string) (d : list (string * V)) :
  In k (map fst d) -> exists v, dict_lookup k d = Some v.
Proof.
  induction d as [| [k' v] d IH]; simpl; [intros [] |].
  intros [E | H].
  - subst. rewrite String.eqb_refl. eauto.
  - destruct (String.eqb k k'); [eauto | apply IH, H].
Qed.

(** *** The derived metrics and the Snapshot *)

Section Metrics.

Context {B : Builtins}.

Lemma percentages_not_positive income expenses percentages :
  num_gt income (NInt 0) = false ->
  map_result
    (fun entry : string * num => p <- percentage income (snd entry) ;; Ok (fst entry, p))
    expenses = Ok percentages ->
  percentages = map (fun entry => (fst entry, NInt 0)) expenses.
Proof.
  intros Hpos. unfold percentage. rewrite Hpos.
  revert percentages. induction expenses as [| x l IH]; simpl; intros p H.
  - injection H as <-. reflexivity.
  - bind_inv H. injection H as <-. f_equal. apply IH. assumption.
Qed.

(** With an income that is not positive the rate is the integer 0 and so is
    every percentage: no division takes place. *)
Lemma derive_not_positive income expenses total savings rate percentages :
  num_gt income (NInt 0) = false ->
  derive income expenses = Ok (total, savings, rate, percentages) ->
  rate = NInt 0 /\ percentages = map (fun entry => (fst entry, NInt 0)) expenses.
Proof.
  intros Hpos H. unfold derive in H. rewrite Hpos in H.
  do 4 bind_inv H. injection H as _ _ <- <-. injection Ha1 as <-.
  split; [reflexivity |].
  apply (percentages_not_positive income); assumption.
Qed.

(** An income equal to zero is not positive: both tests read one comparison. *)
Lemma zero_not_positive (income : num) :
  num_eq income (NInt 0) = true -> num_gt income (NInt 0) = false.
Proof.
  unfold num_eq, num_gt. destruct (num_compare income (NInt 0)) as [[ | | ] |];
    simpl; congruence.
Qed.

Lemma as_num_of_num (n : num) : as_num (of_num n) = Some n.
Proof. destruct n; reflexivity. Qed.

Lemma is_zero_value_of_num (n : num) :
  is_zero_value (of_num n) <-> num_eq n (NInt 0) = true.
Proof. unfold is_zero_value, py_eq_num. rewrite as_num_of_num. reflexivity. Qed.

Lemma manual_shape now data snap :
  process_manual_data now data = Ok snap ->
  exists raw_income income expenses,
    py_get data "income" (VInt 0) = Ok raw_income
    /\ py_float raw_income = Ok income
    /\ map_result (manual_expense data) EXPENSE_CATEGORIES = Ok expenses
    /\ snapshot_of snap (NFloat income) expenses.
Proof.
  intros H. apply try_except_Ok in H. unfold process_manual_body in H.
  do 5 bind_inv H. injection H as <-.
  destruct a2 as [[[total savings] rate] percentages].
  exists a, a0, a1. repeat split; try assumption.
  exists total, savings, rate, percentages, a3, (now_iso now), "manual".
  split; [assumption | reflexivity].
Qed.

Lemma csv_shape now read snap :
  process_csv_data now read = Ok snap ->
  exists rows income expenses,
    read = Ok rows
    /\ csv_loop rows csv_initial = Ok (income, expenses)
    /\ snapshot_of snap income expenses.
Proof.
  intros H. apply try_except_Ok in H. unfold process_csv_body in H.
  do 2 bind_inv H. destruct a0 as [income expenses].
  bind_inv H. injection H as <-.
  destruct a0 as [[[total savings] rate] percentages].
  exists a, income, expenses. repeat split; try assumption.
  exists total, savings, rate, percentages, (VStr (now_month now)), (now_iso now), "csv".
  split; [assumption | reflexivity].
Qed.

(** The rates of a Snapshot whose income equals zero. *)
Lemma snapshot_zero_income snap income expenses :
  snapshot_of snap income expenses ->
  num_eq income (NInt 0) = true ->
  field snap "savings_rate" = Some (VInt 0)
  /\ field snap "expense_percentages"
     = Some (VDict (map (fun entry => (fst entry, VInt 0)) expenses)).
Proof.
  intros (total & savings & rate & percentages & month & timestamp & source & Hd & ->) Hz.
  apply zero_not_positive in Hz.
  destruct (derive_not_positive _ _ _ _ _ _ Hz Hd) as [-> ->].
  split; [reflexivity |].
  simpl. unfold num_dict. rewrite map_map. reflexivity.
Qed.

(** *** The manual adapter reads the lower-case field of each category *)

Lemma manual_expenses_spec data categories expenses :
  map_result (manual_expense data) categories = Ok expenses ->
  map fst expenses = categories
  /\ forall c, In c categories ->
       exists raw amount,
         py_get data (lower c) (VInt 0) = Ok raw
         /\ py_float raw = Ok amount
         /\ dict_lookup c expenses = Some (NFloat amount).
Proof.
  revert expenses. induction categories as [| c0 l IH]; simpl; intros expenses H.
  - injection H as <-. split; [reflexivity | intros c []].
  - bind_inv H. bind_inv H. injection H as <-.
    unfold manual_expense in Ha. do 2 bind_inv Ha. injection Ha as <-.
    destruct (IH _ Ha0) as [Hk Hv]. split; [simpl; congruence |].
    intros c Hc. simpl. destruct (String.eqb_spec c c0) as [-> | Hne].
    + exists a1, a2. auto.
    + destruct Hc as [-> | Hc]; [congruence | apply Hv, Hc].
Qed.

End Metrics.

(** *** The loop of the CSV adapter *)

Section CsvLoop.

Context {B : Builtins}.

Lemma csv_loop_cons row rows state :
  csv_loop (row :: rows) state = (state' <- csv_step state row ;; csv_loop rows state').
Proof. apply (fold_bind_cons csv_step). Qed.

Lemma csv_loop_app rows1 rows2 state :
  csv_loop (rows1 ++ rows2) state
  = (state' <- csv_loop rows1 state ;; csv_loop rows2 state').
Proof. apply (fold_bind_app csv_step). Qed.

Lemma accumulate_cons start amount amounts :
  accumulate start (amount :: amounts)
  = (total <- num_add start amount ;; accumulate total amounts).
Proof. apply (fold_bind_cons num_add). Qed.

Lemma dict_add_spec k amount d d' :
  dict_add k amount d = Ok d' ->
  exists v v',
    dict_lookup k d = Some v
    /\ num_add v amount = Ok v'
    /\ map fst d' = map fst d
    /\ forall k', dict_lookup k' d' = if String.eqb k' k then Some v' else dict_lookup k' d.
Proof.
  revert d'. induction d as [| [k0 v0] d IH]; simpl; intros d' H; [discriminate |].
  destruct (String.eqb_spec k k0) as [-> | Hne].
  - bind_inv H. injection H as <-. exists v0, a. repeat split; try assumption.
    intros k'. simpl. destruct (String.eqb k' k0); reflexivity.
  - bind_inv H. injection H as <-.
    destruct (IH _ Ha) as (v & v' & Hv & Hadd & Hk & Hl).
    exists v, v'. repeat split; try assumption; [simpl; congruence |].
    intros k'. simpl. rewrite Hl.
    destruct (String.eqb_spec k' k0) as [-> | ]; [| reflexivity].
    destruct (String.eqb_spec k0 k); [congruence | reflexivity].
Qed.

Lemma others_is_a_category : In "Others" EXPENSE_CATEGORIES.
Proof. unfold EXPENSE_CATEGORIES. simpl. auto 10. Qed.

(** One pass of the loop body: an Income row replaces the income, any other
    row adds its amount to the category the specification routes it to. *)
Lemma csv_step_spec income expenses row income' expenses' :
  map fst expenses = EXPENSE_CATEGORIES ->
  csv_step (income, expenses) row = Ok (income', expenses') ->
  exists amount,
    row_amount row = Ok amount
    /\ map fst expenses' = EXPENSE_CATEGORIES
    /\ match routed_category row with
       | None => income' = amount /\ expenses' = expenses
       | Some c =>
           income' = income
           /\ exists v v',
                dict_lookup c expenses = Some v
                /\ num_add v amount = Ok v'
                /\ forall k, dict_lookup k expenses'
                             = if String.eqb k c then Some v' else dict_lookup k expenses
       end.
Proof.
  intros Hkeys H. unfold csv_step in H. bind_inv H. exists a. split; [assumption |].
  unfold routed_category, row_category.
  rewrite dict_mem_keys, Hkeys in H.
  destruct (String.eqb _ "Income").
  - injection H as <- <-. auto.
  - destruct (existsb _ EXPENSE_CATEGORIES); bind_inv H; injection H as <- <-;
      destruct (dict_add_spec _ _ _ _ Ha0) as (v & v' & Hv & Hadd & Hk & Hl);
      (split; [congruence | split; [reflexivity | exists v, v'; auto]]).
Qed.

(** After the loop every category holds what it held before plus the amounts
    of the rows routed to it, added in the order of the rows. *)
Lemma csv_loop_totals rows : forall income expenses income' expenses',
  map fst expenses = EXPENSE_CATEGORIES ->
  csv_loop rows (income, expenses) = Ok (income', expenses') ->
  map fst expenses' = EXPENSE_CATEGORIES
  /\ forall c, In c EXPENSE_CATEGORIES ->
       exists v v',
         dict_lookup c expenses = Some v
         /\ accumulate v (amounts_routed_to c rows) = Ok v'
         /\ dict_lookup c expenses' = Some v'.
Proof.
  induction rows as [| row rows IH]; intros income expenses income' expenses' Hkeys H.
  - injection H as <- <-. split; [assumption |].
    intros c Hc. rewrite <- Hkeys in Hc.
    destruct (dict_lookup_In _ _ Hc) as [v Hv]. exists v, v. auto.
  - rewrite csv_loop_cons in H. bind_inv H. destruct a as [income1 expenses1].
    destruct (csv_step_spec _ _ _ _ _ Hkeys Ha) as (amount & Hamount & Hkeys1 & Hroute).
    destruct (IH _ _ _ _ Hkeys1 H) as [Hkeys' Htotals]. split; [assumption |].
    intros c Hc. destruct (Htotals c Hc) as (v1 & v' & Hv1 & Hacc & Hv').
    unfold amounts_routed_to. simpl. fold (amounts_routed_to c rows).
    rewrite Hamount.
    destruct (routed_category row) as [c0 |].
    + destruct Hroute as (_ & v & w & Hv & Hadd & Hl).
      rewrite Hl, String.eqb_sym in Hv1.
      destruct (String.eqb_spec c0 c) as [-> | Hne].
      * injection Hv1 as <-. exists v, v'. repeat split; try assumption.
        simpl. rewrite accumulate_cons, Hadd. exact Hacc.
      * exists v1, v'. auto.
    + destruct Hroute as [_ ->]. exists v1, v'. auto.
Qed.

(** Rows that are not Income rows leave the income as it was. *)
Lemma csv_loop_keeps_income rows : forall state state',
  Forall (fun row => row_category row <> "Income") rows ->
  csv_loop rows state = Ok state' ->
  fst state' = fst state.
Proof.
  induction rows as [| row rows IH]; intros state state' Hrows H.
  - injection H as <-. reflexivity.
  - rewrite csv_loop_cons in H. bind_inv H.
    inversion Hrows as [| ? ? Hrow Hrest]; subst.
    rewrite (IH _ _ Hrest H).
    destruct state as [income expenses]. unfold csv_step in Ha. bind_inv Ha.
    fold (row_category row) in Ha.
    destruct (String.eqb_spec (row_category row) "Income"); [contradiction |].
    destruct (dict_mem _ expenses); bind_inv Ha; injection Ha as <-; reflexivity.
Qed.

(** An Income row sets the income to its amount. *)
Lemma csv_step_income state row state' :
  row_category row = "Income" ->
  csv_step state row = Ok state' ->
  exists amount, row_amount row = Ok amount /\ fst state' = amount.
Proof.
  intros Hrow H. destruct state as [income expenses].
  unfold csv_step in H. bind_inv H. fold (row_category row) in H.
  rewrite Hrow in H. simpl in H. injection H as <-. eauto.
Qed.

End CsvLoop.

(** *** The adapters return on well-formed input *)

Lemma int_to_float_small z :
  - 2 ^ 63 <= z < 2 ^ 64 -> int_to_float z = Ok (Z2float z).
Proof.
  intros H. unfold int_to_float.
  replace (float_overflow <=? Z.abs z) with false; [reflexivity |].
  symmetry. apply Z.leb_gt.
  assert (2 ^ 64 < float_overflow) by reflexivity. lia.
Qed.

Lemma int_to_float_0 : int_to_float 0 = Ok zero.
Proof. reflexivity. Qed.

(** A float above the integer 0 is not a zero, so it can divide. *)
Lemma positive_float_not_zero f :
  num_gt (NFloat f) (NInt 0) = true -> is_zero f = false.
Proof.
  unfold num_gt, num_compare, is_zero. rewrite FloatAxioms.eqb_spec.
  change (Prim2SF zero) with (S754_zero false).
  destruct (Prim2SF f) as [s | s | | s m e]; simpl; intros H;
    try discriminate H; destruct s; reflexivity.
Qed.

Lemma py_sum_floats (l : list num) :
  Forall is_float l -> l <> [] -> exists total, py_sum l = Ok (NFloat total).
Proof.
  assert (Hfold : forall l acc, Forall is_float l ->
            exists total,
              fold_left (fun acc x => a <- acc ;; num_add a x) l (Ok (NFloat acc))
              = Ok (NFloat total)).
  { clear l. induction l as [| x l IH]; intros acc Hl; simpl; [eauto |].
    inversion Hl as [| ? ? [f ->] Hrest]; subst. simpl. apply IH, Hrest. }
  intros Hl Hne. destruct l as [| x l]; [congruence |].
  inversion Hl as [| ? ? [f ->] Hrest]; subst.
  unfold py_sum. simpl. apply Hfold, Hrest.
Qed.

Section Totality.

Context {B : Builtins}.

Lemma percentage_total income amount :
  is_amount income -> is_float amount -> exists p, percentage income amount = Ok p.
Proof.
  intros Hincome [a ->]. unfold percentage.
  destruct (num_gt income (NInt 0)) eqn:Hpos; [| eauto].
  destruct Hincome as [-> | [f ->]]; [discriminate |].
  simpl. rewrite (positive_float_not_zero _ Hpos). simpl. eauto.
Qed.

Lemma percentages_total income expenses :
  is_amount income -> float_valued expenses ->
  exists percentages,
    map_result
      (fun entry : string * num => p <- percentage income (snd entry) ;; Ok (fst entry, p))
      expenses = Ok percentages.
Proof.
  intros Hincome. induction 1 as [| entry l Hentry _ [ps IH]]; simpl; [eauto |].
  destruct (percentage_total _ _ Hincome Hentry) as [p ->]. simpl.
  rewrite IH. simpl. eauto.
Qed.

(** The derived metrics are defined for an income that is a float or the
    integer 0 and float amounts: the only division is by a positive float. *)
Lemma derive_total income expenses :
  is_amount income -> float_valued expenses -> expenses <> [] ->
  exists metrics, derive income expenses = Ok metrics.
Proof.
  intros Hincome Hexp Hne. unfold derive.
  destruct (py_sum_floats (map snd expenses)) as [total ->].
  { apply Forall_map. exact Hexp. }
  { destruct expenses; [congruence | discriminate]. }
  cbn [bind].
  assert (Hsav : exists s, num_sub income (NFloat total) = Ok (NFloat s)).
  { destruct Hincome as [-> | [f ->]]; eexists; reflexivity. }
  destruct Hsav as [s ->]. cbn [bind].
  assert (Hrate : exists r,
            (if num_gt income (NInt 0)
             then q <- num_truediv (NFloat s) income ;; num_mul q (NInt 100)
             else Ok (NInt 0)) = Ok r).
  { destruct (num_gt income (NInt 0)) eqn:Hpos; [| eauto].
    destruct Hincome as [-> | [f ->]]; [discriminate |].
    simpl. rewrite (positive_float_not_zero _ Hpos). simpl. eauto. }
  destruct Hrate as [r ->]. cbn [bind].
  destruct (percentages_total _ _ Hincome Hexp) as [ps ->]. cbn [bind]. eauto.
Qed.

Lemma row_amount_cell row :
  csv_cell (amount_cell row) ->
  exists amount, row_amount row = Ok amount /\ is_amount amount.
Proof.
  unfold row_amount, is_amount, is_float.
  destruct (amount_cell row) as [| b | z | f | s | l | d]; simpl; try contradiction; intros H.
  - eauto.
  - rewrite (int_to_float_small _ H). simpl. eauto.
  - eauto.
  - destruct (str_to_float s); simpl; eauto.
Qed.

Lemma dict_add_total k amount d :
  In k (map fst d) -> float_valued d -> is_amount amount ->
  exists d', dict_add k amount d = Ok d' /\ float_valued d' /\ map fst d' = map fst d.
Proof.
  intros Hk Hd Hamount. induction Hd as [| [k0 v0] d [x Hx] Hd IH]; [destruct Hk |].
  simpl in Hx. subst v0. cbn [dict_add].
  destruct (String.eqb_spec k k0) as [-> | Hne].
  - assert (Hadd : exists f, num_add (NFloat x) amount = Ok (NFloat f)).
    { destruct Hamount as [-> | [y ->]]; eexists; reflexivity. }
    destruct Hadd as [f ->]. simpl. eexists. split; [reflexivity |].
    split; [| reflexivity]. constructor; [exists f; reflexivity | exact Hd].
  - destruct Hk as [Hk | Hk]; [simpl in Hk; congruence |].
    destruct (IH Hk) as (d' & -> & Hd' & Hkeys). simpl.
    eexists. split; [reflexivity |]. split; [| simpl; congruence].
    constructor; [exists x; reflexivity | exact Hd'].
Qed.

Lemma csv_initial_ok : csv_state_ok csv_initial.
Proof.
  split; [right; exists zero; reflexivity |]. split; [reflexivity |].
  unfold csv_initial, float_valued. simpl.
  repeat (constructor; [exists zero; reflexivity |]). constructor.
Qed.

Lemma csv_step_total state row :
  csv_state_ok state -> csv_cell (amount_cell row) ->
  exists state', csv_step state row = Ok state' /\ csv_state_ok state'.
Proof.
  destruct state as [income expenses]. intros (Hincome & Hkeys & Hfloats) Hcell.
  simpl in Hincome, Hkeys, Hfloats.
  destruct (row_amount_cell _ Hcell) as (amount & Hrow & Hamount).
  unfold csv_step. rewrite Hrow. simpl.
  destruct (String.eqb _ "Income").
  - eexists. split; [reflexivity |]. repeat split; assumption.
  - destruct (dict_mem _ expenses) eqn:Hmem.
    + rewrite dict_mem_keys in Hmem. apply existsb_exists in Hmem.
      destruct Hmem as (k & Hk & Heq). apply String.eqb_eq in Heq. subst k.
      destruct (dict_add_total _ _ _ Hk Hfloats Hamount) as (d' & -> & Hd' & Hkeys').
      simpl. eexists. split; [reflexivity |].
      repeat split; simpl; [assumption | congruence | assumption].
    + assert (Hk : In "Others" (map fst expenses))
        by (rewrite Hkeys; simpl; auto 10).
      destruct (dict_add_total _ _ _ Hk Hfloats Hamount) as (d' & -> & Hd' & Hkeys').
      simpl. eexists. split; [reflexivity |].
      repeat split; simpl; [assumption | congruence | assumption].
Qed.

Lemma csv_loop_total rows : forall state,
  csv_state_ok state -> Forall (fun row => csv_cell (amount_cell row)) rows ->
  exists state', csv_loop rows state = Ok state' /\ csv_state_ok state'.
Proof.
  induction rows as [| row rows IH]; intros state Hstate Hrows.
  - exists state. split; [reflexivity | assumption].
  - inversion Hrows as [| ? ? Hrow Hrest]; subst.
    destruct (csv_step_total _ _ Hstate Hrow) as (state1 & Hstep & Hstate1).
    rewrite csv_loop_cons, Hstep. simpl. apply IH; assumption.
Qed.

Lemma csv_state_derive state :
  csv_state_ok state -> exists metrics, derive (fst state) (snd state) = Ok metrics.
Proof.
  intros (Hincome & Hkeys & Hfloats). apply derive_total; try assumption.
  intros E. rewrite E in Hkeys. discriminate.
Qed.

(** The CSV adapter returns a Snapshot for every frame that was read. *)
Lemma process_csv_total now rows :
  Forall (fun row => csv_cell (amount_cell row)) rows ->
  exists snap, process_csv_data now (Ok rows) = Ok snap.
Proof.
  intros Hrows.
  destruct (csv_loop_total rows _ csv_initial_ok Hrows) as ([income expenses] & Hloop & Hok).
  destruct (csv_state_derive _ Hok) as [metrics Hd]. simpl in Hd.
  unfold process_csv_data, process_csv_body. simpl. rewrite Hloop. simpl.
  rewrite Hd. simpl. eauto.
Qed.

End Totality.

(** *** The expenses of a Snapshot *)

Section Expenses.

Context {B : Builtins}.

Lemma snapshot_of_expenses snap income expenses :
  snapshot_of snap income expenses ->
  field snap "expenses"
  = Some (VDict (map (fun entry => (fst entry, of_num (snd entry))) expenses)).
Proof.
  intros (total & savings & rate & percentages & month & timestamp & source & _ & ->).
  reflexivity.
Qed.

Lemma snapshot_of_income snap income expenses :
  snapshot_of snap income expenses -> field snap "income" = Some (of_num income).
Proof.
  intros (total & savings & rate & percentages & month & timestamp & source & _ & ->).
  reflexivity.
Qed.

Lemma dict_lookup_constant {V : Type} (v : V) (c : string) (l : list string) :
  In c l -> dict_lookup c (map (fun category => (category, v)) l) = Some v.
Proof.
  induction l as [| c0 l IH]; intros Hc; [destruct Hc |].
  simpl. destruct (String.eqb_spec c c0) as [| Hne]; [reflexivity |].
  destruct Hc as [-> | Hc]; [congruence | exact (IH Hc)].
Qed.

Lemma csv_initial_lookup c :
  In c EXPENSE_CATEGORIES -> dict_lookup c (snd csv_initial) = Some (NFloat zero).
Proof. apply dict_lookup_constant. Qed.

Lemma csv_loop_initial_totals rows income expenses :
  csv_loop rows csv_initial = Ok (income, expenses) ->
  map fst expenses = EXPENSE_CATEGORIES
  /\ forall c, In c EXPENSE_CATEGORIES ->
       exists total,
         accumulate (NFloat zero) (amounts_routed_to c rows) = Ok total
         /\ dict_lookup c expenses = Some total.
Proof.
  intros Hloop.
  assert (Hkeys0 : map fst (snd csv_initial) = EXPENSE_CATEGORIES) by reflexivity.
  destruct (csv_loop_totals rows _ _ _ _ Hkeys0 Hloop) as [Hkeys Htotals].
  split; [assumption |]. intros c Hc.
  destruct (Htotals c Hc) as (v & total & Hv & Hacc & Htotal).
  rewrite (csv_initial_lookup c Hc) in Hv. injection Hv as <-. eauto.
Qed.

Lemma nothing_routed c rows :
  (forall row, In row rows -> routed_category row <> Some c) ->
  amounts_routed_to c rows = [].
Proof.
  unfold amounts_routed_to. induction rows as [| row rows IH]; intros H; [reflexivity |].
  simpl. rewrite IH by (intros r Hr; apply H; right; exact Hr).
  rewrite app_nil_r.
  destruct (routed_category row) as [c' |] eqn:E; [| reflexivity].
  destruct (row_amount row); [| reflexivity].
  destruct (String.eqb_spec c' c) as [-> | ]; [| reflexivity].
  exfalso. apply (H row); [left; reflexivity | exact E].
Qed.

Lemma ingested_keys now snap :
  ingested now snap ->
  exists income expenses,
    snapshot_of snap income expenses /\ map fst expenses = EXPENSE_CATEGORIES.
Proof.
  intros [[data H] | [read H]].
  - destruct (manual_shape _ _ _ H) as (raw & income & expenses & _ & _ & Hexp & Hsnap).
    exists (NFloat income), expenses. split; [assumption |].
    apply (manual_expenses_spec _ _ _ Hexp).
  - destruct (csv_shape _ _ _ H) as (rows & income & expenses & _ & Hloop & Hsnap).
    exists income, expenses. split; [assumption |].
    apply (csv_loop_initial_totals _ _ _ Hloop).
Qed.

End Expenses.

(** The expenses of the Snapshot of the manual adapter: under each category
    of the schema, the value of its lower-case field as a float. *)
Lemma manual_snapshot_expenses {B : Builtins} now data snap :
  process_manual_data now data = Ok snap ->
  exists expenses,
    field snap "expenses" = Some (VDict expenses)
    /\ map fst expenses = EXPENSE_CATEGORIES
    /\ forall c, In c EXPENSE_CATEGORIES ->
         exists raw amount,
           py_get data (lower c) (VInt 0) = Ok raw
           /\ py_float raw = Ok amount
           /\ dict_lookup c expenses = Some (VFloat amount).
Proof.
  intros H.
  destruct (manual_shape _ _ _ H) as (raw & income & expenses & _ & _ & Hexp & Hsnap).
  destruct (manual_expenses_spec _ _ _ Hexp) as [Hkeys Hvalues].
  eexists. split; [apply (snapshot_of_expenses _ _ _ Hsnap) |].
  split; [rewrite map_fst_relabel with (f := fun entry => of_num (snd entry)); exact Hkeys |].
  intros c Hc. destruct (Hvalues c Hc) as (raw_c & amount & Hget & Hfloat & Hlookup).
  exists raw_c, amount. repeat split; try assumption.
  rewrite (dict_lookup_map of_num), Hlookup. reflexivity.
Qed.

(** The expenses of the Snapshot of the CSV adapter: under each category of
    the schema, the amounts of the rows routed to it, added from 0.0 in the
    order of the rows. *)
Lemma csv_snapshot_expenses {B : Builtins} now rows snap :
  process_csv_data now (Ok rows) = Ok snap ->
  exists expenses,
    field snap "expenses" = Some (VDict expenses)
    /\ map fst expenses = EXPENSE_CATEGORIES
    /\ forall c, In c EXPENSE_CATEGORIES ->
         exists total,
           accumulate (NFloat zero) (amounts_routed_to c rows) = Ok total
           /\ dict_lookup c expenses = Some (of_num total).
Proof.
  intros H.
  destruct (csv_shape _ _ _ H) as (rows' & income & expenses & Hread & Hloop & Hsnap).
  injection Hread as <-.
  destruct (csv_loop_initial_totals _ _ _ Hloop) as [Hkeys Htotals].
  eexists. split; [apply (snapshot_of_expenses _ _ _ Hsnap) |].
  split; [rewrite map_fst_relabel with (f := fun entry => of_num (snd entry)); exact Hkeys |].
  intros c Hc. destruct (Htotals c Hc) as (total & Hacc & Htotal).
  exists total. split; [assumption |].
  rewrite (dict_lookup_map of_num), Htotal. reflexivity.
Qed.

(** C1. The Snapshot of either ingestion path has an expenses mapping whose
    keys are exactly the nine categories of the schema, in the order of the
    schema.  In the manual path a category whose field is absent from the
    input has amount 0.0.  In the CSV path every category holds the amounts of
    the rows routed to it, added in the order of the rows from 0.0, where a
    row whose title-cased category is neither Income nor a category of the
    schema is routed to Others; a category no row is routed to has amount
    0.0. *)
Theorem C1_expenses_keys_are_the_schema {B : Builtins} (now : clock) (snap : pyval) :
  (forall data,
     process_manual_data now data = Ok snap ->
     exists expenses,
       field snap "expenses" = Some (VDict expenses)
       /\ map fst expenses = EXPENSE_CATEGORIES
       /\ forall c, In c EXPENSE_CATEGORIES -> field data (lower c) = None ->
            dict_lookup c expenses = Some (VFloat zero))
  /\ (forall read,
       process_csv_data now read = Ok snap ->
       exists rows expenses,
         read = Ok rows
         /\ field snap "expenses" = Some (VDict expenses)
         /\ map fst expenses = EXPENSE_CATEGORIES
         /\ forall c, In c EXPENSE_CATEGORIES ->
              (exists total,
                 accumulate (NFloat zero) (amounts_routed_to c rows) = Ok total
                 /\ dict_lookup c expenses = Some (of_num total))
              /\ ((forall row, In row rows -> routed_category row <> Some c) ->
                  dict_lookup c expenses = Some (VFloat zero))).
Proof.
  split.
  - intros data H.
    destruct (manual_snapshot_expenses _ _ _ H) as (expenses & Hfield & Hkeys & Hvalues).
    exists expenses. split; [assumption |]. split; [assumption |].
    intros c Hc Habsent.
    destruct (Hvalues c Hc) as (raw & amount & Hget & Hfloat & Hlookup).
    destruct data; try discriminate Hget. simpl in Habsent, Hget.
    rewrite Habsent in Hget. injection Hget as <-.
    rewrite (int_to_float_0 : py_float (VInt 0) = Ok zero) in Hfloat.
    injection Hfloat as <-. exact Hlookup.
  - intros read H.
    destruct (csv_shape _ _ _ H) as (rows & _ & _ & -> & _).
    destruct (csv_snapshot_expenses _ _ _ H) as (expenses & Hfield & Hkeys & Htotals).
    exists rows, expenses. split; [reflexivity |]. split; [assumption |].
    split; [assumption |].
    intros c Hc. destruct (Htotals c Hc) as (total & Hacc & Hlookup).
    split; [exists total; auto |].
    intros Hnone. rewrite (nothing_routed _ _ Hnone) in Hacc.
    injection Hacc as <-. exact Hlookup.
Qed.

Lemma zero_percentage_lookup (c : string) (expenses : list (string * num)) :
  In c (map fst expenses) ->
  dict_lookup c (map (fun entry : string * num => (fst entry, VInt 0)) expenses)
  = Some (VInt 0).
Proof.
  induction expenses as [| [k v] l IH]; intros Hc; [destruct Hc |].
  simpl. destruct (String.eqb_spec c k) as [| Hne]; [reflexivity |].
  destruct Hc as [Hc | Hc]; [simpl in Hc; congruence | exact (IH Hc)].
Qed.

(** C2. When the income of the Snapshot returned by either ingestion path
    equals zero, its savings rate is exactly the integer 0 and so is the
    expense percentage of every category of the schema: nothing is divided. *)
Theorem C2_zero_income_zero_rates {B : Builtins} (now : clock) (snap : pyval) :
  ingested now snap ->
  (exists income, field snap "income" = Some income /\ is_zero_value income) ->
  field snap "savings_rate" = Some (VInt 0)
  /\ exists percentages,
       field snap "expense_percentages" = Some (VDict percentages)
       /\ map fst percentages = EXPENSE_CATEGORIES
       /\ forall c, In c EXPENSE_CATEGORIES ->
            dict_lookup c percentages = Some (VInt 0).
Proof.
  intros Hsnap (v & Hfield & Hzero).
  destruct (ingested_keys _ _ Hsnap) as (income & expenses & Hshape & Hkeys).
  rewrite (snapshot_of_income _ _ _ Hshape) in Hfield. injection Hfield as <-.
  apply is_zero_value_of_num in Hzero.
  destruct (snapshot_zero_income _ _ _ Hshape Hzero) as [Hrate Hpercentages].
  split; [exact Hrate |]. eexists. split; [exact Hpercentages |].
  split; [rewrite map_map; exact Hkeys |].
  intros c Hc. rewrite <- Hkeys in Hc. apply zero_percentage_lookup. exact Hc.
Qed.

(** *** The health scorer *)

Lemma status_color_cases (score : Z) :
  In (status_color score)
     [ ("Excellent", "green"); ("Good", "lightgreen"); ("Fair", "orange");
       ("Needs Improvement", "red") ].
Proof.
  unfold status_color.
  destruct (80 <=? score); [simpl; auto |].
  destruct (60 <=? score); [simpl; auto |].
  destruct (40 <=? score); simpl; auto.
Qed.

(** What the [try] block returns when it returns. *)
Lemma health_body_Ok financial_data result :
  health_body financial_data = Ok result ->
  exists score,
    0 <= score <= 100
    /\ result = health_result score (fst (status_color score)) (snd (status_color score)).
Proof.
  unfold health_body. intros H. do 8 bind_inv H.
  destruct (status_color _) as [status color] eqn:E. injection H as <-.
  eexists. split; [| rewrite E; reflexivity]. lia.
Qed.

(** C3. For every value handed to the scorer, a well-formed Snapshot or not,
    the scorer returns a result whose score is an integer between 0 and 100
    inclusive. *)
Theorem C3_score_in_range (financial_data : pyval) :
  exists score status color,
    calculate_financial_health financial_data = Ok (health_result score status color)
    /\ 0 <= score <= 100.
Proof.
  unfold calculate_financial_health.
  destruct (health_body financial_data) as [result | e] eqn:E; simpl.
  - destruct (health_body_Ok _ _ E) as (score & Hrange & ->).
    eexists _, _, _. split; [reflexivity | exact Hrange].
  - exists 0, "Error", "gray". split; [reflexivity | lia].
Qed.

(** C8. The scorer never fails: for every value, malformed or not, it returns
    a Health Result with one of the five status and colour pairs, and when
    the computation inside its [try] block raises, the result is exactly
    score 0, status Error, colour gray. *)
Theorem C8_scorer_never_raises (financial_data : pyval) :
  (exists score status color,
     calculate_financial_health financial_data = Ok (health_result score status color)
     /\ In (status, color)
          [ ("Excellent", "green"); ("Good", "lightgreen"); ("Fair", "orange");
            ("Needs Improvement", "red"); ("Error", "gray") ])
  /\ (forall e,
        health_body financial_data = Raise e ->
        calculate_financial_health financial_data = Ok (health_result 0 "Error" "gray")).
Proof.
  unfold calculate_financial_health.
  destruct (health_body financial_data) as [result | e] eqn:E; simpl.
  - split; [| discriminate].
    destruct (health_body_Ok _ _ E) as (score & _ & ->).
    eexists _, _, _. split; [reflexivity |].
    rewrite <- surjective_pairing.
    pose proof (status_color_cases score) as H. simpl in H |- *. tauto.
  - split; [| reflexivity].
    exists 0, "Error", "gray". split; [reflexivity | simpl; tauto].
Qed.

(** C5. The income of the Snapshot of the CSV adapter is the amount of the
    last row whose title-cased category is Income, whatever rows come before
    it: the amounts of several Income rows are not added.  In particular two
    Income rows with the amounts 40000 and 50000 give the income 50000.0. *)
Theorem C5_last_income_row_wins {B : Builtins} (now : clock) :
  (forall before row after snap,
     row_category row = "Income" ->
     Forall (fun later => row_category later <> "Income") after ->
     process_csv_data now (Ok (before ++ row :: after)) = Ok snap ->
     exists amount,
       row_amount row = Ok amount /\ field snap "income" = Some (of_num amount))
  /\ (forall first second,
        row_category first = "Income" -> amount_cell first = VInt 40000 ->
        row_category second = "Income" -> amount_cell second = VInt 50000 ->
        exists snap,
          process_csv_data now (Ok [first; second]) = Ok snap
          /\ field snap "income" = Some (VFloat 50000%float)).
Proof.
  assert (General : forall before row after snap,
     row_category row = "Income" ->
     Forall (fun later => row_category later <> "Income") after ->
     process_csv_data now (Ok (before ++ row :: after)) = Ok snap ->
     exists amount,
       row_amount row = Ok amount /\ field snap "income" = Some (of_num amount)).
  { intros before row after snap Hrow Hafter H.
    destruct (csv_shape _ _ _ H) as (rows & income & expenses & Hread & Hloop & Hshape).
    injection Hread as <-.
    rewrite csv_loop_app in Hloop. bind_inv Hloop.
    rewrite csv_loop_cons in Hloop. bind_inv Hloop.
    destruct (csv_step_income _ _ _ Hrow Ha0) as (amount & Hamount & Hincome).
    exists amount. split; [assumption |].
    rewrite (snapshot_of_income _ _ _ Hshape).
    apply (csv_loop_keeps_income _ _ _ Hafter) in Hloop. simpl in Hloop.
    congruence. }
  split; [exact General |].
  intros first second Hfirst Hcell1 Hsecond Hcell2.
  destruct (process_csv_total now [first; second]) as [snap Hsnap].
  { repeat constructor; [rewrite Hcell1 | rewrite Hcell2]; simpl; lia. }
  exists snap. split; [assumption |].
  destruct (General [first] second [] snap Hsecond (Forall_nil _) Hsnap)
    as (amount & Hamount & Hincome).
  unfold row_amount in Hamount. rewrite Hcell2 in Hamount.
  injection Hamount as <-. exact Hincome.
Qed.

(** *** A row whose amount is not a number *)

(** Adding the float zero changes nothing but the sign of a negative zero. *)
Lemma float_plus_zero (x : float) : x = neg_zero \/ PrimFloat.add x zero = x.
Proof.
  destruct (Prim2SF x) as [s | s | | s m e] eqn:E.
  - destruct s.
    + left. apply Prim2SF_inj. rewrite E. reflexivity.
    + right. apply Prim2SF_inj. rewrite add_spec, E. reflexivity.
  - right. apply Prim2SF_inj. rewrite add_spec, E. reflexivity.
  - right. apply Prim2SF_inj. rewrite add_spec, E. reflexivity.
  - right. apply Prim2SF_inj. rewrite add_spec, E. reflexivity.
Qed.

Lemma num_add_zero (n : num) : num_add n (NInt 0) = Ok (plus_zero n).
Proof. destruct n; reflexivity. Qed.

Lemma dict_add_zero k d :
  In k (map fst d) -> dict_add k (NInt 0) d = Ok (dict_update k plus_zero d).
Proof.
  induction d as [| [k0 v0] d IH]; intros Hk; [destruct Hk |].
  cbn [dict_add dict_update]. destruct (String.eqb_spec k k0) as [-> | Hne].
  - rewrite num_add_zero. reflexivity.
  - destruct Hk as [Hk | Hk]; [simpl in Hk; congruence |].
    rewrite (IH Hk). reflexivity.
Qed.

Section BadAmount.

Context {B : Builtins}.

(** On a cell of a frame [float] can only raise [ValueError]. *)
Lemma csv_cell_unparseable v :
  csv_cell v -> unparseable v -> py_float v = Raise ValueError.
Proof.
  intros Hcell [e He]. destruct v as [| b | z | f | s | l | d]; simpl in *;
    try contradiction; try discriminate.
  - rewrite (int_to_float_small _ Hcell) in He. discriminate.
  - destruct (str_to_float s); [discriminate | reflexivity].
Qed.

Lemma amounts_routed_to_app c rows1 rows2 :
  amounts_routed_to c (rows1 ++ rows2)
  = amounts_routed_to c rows1 ++ amounts_routed_to c rows2.
Proof. unfold amounts_routed_to. apply flat_map_app. Qed.

End BadAmount.

(** X20. In a frame whose amount cells are booleans, floats, texts or
    64-bit integers, a row on whose amount cell [float] raises, which on such
    a cell is the [ValueError] for a text that is no number, is given the
    amount 0 (the integer): the loop body adds 0 to the category the row is
    routed to (or sets the income to 0 for an Income row) and goes on; the
    adapter still returns a Snapshot, in which every category holds the
    amounts of all the rows routed to it, before and after that row, with 0
    for that row. *)
Theorem X20_rejected_text_counts_as_zero {B : Builtins} (now : clock)
  (before : list csv_row) (row : csv_row) (after : list csv_row) :
  Forall (fun r => csv_cell (amount_cell r)) (before ++ row :: after) ->
  unparseable (amount_cell row) ->
  row_amount row = Ok (NInt 0)
  /\ (forall income expenses,
        map fst expenses = EXPENSE_CATEGORIES ->
        csv_step (income, expenses) row
        = Ok match routed_category row with
             | None => (NInt 0, expenses)
             | Some c => (income, dict_update c plus_zero expenses)
             end)
  /\ exists snap expenses,
       process_csv_data now (Ok (before ++ row :: after)) = Ok snap
       /\ field snap "expenses" = Some (VDict expenses)
       /\ forall c, In c EXPENSE_CATEGORIES ->
            exists total,
              accumulate (NFloat zero) (amounts_with_zero_row c before row after)
              = Ok total
              /\ dict_lookup c expenses = Some (of_num total).
Proof.
  intros Hcells Hbad.
  assert (Hcell : csv_cell (amount_cell row)).
  { apply Forall_app in Hcells. destruct Hcells as [_ Hrest].
    inversion Hrest; assumption. }
  assert (Hamount : row_amount row = Ok (NInt 0)).
  { unfold row_amount. rewrite (csv_cell_unparseable _ Hcell Hbad). reflexivity. }
  split; [exact Hamount |]. split.
  - intros income expenses Hkeys. unfold csv_step. rewrite Hamount. cbn [bind].
    unfold routed_category, row_category. rewrite dict_mem_keys, Hkeys.
    destruct (String.eqb _ "Income"); [reflexivity |].
    destruct (existsb _ EXPENSE_CATEGORIES) eqn:E.
    + rewrite dict_add_zero; [reflexivity |].
      rewrite Hkeys. apply existsb_exists in E. destruct E as (k & Hk & Heq).
      apply String.eqb_eq in Heq. congruence.
    + rewrite dict_add_zero; [reflexivity |].
      rewrite Hkeys. apply others_is_a_category.
  - destruct (process_csv_total now _ Hcells) as [snap Hsnap].
    destruct (csv_snapshot_expenses _ _ _ Hsnap) as (expenses & Hfield & _ & Htotals).
    exists snap, expenses. split; [assumption |]. split; [assumption |].
    intros c Hc. destruct (Htotals c Hc) as (total & Hacc & Hlookup).
    exists total. split; [| assumption].
    rewrite amounts_routed_to_app in Hacc.
    change (row :: after) with ([row] ++ after) in Hacc.
    rewrite amounts_routed_to_app in Hacc.
    unfold amounts_with_zero_row.
    replace (match routed_category row with
             | Some c' => if String.eqb c' c then [NInt 0] else []
             | None => []
             end) with (amounts_routed_to c [row]); [exact Hacc |].
    unfold amounts_routed_to. simpl. rewrite Hamount, app_nil_r. reflexivity.
Qed.

(** *** The manual adapter on its fields *)

Lemma map_result_Raise {A V : Type} (f : A -> result V) (l : list A) (x : A) (e : exn) :
  In x l -> f x = Raise e -> exists e', map_result f l = Raise e'.
Proof.
  induction l as [| y l IH]; intros Hx Hf; [destruct Hx |].
  simpl. destruct (f y) as [v | e0] eqn:E; simpl; [| eauto].
  destruct Hx as [-> | Hx]; [congruence |].
  destruct (IH Hx Hf) as [e' ->]. simpl. eauto.
Qed.

Lemma map_result_ext {A V : Type} (f g : A -> result V) (l : list A) :
  (forall x, In x l -> f x = g x) -> map_result f l = map_result g l.
Proof.
  induction l as [| y l IH]; intros H; [reflexivity |].
  simpl. rewrite (H y (or_introl eq_refl)), IH; [reflexivity |].
  intros x Hx. apply H. right. exact Hx.
Qed.

Lemma map_result_total {A V : Type} (P : V -> Prop) (f : A -> result V) (l : list A) :
  (forall x, In x l -> exists v, f x = Ok v /\ P v) ->
  exists vs, map_result f l = Ok vs /\ Forall P vs /\ List.length vs = List.length l.
Proof.
  induction l as [| y l IH]; intros H; [exists []; repeat split; constructor |].
  destruct (H y (or_introl eq_refl)) as (v & Hv & HP).
  destruct IH as (vs & Hvs & HPs & Hlen); [intros x Hx; apply H; right; exact Hx |].
  exists (v :: vs). simpl. rewrite Hv, Hvs. simpl.
  repeat split; [constructor; assumption | congruence].
Qed.

Section ManualFields.

Context {B : Builtins}.

(** The manual adapter returns a Snapshot when the income and the field of
    every category, where present, can be parsed. *)
Lemma process_manual_total now d income :
  (raw <- py_get (VDict d) "income" (VInt 0) ;; py_float raw) = Ok income ->
  (forall c v, In c EXPENSE_CATEGORIES -> dict_lookup (lower c) d = Some v ->
     exists amount, py_float v = Ok amount) ->
  exists snap, process_manual_data now (VDict d) = Ok snap.
Proof.
  intros Hincome Hfields.
  destruct (map_result_total (fun entry => is_float (snd entry))
              (manual_expense (VDict d)) EXPENSE_CATEGORIES)
    as (expenses & Hexp & Hfloats & Hlen).
  { intros c Hc. unfold manual_expense. simpl.
    destruct (dict_lookup (lower c) d) as [v |] eqn:E; simpl.
    - destruct (Hfields c v Hc E) as [amount ->]. simpl.
      eexists. split; [reflexivity | eexists; reflexivity].
    - eexists. split; [reflexivity | eexists; reflexivity]. }
  destruct (derive_total (NFloat income) expenses) as [metrics Hd].
  { right. eexists. reflexivity. }
  { exact Hfloats. }
  { intros E. rewrite E in Hlen. discriminate. }
  bind_inv Hincome.
  unfold process_manual_data, process_manual_body.
  rewrite Ha. cbn [bind]. rewrite Hincome. cbn [bind].
  rewrite Hexp. cbn [bind]. rewrite Hd. cbn [bind].
  simpl py_get. destruct (dict_lookup "month" d); simpl; eauto.
Qed.

(** The Snapshot depends on the input through the fields read only. *)
Lemma process_manual_fields now d d' :
  (forall k, In k manual_fields -> dict_lookup k d' = dict_lookup k d) ->
  process_manual_data now (VDict d') = process_manual_data now (VDict d).
Proof.
  intros Hsame. unfold process_manual_data, process_manual_body.
  assert (Hget : forall k default, In k manual_fields ->
            py_get (VDict d') k default = py_get (VDict d) k default).
  { intros k default Hk. simpl. rewrite (Hsame k Hk). reflexivity. }
  rewrite (Hget "income") by (simpl; auto).
  rewrite (Hget "month") by (simpl; auto).
  rewrite (map_result_ext (manual_expense (VDict d')) (manual_expense (VDict d)));
    [reflexivity |].
  intros c Hc. unfold manual_expense. rewrite Hget; [reflexivity |].
  right. right. apply in_map. exact Hc.
Qed.

Lemma manual_expense_Raise d c v e :
  dict_lookup (lower c) d = Some v -> py_float v = Raise e ->
  manual_expense (VDict d) c = Raise e.
Proof.
  intros Hv He. unfold manual_expense, py_get. rewrite Hv. cbn [bind].
  rewrite He. reflexivity.
Qed.

End ManualFields.

(** C7 (amended).  When the "income" field of a manual input, or a field of
    it named by the lower-case form of a category of the schema ("rent" for
    Rent), holds a value that cannot be parsed as a number, the manual adapter
    returns no Snapshot: it raises one exception, whose message is
    "Error processing manual data: " followed by the cause. *)
Theorem C7_manual_rejects_unparseable {B : Builtins} (now : clock)
  (d : list (string * pyval)) :
  (exists v, dict_lookup "income" d = Some v /\ unparseable v)
  \/ (exists c v,
        In c EXPENSE_CATEGORIES /\ dict_lookup (lower c) d = Some v /\ unparseable v) ->
  exists cause,
    process_manual_data now (VDict d)
    = Raise (Exception "Error processing manual data: " cause).
Proof.
  intros Hbad. unfold process_manual_data.
  assert (Hbody : exists cause, process_manual_body now (VDict d) = Raise cause).
  { unfold process_manual_body.
    destruct (raw <- py_get (VDict d) "income" (VInt 0) ;; py_float raw)
      as [income | e0] eqn:Hincome.
    - destruct Hbad as [(v & Hv & e & He) | (c & v & Hc & Hv & e & He)].
      + unfold py_get in Hincome. rewrite Hv in Hincome. cbn [bind] in Hincome.
        congruence.
      + bind_inv Hincome. rewrite Ha. cbn [bind]. rewrite Hincome. cbn [bind].
        destruct (map_result_Raise (manual_expense (VDict d)) EXPENSE_CATEGORIES c e Hc
                    (manual_expense_Raise _ _ _ _ Hv He)) as [e' ->].
        cbn [bind]. eauto.
    - exists e0. destruct (py_get (VDict d) "income" (VInt 0)) as [raw | e1];
        cbn [bind] in Hincome |- *; [rewrite Hincome; reflexivity | congruence]. }
  destruct Hbody as [cause ->]. exists cause. reflexivity.
Qed.

(** C4 (amended).  The manual adapter reads the amount of each category of
    the schema from the field named by the lower-case form of the category
    ("rent" for Rent), and from no other: a field of that name contributes
    its value, as a float, to the amount of the category in the Snapshot, and
    two inputs that agree on the fields read ("income", "month" and the nine
    lower-case names) give the same Snapshot, whatever other fields, such as
    "Rent" or "RENT", they hold. *)
Theorem C4_manual_reads_lower_case_fields {B : Builtins} (now : clock)
  (d : list (string * pyval)) (snap : pyval) :
  process_manual_data now (VDict d) = Ok snap ->
  (exists expenses,
     field snap "expenses" = Some (VDict expenses)
     /\ forall c v,
          In c EXPENSE_CATEGORIES -> dict_lookup (lower c) d = Some v ->
          exists amount,
            py_float v = Ok amount /\ dict_lookup c expenses = Some (VFloat amount))
  /\ forall d',
       (forall k, In k manual_fields -> dict_lookup k d' = dict_lookup k d) ->
       process_manual_data now (VDict d') = Ok snap.
Proof.
  intros H. split.
  - destruct (manual_snapshot_expenses _ _ _ H) as (expenses & Hfield & _ & Hvalues).
    exists expenses. split; [assumption |].
    intros c v Hc Hv. destruct (Hvalues c Hc) as (raw & amount & Hget & Hfloat & Hlookup).
    unfold py_get in Hget. rewrite Hv in Hget. injection Hget as <-.
    exists amount. auto.
  - intros d' Hsame. rewrite (process_manual_fields now d d' Hsame). exact H.
Qed.

(** C10 (amended).  The manual adapter does not require the "income" field.
    For an input without it in which the field of every category, where
    present, can be parsed, the adapter returns a Snapshot with income 0.0,
    savings rate 0 and every expense percentage 0; when no category field is
    present either, as in the empty input, every expense amount, the total
    and the savings are 0.0 as well. *)
Theorem C10_income_field_is_optional {B : Builtins} (now : clock)
  (d : list (string * pyval)) :
  dict_lookup "income" d = None ->
  (forall c v, In c EXPENSE_CATEGORIES -> dict_lookup (lower c) d = Some v ->
     exists amount, py_float v = Ok amount) ->
  exists snap,
    process_manual_data now (VDict d) = Ok snap
    /\ field snap "income" = Some (VFloat zero)
    /\ field snap "savings_rate" = Some (VInt 0)
    /\ (exists percentages,
          field snap "expense_percentages" = Some (VDict percentages)
          /\ map fst percentages = EXPENSE_CATEGORIES
          /\ forall c, In c EXPENSE_CATEGORIES ->
               dict_lookup c percentages = Some (VInt 0))
    /\ ((forall c, In c EXPENSE_CATEGORIES -> dict_lookup (lower c) d = None) ->
        (exists expenses,
           field snap "expenses" = Some (VDict expenses)
           /\ map fst expenses = EXPENSE_CATEGORIES
           /\ forall c, In c EXPENSE_CATEGORIES ->
                dict_lookup c expenses = Some (VFloat zero))
        /\ field snap "total_expenses" = Some (VFloat zero)
        /\ field snap "savings" = Some (VFloat zero)).
Proof.
  intros Hincome Hfields.
  destruct (process_manual_total now d zero) as [snap Hsnap].
  { unfold py_get. rewrite Hincome. reflexivity. }
  { exact Hfields. }
  exists snap. split; [exact Hsnap |].
  destruct (manual_shape _ _ _ Hsnap)
    as (raw & income & expenses & Hraw & Hfloat & Hexp & Hshape).
  unfold py_get in Hraw. rewrite Hincome in Hraw. injection Hraw as <-.
  injection Hfloat as <-.
  destruct (manual_expenses_spec _ _ _ Hexp) as [Hkeys Hvalues].
  destruct (snapshot_zero_income _ _ _ Hshape eq_refl) as [Hrate Hpercentages].
  split; [apply (snapshot_of_income _ _ _ Hshape) |].
  split; [exact Hrate |]. split.
  - eexists. split; [exact Hpercentages |].
    split; [rewrite map_map; exact Hkeys |].
    intros c Hc. rewrite <- Hkeys in Hc. apply zero_percentage_lookup. exact Hc.
  - intros Habsent.
    assert (Hall : expenses = map (fun c => (c, NFloat zero)) EXPENSE_CATEGORIES).
    { assert (Hconst : map_result (manual_expense (VDict d)) EXPENSE_CATEGORIES
                       = map_result (fun c => Ok (c, NFloat zero)) EXPENSE_CATEGORIES).
      { apply map_result_ext. intros c Hc. unfold manual_expense, py_get.
        rewrite (Habsent c Hc). reflexivity. }
      rewrite Hconst in Hexp. injection Hexp as <-. reflexivity. }
    subst expenses.
    destruct Hshape as (total & savings & rate & percentages & month & ts & source & Hd & ->).
    injection Hd as <- <- _ _.
    repeat split.
    eexists. split; [reflexivity |]. split; [reflexivity |].
    intros c Hc. simpl in Hc.
    repeat (destruct Hc as [<- | Hc]; [reflexivity |]). destruct Hc.
Qed.

(** *** The Snapshot of an input that is all zeros *)

Lemma zero_num_cases (n : num) : num_eq n (NInt 0) = true -> is_zero_num n.
Proof.
  unfold is_zero_num. destruct n as [z | f].
  - unfold num_eq, num_compare. simpl. destruct z; try discriminate. auto.
  - unfold num_eq, num_compare.
    destruct (Prim2SF f) as [s | s | | s m e] eqn:E; simpl.
    + intros _. right. destruct s; [right | left]; f_equal;
        apply Prim2SF_inj; rewrite E; reflexivity.
    + destruct s; discriminate.
    + discriminate.
    + destruct (0 <=? e) eqn:He.
      * apply Z.leb_le in He.
        assert (0 < 2 ^ e) by (apply Z.pow_pos_nonneg; lia).
        destruct s; [assert (Hv : Z.neg m * 2 ^ e < 0) by nia
                    | assert (Hv : 0 < Z.pos m * 2 ^ e) by nia];
          destruct (_ * 2 ^ e); try lia; discriminate.
      * destruct s; discriminate.
Qed.

Lemma is_zero_num_value (n : num) : is_zero_num n -> is_zero_value (of_num n).
Proof. intros [-> | [-> | ->]]; reflexivity. Qed.

(** Zeros add up, from the integer 0, to a zero that is not negative. *)
Lemma py_sum_zeros (l : list num) :
  Forall is_zero_num l ->
  exists total, py_sum l = Ok total /\ (total = NInt 0 \/ total = NFloat zero).
Proof.
  intros Hl. unfold py_sum.
  assert (Hgen : forall acc, acc = NInt 0 \/ acc = NFloat zero ->
            exists total,
              fold_left (fun acc x => a <- acc ;; num_add a x) l (Ok acc) = Ok total
              /\ (total = NInt 0 \/ total = NFloat zero)).
  { induction Hl as [| x l Hx Hl IH]; intros acc Hacc; [simpl; eauto |].
    rewrite (fold_bind_cons num_add).
    assert (Hstep : exists acc', num_add acc x = Ok acc'
                                 /\ (acc' = NInt 0 \/ acc' = NFloat zero)).
    { destruct Hacc as [-> | ->]; destruct Hx as [-> | [-> | ->]];
        eexists; (split; [reflexivity | auto]). }
    destruct Hstep as (acc' & -> & Hacc'). cbn [bind]. apply IH, Hacc'. }
  apply Hgen. left. reflexivity.
Qed.

(** The four parts of the score on zeros. *)
Lemma zero_savings_points income total savings :
  is_zero_num income -> total = NInt 0 \/ total = NFloat zero ->
  num_sub income total = Ok savings ->
  is_zero_num savings
  /\ positive_savings_points (of_num savings) (of_num income) = Ok 10.
Proof.
  intros [-> | [-> | ->]] [-> | ->] H; injection H as <-;
    (split; [unfold is_zero_num; auto | reflexivity]).
Qed.

Lemma zero_income_emi_points income (expenses : list (string * pyval)) :
  is_zero_num income -> emi_points (VDict expenses) (of_num income) = Ok 20.
Proof.
  intros Hincome. unfold emi_points, py_get.
  assert (Hpos : py_gt (of_num income) (VInt 0) = Ok false)
    by (destruct Hincome as [-> | [-> | ->]]; reflexivity).
  destruct (dict_lookup "EMI" expenses); cbn [bind]; rewrite Hpos; reflexivity.
Qed.

Lemma zero_expenses_balance_points (expenses : list (string * num)) income :
  Forall (fun entry => is_zero_num (snd entry)) expenses ->
  balance_points (num_dict expenses) income = Ok 0.
Proof.
  intros Hzero. unfold balance_points, num_dict, py_values. cbn [bind].
  replace (filter_result _ _) with (@Ok (list pyval) []); [reflexivity |].
  symmetry. induction Hzero as [| [k v] l Hv _ IH]; [reflexivity |].
  simpl map. cbn [filter_result]. rewrite IH. simpl in Hv.
  destruct Hv as [-> | [-> | ->]]; reflexivity.
Qed.

(** The score of a Snapshot whose income and expenses are all zeros. *)
Lemma zero_snapshot_health income expenses total savings percentages month timestamp source :
  is_zero_num income ->
  Forall (fun entry => is_zero_num (snd entry)) expenses ->
  positive_savings_points (of_num savings) (of_num income) = Ok 10 ->
  calculate_financial_health
    (snapshot income expenses (total, savings, NInt 0, percentages) month timestamp source)
  = Ok (health_result 30 "Needs Improvement" "red").
Proof.
  intros Hincome Hexpenses Hsavings.
  unfold calculate_financial_health, health_body, snapshot.
  change (py_get (VDict _) "income" (VInt 0)) with (Ok (of_num income)).
  change (py_get (VDict _) "savings" (VInt 0)) with (Ok (of_num savings)).
  change (py_get (VDict _) "savings_rate" (VInt 0))
    with (Ok (of_num (py_round2 (NInt 0)))).
  change (py_get (VDict _) "expenses" (VDict [])) with (Ok (num_dict expenses)).
  cbn [bind]. change (savings_rate_points _) with (@Ok Z 0). cbn [bind].
  rewrite Hsavings. cbn [bind].
  unfold num_dict at 1. rewrite (zero_income_emi_points _ _ Hincome). cbn [bind].
  rewrite (zero_expenses_balance_points _ _ Hexpenses). reflexivity.
Qed.

(** C9. For the Snapshot of an input whose income is zero and whose expense
    amounts are all zero, the savings rate is the integer 0, every expense
    percentage is 0 and the savings are zero; the scorer gives it the score 30,
    which is at least 20: the savings part awards 10 (the savings are not
    below minus a tenth of the income), the EMI part 20, the other two 0. *)
Theorem C9_all_zero_snapshot {B : Builtins} (now : clock) (snap : pyval) :
  ingested now snap ->
  (exists income, field snap "income" = Some income /\ is_zero_value income) ->
  (exists expenses,
     field snap "expenses" = Some (VDict expenses)
     /\ Forall (fun entry => is_zero_value (snd entry)) expenses) ->
  field snap "savings_rate" = Some (VInt 0)
  /\ (exists percentages,
        field snap "expense_percentages" = Some (VDict percentages)
        /\ map fst percentages = EXPENSE_CATEGORIES
        /\ forall c, In c EXPENSE_CATEGORIES ->
             dict_lookup c percentages = Some (VInt 0))
  /\ (exists income savings,
        field snap "income" = Some income
        /\ field snap "savings" = Some savings
        /\ is_zero_value savings
        /\ positive_savings_points savings income = Ok 10)
  /\ exists score status color,
       calculate_financial_health snap = Ok (health_result score status color)
       /\ score = 30 /\ 20 <= score.
Proof.
  intros Hsnap (v & Hfield & Hzero) (vs & Hexpenses & Hzeros).
  destruct (ingested_keys _ _ Hsnap) as (income & expenses & Hshape & Hkeys).
  rewrite (snapshot_of_income _ _ _ Hshape) in Hfield. injection Hfield as <-.
  apply is_zero_value_of_num in Hzero.
  rewrite (snapshot_of_expenses _ _ _ Hshape) in Hexpenses. injection Hexpenses as <-.
  assert (Hnums : Forall (fun entry => is_zero_num (snd entry)) expenses).
  { rewrite Forall_map in Hzeros. revert Hzeros. apply Forall_impl.
    intros entry H. apply zero_num_cases, is_zero_value_of_num, H. }
  destruct (snapshot_zero_income _ _ _ Hshape Hzero) as [Hrate Hpercentages].
  destruct Hshape as (total & savings & rate & percentages & month & ts & source & Hd & ->).
  destruct (derive_not_positive _ _ _ _ _ _ (zero_not_positive _ Hzero) Hd) as [-> ->].
  unfold derive in Hd. do 4 bind_inv Hd. injection Hd as -> -> _ _.
  destruct (py_sum_zeros (map snd expenses)) as (total' & Hsum & Htotal);
    [rewrite Forall_map; exact Hnums |].
  rewrite Hsum in Ha. injection Ha as <-.
  destruct (zero_savings_points _ _ _ (zero_num_cases _ Hzero) Htotal Ha0)
    as [Hsavings Hpoints].
  split; [exact Hrate |]. split.
  - eexists. split; [exact Hpercentages |].
    split; [rewrite map_map; exact Hkeys |].
    intros c Hc. rewrite <- Hkeys in Hc. apply zero_percentage_lookup. exact Hc.
  - split.
    + exists (of_num income), (of_num savings).
      repeat split; [apply is_zero_num_value, Hsavings | exact Hpoints].
    + exists 30, "Needs Improvement", "red". split; [| lia].
      apply zero_snapshot_health; [apply zero_num_cases, Hzero | exact Hnums | exact Hpoints].
Qed.

Lemma C1_witness :
  (exists snap expenses,
     process_manual_data example_clock manual_example = Ok snap
     /\ field snap "expenses" = Some (VDict expenses)
     /\ map fst expenses = EXPENSE_CATEGORIES
     /\ forall c, In c EXPENSE_CATEGORIES -> field manual_example (lower c) = None ->
          dict_lookup c expenses = Some (VFloat zero))
  /\ (exists snap expenses,
        process_csv_data example_clock (Ok csv_example) = Ok snap
        /\ field snap "expenses" = Some (VDict expenses)
        /\ map fst expenses = EXPENSE_CATEGORIES
        /\ dict_lookup "Others" expenses = Some (VFloat 40.5)).
Proof.
  split.
  - destruct (process_manual_data example_clock manual_example) as [snap | e] eqn:E;
      [| vm_compute in E; discriminate E].
    destruct (proj1 (C1_expenses_keys_are_the_schema example_clock snap) manual_example E)
      as (expenses & Hfield & Hkeys & Hzero).
    exists snap, expenses. auto.
  - destruct (process_csv_data example_clock (Ok csv_example)) as [snap | e] eqn:E;
      [| vm_compute in E; discriminate E].
    destruct (proj2 (C1_expenses_keys_are_the_schema example_clock snap) (Ok csv_example) E)
      as (rows & expenses & Hrows & Hfield & Hkeys & Htotals).
    injection Hrows as <-.
    exists snap, expenses. repeat split; try assumption.
    destruct (proj1 (Htotals "Others" others_is_a_category)) as (total & Hacc & Hlookup).
    vm_compute in Hacc. injection Hacc as <-. exact Hlookup.
Defined.

Lemma C2_witness :
  (exists snap,
     process_manual_data example_clock (VDict [ ("income", VInt 0); ("rent", VInt 500) ])
     = Ok snap
     /\ field snap "savings_rate" = Some (VInt 0)
     /\ exists percentages,
          field snap "expense_percentages" = Some (VDict percentages)
          /\ dict_lookup "Rent" percentages = Some (VInt 0))
  /\ (exists snap,
        process_csv_data example_clock
          (Ok [ {| category_text := "Rent"; amount_cell := VInt 500 |} ]) = Ok snap
        /\ field snap "savings_rate" = Some (VInt 0)).
Proof.
  split.
  - destruct (process_manual_data example_clock
                (VDict [ ("income", VInt 0); ("rent", VInt 500) ]))
      as [snap | e] eqn:E; [| vm_compute in E; discriminate E].
    destruct (C2_zero_income_zero_rates example_clock snap)
      as (Hrate & percentages & Hfield & _ & Hzero).
    + left. eexists. exact E.
    + injection E as <-. exists (VFloat zero). split; reflexivity.
    + exists snap. split; [reflexivity |]. split; [exact Hrate |].
      exists percentages. split; [exact Hfield |]. apply Hzero. simpl. auto.
  - destruct (process_csv_data example_clock
                (Ok [ {| category_text := "Rent"; amount_cell := VInt 500 |} ]))
      as [snap | e] eqn:E; [| vm_compute in E; discriminate E].
    destruct (C2_zero_income_zero_rates example_clock snap) as [Hrate _].
    + right. eexists. exact E.
    + injection E as <-. exists (VFloat zero). split; reflexivity.
    + exists snap. split; [reflexivity | exact Hrate].
Defined.

Lemma C5_witness :
  exists snap,
    process_csv_data example_clock (Ok two_income_rows) = Ok snap
    /\ field snap "income" = Some (VFloat 50000%float).
Proof.
  exact (proj2 (C5_last_income_row_wins example_clock)
           {| category_text := "Income"; amount_cell := VInt 40000 |}
           {| category_text := "income"; amount_cell := VInt 50000 |}
           eq_refl eq_refl eq_refl eq_refl).
Defined.

Lemma X20_witness :
  row_amount {| category_text := " rent "; amount_cell := VStr "1,200" |} = Ok (NInt 0)
  /\ exists snap expenses,
       process_csv_data example_clock (Ok csv_example) = Ok snap
       /\ field snap "expenses" = Some (VDict expenses)
       /\ dict_lookup "Rent" expenses = Some (VFloat 800).
Proof.
  destruct (X20_rejected_text_counts_as_zero example_clock
              [ {| category_text := "Income"; amount_cell := VInt 40000 |} ]
              {| category_text := " rent "; amount_cell := VStr "1,200" |}
              [ {| category_text := "rent"; amount_cell := VInt 800 |};
                {| category_text := "gym"; amount_cell := VFloat 40.5 |} ])
    as (Hamount & _ & snap & expenses & Hsnap & Hfield & Htotals).
  - repeat constructor; simpl; lia.
  - exists ValueError. reflexivity.
  - split; [exact Hamount |].
    exists snap, expenses. split; [exact Hsnap |]. split; [exact Hfield |].
    destruct (Htotals "Rent") as (total & Hacc & Hlookup); [simpl; auto |].
    vm_compute in Hacc. injection Hacc as <-. exact Hlookup.
Defined.

(** C6. The frame [pd.read_csv] builds for the file with the lines
    [Category,Amount], [Rent,N/A], [Food,200]: it reads N/A as a missing
    value, the float NaN.  [float] returns the NaN without raising, so the
    branch that sets the amount to 0 is not taken and the NaN is added: the
    Snapshot holds NaN for Rent, for the total and for the savings, where
    the specification counts the row as 0. *)
Theorem C6_missing_amount_is_added_as_nan :
  let rows :=
    [ {| category_text := "Rent"; amount_cell := VFloat nan |};
      {| category_text := "Food"; amount_cell := VFloat 200 |} ] in
  py_float (VFloat nan) = Ok nan
  /\ row_amount {| category_text := "Rent"; amount_cell := VFloat nan |}
     = Ok (NFloat nan)
  /\ exists snap expenses,
       process_csv_data example_clock (Ok rows) = Ok snap
       /\ field snap "expenses" = Some (VDict expenses)
       /\ dict_lookup "Rent" expenses = Some (VFloat nan)
       /\ dict_lookup "Food" expenses = Some (VFloat 200)
       /\ field snap "total_expenses" = Some (VFloat nan)
       /\ field snap "savings" = Some (VFloat nan).
Proof.
  cbv zeta. split; [reflexivity |]. split; [reflexivity |].
  destruct (process_csv_data example_clock
              (Ok [ {| category_text := "Rent"; amount_cell := VFloat nan |};
                    {| category_text := "Food"; amount_cell := VFloat 200 |} ]))
    as [snap | e] eqn:E; [| vm_compute in E; discriminate E].
  vm_compute in E. injection E as <-.
  eexists _, _. split; [reflexivity |]. split; [reflexivity |].
  repeat split.
Qed.

Lemma C7_witness :
  (exists cause,
     process_manual_data example_clock (VDict [ ("income", VStr "abc") ])
     = Raise (Exception "Error processing manual data: " cause))
  /\ (exists cause,
        process_manual_data example_clock
          (VDict [ ("income", VInt 1000); ("food", VStr "twenty") ])
        = Raise (Exception "Error processing manual data: " cause)).
Proof.
  split.
  - apply C7_manual_rejects_unparseable. left.
    exists (VStr "abc"). split; [reflexivity |]. exists ValueError. reflexivity.
  - apply C7_manual_rejects_unparseable. right.
    exists "Food", (VStr "twenty"). split; [simpl; auto |].
    split; [reflexivity |]. exists ValueError. reflexivity.
Defined.

(** The input of the manual adapter has the field "Rent", spelled as the
    category of the schema is, with a value that is not a number; the adapter
    returns a Snapshot all the same, whose Rent amount is 0.0. *)
Lemma C7_counterexample :
  let data := VDict [ ("income", VInt 1000); ("Rent", VStr "abc") ] in
  field data "Rent" = Some (VStr "abc")
  /\ py_float (VStr "abc") = Raise ValueError
  /\ exists snap expenses,
       process_manual_data example_clock data = Ok snap
       /\ field snap "expenses" = Some (VDict expenses)
       /\ dict_lookup "Rent" expenses = Some (VFloat zero).
Proof.
  repeat split. eexists. eexists. repeat split.
Qed.

Lemma C8_witness :
  calculate_financial_health (VList []) = Ok (health_result 0 "Error" "gray")
  /\ calculate_financial_health (VDict [ ("income", VStr "high") ])
     = Ok (health_result 0 "Error" "gray").
Proof.
  split.
  - exact (proj2 (C8_scorer_never_raises (VList [])) AttributeError eq_refl).
  - exact (proj2 (C8_scorer_never_raises (VDict [ ("income", VStr "high") ]))
             TypeError eq_refl).
Defined.

Lemma C9_witness :
  exists snap score status color,
    process_manual_data example_clock (VDict [ ("income", VInt 0) ]) = Ok snap
    /\ field snap "savings_rate" = Some (VInt 0)
    /\ calculate_financial_health snap = Ok (health_result score status color)
    /\ 20 <= score.
Proof.
  destruct (process_manual_data example_clock (VDict [ ("income", VInt 0) ]))
    as [snap | e] eqn:E; [| vm_compute in E; discriminate E].
  destruct (C9_all_zero_snapshot example_clock snap) as (Hrate & _ & _ & Hscore).
  - left. exists (VDict [ ("income", VInt 0) ]). exact E.
  - injection E as <-. exists (VFloat zero). split; reflexivity.
  - injection E as <-. eexists. split; [reflexivity |].
    repeat constructor.
  - destruct Hscore as (score & status & color & Hhealth & _ & Hge).
    exists snap, score, status, color. auto.
Defined.

(** The input of the manual adapter has the field "Rent", spelled as the
    category of the schema is, with the value 500, and the Rent amount of the
    Snapshot is 0.0: the field was not read. *)
Lemma C4_counterexample :
  let data := VDict [ ("income", VInt 1000); ("Rent", VInt 500) ] in
  field data "Rent" = Some (VInt 500)
  /\ lower "Rent" = lower "Rent"
  /\ py_float (VInt 500) = Ok 500%float
  /\ exists snap expenses,
       process_manual_data example_clock data = Ok snap
       /\ field snap "expenses" = Some (VDict expenses)
       /\ dict_lookup "Rent" expenses = Some (VFloat zero).
Proof.
  repeat split. eexists. eexists. repeat split.
Qed.

Lemma C4_witness :
  exists snap expenses,
    process_manual_data example_clock
      (VDict [ ("income", VInt 1000); ("rent", VStr "500"); ("Rent", VInt 7) ]) = Ok snap
    /\ field snap "expenses" = Some (VDict expenses)
    /\ dict_lookup "Rent" expenses = Some (VFloat 500)
    /\ process_manual_data example_clock
         (VDict [ ("RENT", VInt 9); ("rent", VStr "500"); ("income", VInt 1000) ])
       = Ok snap.
Proof.
  destruct (process_manual_data example_clock
              (VDict [ ("income", VInt 1000); ("rent", VStr "500"); ("Rent", VInt 7) ]))
    as [snap | e] eqn:E; [| vm_compute in E; discriminate E].
  destruct (C4_manual_reads_lower_case_fields example_clock _ snap E)
    as [(expenses & Hfield & Hvalues) Hsame].
  exists snap, expenses. split; [reflexivity |]. split; [exact Hfield |]. split.
  - destruct (Hvalues "Rent" (VStr "500")) as (amount & Hamount & Hlookup);
      [simpl; auto | reflexivity |].
    vm_compute in Hamount. injection Hamount as <-. exact Hlookup.
  - apply Hsame. intros k Hk. simpl in Hk.
    repeat (destruct Hk as [<- | Hk]; [reflexivity |]). destruct Hk.
Defined.

(** The input of the manual adapter has no "income" field, and the Snapshot
    has the Rent amount 500.0 and the savings -500.0, not 0. *)
Lemma C10_counterexample :
  let data := VDict [ ("rent", VInt 500) ] in
  field data "income" = None
  /\ exists snap expenses,
       process_manual_data example_clock data = Ok snap
       /\ field snap "expenses" = Some (VDict expenses)
       /\ dict_lookup "Rent" expenses = Some (VFloat 500)
       /\ field snap "savings" = Some (VFloat (-500))
       /\ PrimFloat.eqb 500 zero = false
       /\ PrimFloat.eqb (-500) zero = false.
Proof.
  repeat split. eexists. eexists. repeat split.
Qed.

Lemma C10_witness :
  (exists snap,
     process_manual_data example_clock (VDict []) = Ok snap
     /\ field snap "income" = Some (VFloat zero)
     /\ field snap "savings_rate" = Some (VInt 0)
     /\ field snap "savings" = Some (VFloat zero))
  /\ (exists snap,
        process_manual_data example_clock (VDict [ ("food", VStr "120.50") ]) = Ok snap
        /\ field snap "income" = Some (VFloat zero)
        /\ field snap "savings_rate" = Some (VInt 0)).
Proof.
  split.
  - destruct (C10_income_field_is_optional example_clock [])
      as (snap & Hsnap & Hincome & Hrate & _ & Hempty).
    + reflexivity.
    + intros c v _ Hv. discriminate Hv.
    + exists snap. repeat split; try assumption.
      apply Hempty. reflexivity.
  - destruct (C10_income_field_is_optional example_clock [ ("food", VStr "120.50") ])
      as (snap & Hsnap & Hincome & Hrate & _).
    + reflexivity.
    + intros c v Hc Hv. simpl in Hc.
      repeat (destruct Hc as [<- | Hc]; [try discriminate Hv |]); [| destruct Hc].
      injection Hv as <-. eexists. reflexivity.
    + exists snap. auto.
Defined.

(** ** Further properties of the CSV adapter *)

(** No text is title-cased to "EMI": a cased character that follows a cased
    character is lower-cased. *)
Lemma title_is_never_EMI (s : string) : AsciiText.title s <> "EMI".
Proof.
  unfold AsciiText.title.
  destruct s as [| c1 [| c2 rest]]; [discriminate | |].
  - simpl. destruct (_ || _)%bool; discriminate.
  - cbn [AsciiText.title_from].
    destruct (AsciiText.is_upper c1 || AsciiText.is_lower c1)%bool eqn:E1.
    + destruct (AsciiText.is_upper c2 || AsciiText.is_lower c2)%bool eqn:E2;
        intros H; injection H as _ H2 _; subst;
        [| discriminate E2].
      revert E2 H2.
      destruct c2 as [[] [] [] [] [] [] [] []]; vm_compute; congruence.
    + intros H. injection H as H1 _. subst. discriminate E1.
Qed.

(** X1. With the casing of ASCII text, no row of a frame reaches the EMI
    category: the category text "EMI" is title-cased to "Emi", which is not a
    key of the expenses, so its amount is added to Others.  The EMI amount of
    every Snapshot of the CSV adapter is 0.0. *)
Theorem X1_csv_rows_never_reach_EMI (now : clock) (rows : list csv_row) (snap : pyval) :
  process_csv_data (B := ascii_builtins) now (Ok rows) = Ok snap ->
  (forall row, In row rows -> routed_category row <> Some "EMI")
  /\ exists expenses,
       field snap "expenses" = Some (VDict expenses)
       /\ dict_lookup "EMI" expenses = Some (VFloat zero).
Proof.
  intros H.
  assert (Hnever : forall row, In row rows -> routed_category row <> Some "EMI").
  { intros row _. unfold routed_category, row_category. simpl str_title.
    destruct (String.eqb _ "Income"); [discriminate |].
    destruct (existsb _ EXPENSE_CATEGORIES); [| discriminate].
    intros E. injection E as E. exact (title_is_never_EMI _ E). }
  split; [exact Hnever |].
  destruct (csv_snapshot_expenses _ _ _ H) as (expenses & Hfield & _ & Htotals).
  exists expenses. split; [exact Hfield |].
  destruct (Htotals "EMI") as (total & Hacc & Hlookup); [simpl; auto 10 |].
  rewrite (nothing_routed _ _ Hnever) in Hacc. injection Hacc as <-. exact Hlookup.
Qed.

Lemma X1_witness :
  exists snap expenses,
    process_csv_data example_clock
      (Ok [ {| category_text := "EMI"; amount_cell := VInt 20000 |} ]) = Ok snap
    /\ field snap "expenses" = Some (VDict expenses)
    /\ dict_lookup "EMI" expenses = Some (VFloat zero)
    /\ dict_lookup "Others" expenses = Some (VFloat 20000).
Proof.
  destruct (process_csv_data example_clock
              (Ok [ {| category_text := "EMI"; amount_cell := VInt 20000 |} ]))
    as [snap | e] eqn:E; [| vm_compute in E; discriminate E].
  destruct (X1_csv_rows_never_reach_EMI example_clock _ snap E)
    as (_ & expenses & Hfield & Hemi).
  exists snap, expenses. split; [reflexivity |]. split; [exact Hfield |].
  split; [exact Hemi |].
  injection E as <-. injection Hfield as <-. reflexivity.
Defined.

(** A sum with a NaN is a NaN. *)
Lemma float_nan_plus (y : float) : PrimFloat.add nan y = nan.
Proof.
  apply Prim2SF_inj. rewrite add_spec.
  change (Prim2SF nan) with S754_nan. reflexivity.
Qed.

Lemma float_plus_nan (x : float) : PrimFloat.add x nan = nan.
Proof.
  apply Prim2SF_inj. rewrite add_spec.
  change (Prim2SF nan) with S754_nan.
  destruct (Prim2SF x); reflexivity.
Qed.

Section NanAmount.

Context {B : Builtins}.

(** The loop binds [amount] to a float or to the integer 0, nothing else. *)
Lemma row_amount_is_amount row amount :
  row_amount row = Ok amount -> is_amount amount.
Proof.
  unfold row_amount, is_amount, is_float.
  destruct (py_float (amount_cell row)) as [f | []]; simpl; intros H;
    try discriminate H; injection H as <-; eauto.
Qed.

Lemma amounts_routed_are_amounts c rows :
  Forall is_amount (amounts_routed_to c rows).
Proof.
  unfold amounts_routed_to. induction rows as [| row rows IH]; [constructor |].
  simpl. apply Forall_app. split; [| exact IH].
  destruct (routed_category row); [| constructor].
  destruct (row_amount row) as [amount |] eqn:E; [| constructor].
  destruct (String.eqb _ c); [| constructor].
  constructor; [exact (row_amount_is_amount _ _ E) | constructor].
Qed.

Lemma accumulate_float x amounts :
  Forall is_amount amounts ->
  exists total, accumulate (NFloat x) amounts = Ok (NFloat total).
Proof.
  intros H. revert x. induction H as [| a l Ha _ IH]; intros x; [eexists; reflexivity |].
  rewrite accumulate_cons.
  destruct Ha as [-> | [y ->]]; cbn [num_add num_arith num_to_float bind];
    [rewrite int_to_float_0; cbn [bind] |]; apply IH.
Qed.

Lemma accumulate_nan amounts :
  Forall is_amount amounts -> accumulate (NFloat nan) amounts = Ok (NFloat nan).
Proof.
  induction 1 as [| a l Ha _ IH]; [reflexivity |].
  rewrite accumulate_cons.
  destruct Ha as [-> | [y ->]]; cbn [num_add num_arith num_to_float bind].
  - rewrite int_to_float_0. cbn [bind]. rewrite float_nan_plus. exact IH.
  - rewrite float_nan_plus. exact IH.
Qed.

Lemma accumulate_app start amounts1 amounts2 :
  accumulate start (amounts1 ++ amounts2)
  = (total <- accumulate start amounts1 ;; accumulate total amounts2).
Proof. apply (fold_bind_app num_add). Qed.

End NanAmount.

(** X2. A row whose amount cell is the float NaN (what a frame holds for a
    missing amount) is not given the amount 0: [float] returns the NaN, the
    loop adds it, and the category the row is routed to holds NaN in the
    Snapshot, whatever the other rows are. *)
Theorem X2_nan_amount_is_not_defaulted {B : Builtins} (now : clock)
  (before : list csv_row) (row : csv_row) (after : list csv_row)
  (c : string) (snap : pyval) :
  amount_cell row = VFloat nan ->
  routed_category row = Some c ->
  process_csv_data now (Ok (before ++ row :: after)) = Ok snap ->
  row_amount row = Ok (NFloat nan)
  /\ exists expenses,
       field snap "expenses" = Some (VDict expenses)
       /\ dict_lookup c expenses = Some (VFloat nan).
Proof.
  intros Hcell Hroute H.
  assert (Hamount : row_amount row = Ok (NFloat nan))
    by (unfold row_amount; rewrite Hcell; reflexivity).
  split; [exact Hamount |].
  destruct (csv_snapshot_expenses _ _ _ H) as (expenses & Hfield & Hkeys & Htotals).
  exists expenses. split; [exact Hfield |].
  assert (Hc : In c EXPENSE_CATEGORIES).
  { revert Hroute. unfold routed_category.
    destruct (String.eqb _ "Income"); [discriminate |].
    destruct (existsb _ EXPENSE_CATEGORIES) eqn:E; intros Hr; injection Hr as <-.
    - apply existsb_exists in E. destruct E as (k & Hk & Heq).
      apply String.eqb_eq in Heq. congruence.
    - apply others_is_a_category. }
  destruct (Htotals c Hc) as (total & Hacc & Hlookup).
  rewrite Hlookup. do 2 f_equal.
  change (row :: after) with ([row] ++ after) in Hacc.
  rewrite !amounts_routed_to_app in Hacc.
  replace (amounts_routed_to c [row]) with [NFloat nan] in Hacc
    by (unfold amounts_routed_to; simpl; rewrite Hroute, Hamount, String.eqb_refl;
        reflexivity).
  rewrite accumulate_app in Hacc.
  destruct (accumulate_float zero _ (amounts_routed_are_amounts c before)) as [x Hx].
  rewrite Hx in Hacc. cbn [bind] in Hacc.
  simpl app in Hacc. rewrite accumulate_cons in Hacc.
  cbn [num_add num_arith num_to_float bind] in Hacc.
  rewrite float_plus_nan, (accumulate_nan _ (amounts_routed_are_amounts c after)) in Hacc.
  injection Hacc as <-. reflexivity.
Qed.

Lemma X2_witness :
  exists snap expenses,
    process_csv_data example_clock
      (Ok [ {| category_text := "food"; amount_cell := VInt 300 |};
            {| category_text := "food"; amount_cell := VFloat nan |};
            {| category_text := "food"; amount_cell := VInt 200 |} ]) = Ok snap
    /\ field snap "expenses" = Some (VDict expenses)
    /\ dict_lookup "Food" expenses = Some (VFloat nan).
Proof.
  destruct (process_csv_data example_clock
              (Ok ([ {| category_text := "food"; amount_cell := VInt 300 |} ]
                   ++ {| category_text := "food"; amount_cell := VFloat nan |}
                   :: [ {| category_text := "food"; amount_cell := VInt 200 |} ])))
    as [snap | e] eqn:E; [| vm_compute in E; discriminate E].
  destruct (X2_nan_amount_is_not_defaulted (B := ascii_builtins) example_clock
              [ {| category_text := "food"; amount_cell := VInt 300 |} ]
              {| category_text := "food"; amount_cell := VFloat nan |}
              [ {| category_text := "food"; amount_cell := VInt 200 |} ]
              "Food" snap eq_refl eq_refl E) as (_ & expenses & Hfield & Hfood).
  exists snap, expenses. split; [exact E |]. split; assumption.
Defined.

(** ** The scorer, part by part *)

Lemma py_ge_number v n k :
  as_num v = Some n -> py_ge v (VInt k) = Ok (num_ge n (NInt k)).
Proof. intros H. unfold py_ge, py_order. rewrite H. reflexivity. Qed.

Lemma py_gt_number v n k :
  as_num v = Some n -> py_gt v (VInt k) = Ok (num_gt n (NInt k)).
Proof. intros H. unfold py_gt, py_order. rewrite H. reflexivity. Qed.

Lemma savings_rate_points_values v p :
  savings_rate_points v = Ok p -> In p [0; 10; 20; 30; 40].
Proof.
  unfold savings_rate_points. intros H.
  repeat (bind_inv H; match type of H with
                      | (if ?c then _ else _) = _ => destruct c
                      end; [injection H as <-; simpl; tauto |]).
  injection H as <-. simpl. tauto.
Qed.

Lemma positive_savings_points_values savings income p :
  positive_savings_points savings income = Ok p -> In p [0; 10; 20].
Proof.
  unfold positive_savings_points. intros H.
  bind_inv H. destruct a; [injection H as <-; simpl; tauto |].
  do 3 bind_inv H. destruct a1; injection H as <-; simpl; tauto.
Qed.

Lemma emi_points_values expenses income p :
  emi_points expenses income = Ok p -> In p [0; 5; 10; 15; 20].
Proof.
  unfold emi_points. intros H. do 3 bind_inv H.
  destruct (py_eq_num a1 (NInt 0)); [injection H as <-; simpl; tauto |].
  repeat (bind_inv H; match type of H with
                      | (if ?c then _ else _) = _ => destruct c
                      end; [injection H as <-; simpl; tauto |]).
  injection H as <-. simpl. tauto.
Qed.

Lemma balance_points_values expenses income p :
  balance_points expenses income = Ok p -> In p [0; 5; 10; 15; 20].
Proof.
  unfold balance_points. intros H. do 2 bind_inv H.
  destruct a0 as [| first rest]; [injection H as <-; simpl; tauto |].
  bind_inv H. destruct a0; [| injection H as <-; simpl; tauto].
  do 3 bind_inv H.
  repeat (bind_inv H; match type of H with
                      | (if ?c then _ else _) = _ => destruct c
                      end; [injection H as <-; simpl; tauto |]).
  injection H as <-. simpl. tauto.
Qed.

(** X3. Whenever the scorer does not answer Error, its score is the plain sum
    of the four parts of the rubric, read from the fields "savings_rate",
    "savings", "income" and "expenses": the savings-rate part is one of 0, 10,
    20, 30, 40, the savings part one of 0, 10, 20, the EMI part and the
    balance part one of 0, 5, 10, 15, 20.  The clamp to 0..100 never changes
    the sum, the score is a multiple of 5, and the status and colour are those
    of the score. *)
Theorem X3_score_is_the_sum_of_its_parts (financial_data : pyval)
  (score : Z) (status color : string) :
  calculate_financial_health financial_data = Ok (health_result score status color) ->
  status <> "Error" ->
  exists income savings savings_rate expenses p1 p2 p3 p4,
    py_get financial_data "income" (VInt 0) = Ok income
    /\ py_get financial_data "savings" (VInt 0) = Ok savings
    /\ py_get financial_data "savings_rate" (VInt 0) = Ok savings_rate
    /\ py_get financial_data "expenses" (VDict []) = Ok expenses
    /\ savings_rate_points savings_rate = Ok p1 /\ In p1 [0; 10; 20; 30; 40]
    /\ positive_savings_points savings income = Ok p2 /\ In p2 [0; 10; 20]
    /\ emi_points expenses income = Ok p3 /\ In p3 [0; 5; 10; 15; 20]
    /\ balance_points expenses income = Ok p4 /\ In p4 [0; 5; 10; 15; 20]
    /\ score = p1 + p2 + p3 + p4
    /\ (exists k, score = 5 * k)
    /\ (status, color) = status_color score.
Proof.
  unfold calculate_financial_health. intros H Hstatus.
  destruct (health_body financial_data) as [result | e] eqn:E; simpl in H;
    [| injection H as _ Hs _; congruence].
  injection H as ->. unfold health_body in E. do 8 bind_inv E.
  pose proof (savings_rate_points_values _ _ Ha3) as H1.
  pose proof (positive_savings_points_values _ _ _ Ha4) as H2.
  pose proof (emi_points_values _ _ _ Ha5) as H3.
  pose proof (balance_points_values _ _ _ Ha6) as H4.
  assert (Hclamp : Z.max 0 (Z.min 100 (0 + a3 + a4 + a5 + a6)) = a3 + a4 + a5 + a6).
  { simpl in H1, H2, H3, H4. lia. }
  rewrite Hclamp in E.
  destruct (status_color (a3 + a4 + a5 + a6)) as [st co] eqn:Esc.
  injection E as <- <- <-.
  exists a, a0, a1, a2, a3, a4, a5, a6. repeat split; try assumption.
  - exists ((a3 + a4 + a5 + a6) / 5). simpl in H1, H2, H3, H4.
    destruct H1 as [<- | [<- | [<- | [<- | [<- | []]]]]];
    destruct H2 as [<- | [<- | [<- | []]]];
    destruct H3 as [<- | [<- | [<- | [<- | [<- | []]]]]];
    destruct H4 as [<- | [<- | [<- | [<- | [<- | []]]]]]; reflexivity.
  - symmetry. exact Esc.
Qed.

Lemma X3_witness :
  exists p1 p2 p3 p4,
    savings_rate_points (VFloat 14) = Ok p1
    /\ positive_savings_points (VFloat 7000) (VFloat 50000) = Ok p2
    /\ emi_points (VDict [ ("Rent", VFloat 15000); ("EMI", VFloat 20000) ]) (VFloat 50000)
       = Ok p3
    /\ balance_points (VDict [ ("Rent", VFloat 15000); ("EMI", VFloat 20000) ])
         (VFloat 50000) = Ok p4
    /\ 65 = p1 + p2 + p3 + p4.
Proof.
  destruct (X3_score_is_the_sum_of_its_parts
              (VDict [ ("income", VFloat 50000); ("savings", VFloat 7000);
                       ("savings_rate", VFloat 14);
                       ("expenses",
                        VDict [ ("Rent", VFloat 15000); ("EMI", VFloat 20000) ]) ])
              65 "Good" "lightgreen" eq_refl)
    as (income & savings & rate & expenses & p1 & p2 & p3 & p4
        & Hi & Hs & Hr & He & H1 & _ & H2 & _ & H3 & _ & H4 & _ & Hsum & _).
  - discriminate.
  - injection Hi as <-. injection Hs as <-. injection Hr as <-. injection He as <-.
    exists p1, p2, p3, p4. auto.
Defined.

(** ** The Snapshot of an adapter is well typed *)

Section Typed.

Context {B : Builtins}.

Lemma manual_expenses_floats data categories expenses :
  map_result (manual_expense data) categories = Ok expenses -> float_valued expenses.
Proof.
  revert expenses. induction categories as [| c l IH]; simpl; intros expenses H.
  - injection H as <-. constructor.
  - bind_inv H. bind_inv H. injection H as <-.
    unfold manual_expense in Ha. do 2 bind_inv Ha. injection Ha as <-.
    constructor; [eexists; reflexivity | apply IH; assumption].
Qed.

Lemma dict_add_floats k amount d d' :
  float_valued d -> is_amount amount -> dict_add k amount d = Ok d' -> float_valued d'.
Proof.
  intros Hd Hamount. revert d'.
  induction Hd as [| [k0 v0] d [x Hx] Hd IH]; intros d' H; [discriminate H |].
  simpl in Hx. subst v0. cbn [dict_add] in H.
  destruct (String.eqb k k0).
  - bind_inv H. injection H as <-.
    constructor; [| exact Hd].
    destruct Hamount as [-> | [y ->]]; injection Ha as <-; eexists; reflexivity.
  - bind_inv H. injection H as <-.
    constructor; [eexists; reflexivity | apply IH; assumption].
Qed.

Lemma csv_step_ok state row state' :
  csv_state_ok state -> csv_step state row = Ok state' -> csv_state_ok state'.
Proof.
  destruct state as [income expenses]. intros (Hincome & Hkeys & Hfloats) H.
  simpl in Hincome, Hkeys, Hfloats. unfold csv_step in H. bind_inv H.
  pose proof (row_amount_is_amount _ _ Ha) as Hamount.
  destruct (String.eqb _ "Income").
  - injection H as <-. repeat split; assumption.
  - destruct (dict_mem _ expenses); bind_inv H; injection H as <-;
      (split; [exact Hincome |]); simpl;
      (split; [destruct (dict_add_spec _ _ _ _ Ha0) as (_ & _ & _ & _ & Hk & _); congruence
              | exact (dict_add_floats _ _ _ _ Hfloats Hamount Ha0)]).
Qed.

Lemma csv_loop_ok rows : forall state state',
  csv_state_ok state -> csv_loop rows state = Ok state' -> csv_state_ok state'.
Proof.
  induction rows as [| row rows IH]; intros state state' Hstate H.
  - injection H as <-. exact Hstate.
  - rewrite csv_loop_cons in H. bind_inv H.
    exact (IH _ _ (csv_step_ok _ _ _ Hstate Ha) H).
Qed.

(** The numbers of a Snapshot: the income is a float or the integer 0, the
    amounts, the total and the savings are floats, the rate (before it is
    rounded) is a float or the integer 0. *)
Lemma derive_typed income expenses total savings rate percentages :
  is_amount income -> float_valued expenses -> expenses <> [] ->
  derive income expenses = Ok (total, savings, rate, percentages) ->
  is_float total /\ is_float savings /\ is_amount rate.
Proof.
  intros Hincome Hexp Hne H. unfold derive in H. do 4 bind_inv H.
  injection H as <- <- <- _.
  destruct (py_sum_floats (map snd expenses)) as [t Ht];
    [apply Forall_map; exact Hexp | destruct expenses; [congruence | discriminate] |].
  rewrite Ht in Ha. injection Ha as <-.
  assert (Hs : is_float a0).
  { destruct Hincome as [-> | [f ->]]; injection Ha0 as <-; eexists; reflexivity. }
  split; [eexists; reflexivity |]. split; [exact Hs |].
  destruct (num_gt income (NInt 0)) eqn:Hpos; [| injection Ha1 as <-; left; reflexivity].
  destruct Hs as [s ->]. destruct Hincome as [-> | [f ->]]; [discriminate |].
  simpl in Ha1. rewrite (positive_float_not_zero _ Hpos) in Ha1. simpl in Ha1.
  injection Ha1 as <-. right. eexists. reflexivity.
Qed.

Lemma ingested_typed now snap :
  ingested now snap ->
  exists income expenses total savings rate percentages month timestamp source,
    snap = snapshot income expenses (total, savings, rate, percentages)
             month timestamp source
    /\ derive income expenses = Ok (total, savings, rate, percentages)
    /\ is_amount income
    /\ map fst expenses = EXPENSE_CATEGORIES
    /\ float_valued expenses
    /\ is_float total /\ is_float savings /\ is_amount rate.
Proof.
  intros Hsnap.
  assert (Hshape : exists income expenses,
            snapshot_of snap income expenses /\ is_amount income
            /\ map fst expenses = EXPENSE_CATEGORIES /\ float_valued expenses).
  { destruct Hsnap as [[data H] | [read H]].
    - destruct (manual_shape _ _ _ H) as (raw & income & expenses & _ & _ & Hexp & Hs).
      exists (NFloat income), expenses. split; [exact Hs |].
      split; [right; eexists; reflexivity |].
      split; [apply (manual_expenses_spec _ _ _ Hexp)
             | apply (manual_expenses_floats _ _ _ Hexp)].
    - destruct (csv_shape _ _ _ H) as (rows & income & expenses & _ & Hloop & Hs).
      destruct (csv_loop_ok _ _ _ csv_initial_ok Hloop) as (Hi & Hk & Hf).
      exists income, expenses. auto. }
  destruct Hshape as (income & expenses & Hs & Hincome & Hkeys & Hfloats).
  destruct Hs as (total & savings & rate & percentages & month & ts & source & Hd & ->).
  assert (Hne : expenses <> []) by (intros E; rewrite E in Hkeys; discriminate).
  destruct (derive_typed _ _ _ _ _ _ Hincome Hfloats Hne Hd) as (Ht & Hsv & Hr).
  exists income, expenses, total, savings, rate, percentages, month, ts, source.
  repeat split; assumption.
Qed.

End Typed.

(** ** The scorer on the Snapshot of an adapter *)

(** A value that is a float. *)
Definition is_float_value (v : pyval) : Prop := exists f, v = VFloat f.

Lemma savings_rate_points_total v n :
  as_num v = Some n -> exists p, savings_rate_points v = Ok p.
Proof.
  intros H. unfold savings_rate_points.
  rewrite (py_ge_number v n 30 H). cbn [bind].
  destruct (num_ge n (NInt 30)); [eauto |].
  rewrite (py_ge_number v n 20 H). cbn [bind].
  destruct (num_ge n (NInt 20)); [eauto |].
  rewrite (py_ge_number v n 10 H). cbn [bind].
  destruct (num_ge n (NInt 10)); [eauto |].
  rewrite (py_ge_number v n 5 H). cbn [bind].
  destruct (num_ge n (NInt 5)); eauto.
Qed.

Lemma positive_savings_points_total savings income :
  is_float savings -> is_amount income ->
  exists p, positive_savings_points (of_num savings) (of_num income) = Ok p.
Proof.
  intros [s ->] Hincome. unfold positive_savings_points.
  change (py_gt (of_num (NFloat s)) (VInt 0)) with (Ok (num_gt (NFloat s) (NInt 0))).
  cbn [bind]. destruct (num_gt (NFloat s) (NInt 0)); [eauto |].
  destruct Hincome as [-> | [f ->]]; simpl;
    match goal with |- context [if ?c then _ else _] => destruct c end; eauto.
Qed.

(** Dividing a float or the integer 0 by a positive income and taking the
    hundredfold gives a float. *)
Lemma percent_of_income amount income :
  is_amount amount -> is_amount income -> num_gt income (NInt 0) = true ->
  exists p,
    (q <- py_truediv (of_num amount) (of_num income) ;; py_mul q (VInt 100))
    = Ok (VFloat p).
Proof.
  intros Hamount Hincome Hpos.
  destruct Hincome as [-> | [f ->]]; [discriminate |].
  pose proof (positive_float_not_zero _ Hpos) as Hz.
  destruct Hamount as [-> | [a ->]]; unfold py_truediv, py_binop; simpl;
    rewrite Hz; simpl; eexists; reflexivity.
Qed.

Lemma float_valued_lookup k (expenses : list (string * num)) v :
  float_valued expenses -> dict_lookup k expenses = Some v -> is_float v.
Proof.
  induction 1 as [| [k0 x] l Hx _ IH]; [discriminate |].
  cbn [dict_lookup]. destruct (String.eqb k k0); [| exact IH].
  intros E. injection E as <-. exact Hx.
Qed.

Lemma emi_points_total (expenses : list (string * num)) income :
  float_valued expenses -> is_amount income ->
  exists p, emi_points (num_dict expenses) (of_num income) = Ok p.
Proof.
  intros Hexp Hincome. unfold emi_points, num_dict, py_get.
  rewrite (dict_lookup_map of_num).
  assert (Hemi : exists emi,
            is_amount emi
            /\ match option_map of_num (dict_lookup "EMI" expenses) with
               | Some v => Ok v
               | None => Ok (VInt 0)
               end = Ok (of_num emi)).
  { destruct (dict_lookup "EMI" expenses) as [v |] eqn:E; simpl.
    - exists v. split; [| reflexivity]. right.
      exact (float_valued_lookup _ _ _ Hexp E).
    - exists (NInt 0). split; [left |]; reflexivity. }
  destruct Hemi as (emi & Hemi & ->). cbn [bind].
  rewrite (py_gt_number (of_num income) income 0 (as_num_of_num _)).
  cbn [bind]. destruct (num_gt income (NInt 0)) eqn:Hpos.
  - destruct (percent_of_income _ _ Hemi Hincome Hpos) as [p ->]. cbn [bind].
    destruct (py_eq_num (VFloat p) (NInt 0)); [eauto |].
    change (py_le (VFloat p) (VInt 30)) with (Ok (num_le (NFloat p) (NInt 30))).
    cbn [bind]. destruct (num_le (NFloat p) (NInt 30)); [eauto |].
    change (py_le (VFloat p) (VInt 40)) with (Ok (num_le (NFloat p) (NInt 40))).
    cbn [bind]. destruct (num_le (NFloat p) (NInt 40)); [eauto |].
    change (py_le (VFloat p) (VInt 50)) with (Ok (num_le (NFloat p) (NInt 50))).
    cbn [bind]. destruct (num_le (NFloat p) (NInt 50)); eauto.
  - cbn [bind]. exists 20. reflexivity.
Qed.

Lemma positive_floats values :
  Forall is_float_value values ->
  exists kept,
    filter_result (fun v => py_gt v (VInt 0)) values = Ok kept
    /\ Forall is_float_value kept.
Proof.
  induction 1 as [| v l [f ->] _ (kept & IH & Hkept)]; [exists []; split; [reflexivity | constructor] |].
  cbn [filter_result].
  change (py_gt (VFloat f) (VInt 0)) with (Ok (num_gt (NFloat f) (NInt 0))).
  cbn [bind]. rewrite IH. cbn [bind].
  destruct (num_gt (NFloat f) (NInt 0)); eexists; (split; [reflexivity |]);
    [constructor; [exists f; reflexivity | exact Hkept] | exact Hkept].
Qed.

Lemma py_max_floats first rest :
  is_float_value first -> Forall is_float_value rest ->
  exists largest, py_max first rest = Ok (VFloat largest).
Proof.
  intros [f ->] Hrest. unfold py_max. revert f.
  induction Hrest as [| v l [g ->] _ IH]; intros f; [eexists; reflexivity |].
  rewrite (fold_bind_cons
             (fun best item => larger <- py_gt item best ;;
                               Ok (if larger then item else best))).
  change (py_gt (VFloat g) (VFloat f)) with (Ok (num_gt (NFloat g) (NFloat f))).
  cbn [bind]. destruct (num_gt (NFloat g) (NFloat f)); apply IH.
Qed.

Lemma balance_points_total (expenses : list (string * num)) income :
  float_valued expenses -> is_amount income ->
  exists p, balance_points (num_dict expenses) (of_num income) = Ok p.
Proof.
  intros Hexp Hincome. unfold balance_points, num_dict, py_values. cbn [bind].
  destruct (positive_floats (map snd (map (fun entry => (fst entry, of_num (snd entry)))
                                          expenses)))
    as (kept & -> & Hkept).
  { rewrite map_map. apply Forall_map. revert Hexp. apply Forall_impl.
    intros entry [f ->]. exists f. reflexivity. }
  cbn [bind]. destruct Hkept as [| first rest Hfirst Hrest]; [eauto |].
  rewrite (py_gt_number (of_num income) income 0 (as_num_of_num _)).
  cbn [bind]. destruct (num_gt income (NInt 0)) eqn:Hpos; [| eauto].
  destruct (py_max_floats _ _ Hfirst Hrest) as [largest ->]. cbn [bind].
  destruct (percent_of_income (NFloat largest) income) as [p Hp];
    [right; eexists; reflexivity | exact Hincome | exact Hpos |].
  simpl of_num in Hp at 1.
  destruct (py_truediv (VFloat largest) (of_num income)) as [q | e];
    cbn [bind] in Hp |- *; [| discriminate Hp].
  rewrite Hp. cbn [bind].
  change (py_le (VFloat p) (VInt 30)) with (Ok (num_le (NFloat p) (NInt 30))).
  cbn [bind]. destruct (num_le (NFloat p) (NInt 30)); [eauto |].
  change (py_le (VFloat p) (VInt 40)) with (Ok (num_le (NFloat p) (NInt 40))).
  cbn [bind]. destruct (num_le (NFloat p) (NInt 40)); [eauto |].
  change (py_le (VFloat p) (VInt 50)) with (Ok (num_le (NFloat p) (NInt 50))).
  cbn [bind]. destruct (num_le (NFloat p) (NInt 50)); [eauto |].
  change (py_le (VFloat p) (VInt 60)) with (Ok (num_le (NFloat p) (NInt 60))).
  cbn [bind]. destruct (num_le (NFloat p) (NInt 60)); eauto.
Qed.

(** X4. The scorer never answers Error on the Snapshot an adapter returned:
    every test and division of its rubric is defined on the numbers the
    adapters produce, so the result is a computed score with one of the four
    statuses Excellent, Good, Fair, Needs Improvement. *)
Theorem X4_scorer_accepts_every_snapshot {B : Builtins} (now : clock) (snap : pyval) :
  ingested now snap ->
  exists score status color,
    calculate_financial_health snap = Ok (health_result score status color)
    /\ (status, color) = status_color score
    /\ status <> "Error"
    /\ 0 <= score <= 100.
Proof.
  intros Hsnap.
  destruct (ingested_typed _ _ Hsnap)
    as (income & expenses & total & savings & rate & percentages & month & ts & source
        & -> & _ & Hincome & _ & Hfloats & _ & Hsavings & _).
  assert (Hbody : exists result,
            health_body (snapshot income expenses (total, savings, rate, percentages)
                           month ts source) = Ok result).
  { unfold health_body, snapshot.
    change (py_get (VDict _) "income" (VInt 0)) with (Ok (of_num income)).
    change (py_get (VDict _) "savings" (VInt 0)) with (Ok (of_num savings)).
    change (py_get (VDict _) "savings_rate" (VInt 0))
      with (Ok (of_num (py_round2 rate))).
    change (py_get (VDict _) "expenses" (VDict [])) with (Ok (num_dict expenses)).
    cbn [bind].
    destruct (savings_rate_points_total _ _ (as_num_of_num (py_round2 rate))) as [p1 ->].
    destruct (positive_savings_points_total _ _ Hsavings Hincome) as [p2 ->].
    destruct (emi_points_total _ _ Hfloats Hincome) as [p3 ->].
    destruct (balance_points_total _ _ Hfloats Hincome) as [p4 ->].
    cbn [bind]. destruct (status_color _). eauto. }
  destruct Hbody as [result Hbody].
  destruct (health_body_Ok _ _ Hbody) as (score & Hrange & ->).
  exists score, (fst (status_color score)), (snd (status_color score)).
  split; [unfold calculate_financial_health; rewrite Hbody; reflexivity |].
  split; [symmetry; apply surjective_pairing |]. split; [| exact Hrange].
  pose proof (status_color_cases score) as Hcases.
  destruct (status_color score) as [st co]. simpl in Hcases |- *.
  destruct Hcases as [E | [E | [E | [E | []]]]]; injection E as <- _; discriminate.
Qed.

Lemma X4_witness :
  exists snap,
    process_manual_data example_clock manual_example = Ok snap
    /\ calculate_financial_health snap = Ok (health_result 65 "Good" "lightgreen").
Proof.
  destruct (process_manual_data example_clock manual_example) as [snap | e] eqn:E;
    [| vm_compute in E; discriminate E].
  destruct (X4_scorer_accepts_every_snapshot example_clock snap
              (or_introl (ex_intro _ manual_example E)))
    as (score & status & color & Hhealth & _).
  exists snap. split; [reflexivity |].
  vm_compute in E. injection E as <-. reflexivity.
Defined.

(** ** When the adapters return *)

(** X5. The manual adapter returns a Snapshot exactly when its input is a
    mapping, the "income" field (0 when absent) can be parsed as a number and
    so can the field of every category that is present under its lower-case
    name.  An input that is no mapping (null, a list, a number, a text) is
    refused with the cause AttributeError, and every failure is an exception
    with the message prefix "Error processing manual data: ". *)
Theorem X5_manual_adapter_returns_iff_fields_parse {B : Builtins} (now : clock)
  (data : pyval) :
  ((exists snap, process_manual_data now data = Ok snap)
   <-> (exists d income,
          data = VDict d
          /\ (raw <- py_get data "income" (VInt 0) ;; py_float raw) = Ok income
          /\ forall c raw,
               In c EXPENSE_CATEGORIES -> dict_lookup (lower c) d = Some raw ->
               exists amount, py_float raw = Ok amount))
  /\ ((forall d, data <> VDict d) ->
      process_manual_data now data
      = Raise (Exception "Error processing manual data: " AttributeError))
  /\ (forall e,
        process_manual_data now data = Raise e ->
        exists cause, e = Exception "Error processing manual data: " cause).
Proof.
  split; [split |].
  - intros [snap H].
    destruct (manual_shape _ _ _ H) as (raw & income & expenses & Hraw & Hfloat & Hexp & _).
    destruct data as [| | | | | | d]; try discriminate Hraw.
    exists d, income. split; [reflexivity |].
    split; [rewrite Hraw; exact Hfloat |].
    intros c raw_c Hc Hlookup.
    destruct (proj2 (manual_expenses_spec _ _ _ Hexp) c Hc)
      as (raw' & amount & Hget & Hamount & _).
    unfold py_get in Hget. rewrite Hlookup in Hget. injection Hget as <-.
    exists amount. exact Hamount.
  - intros (d & income & -> & Hincome & Hfields).
    exact (process_manual_total now d income Hincome
             (fun c v Hc Hv => Hfields c v Hc Hv)).
  - split.
    + intros Hnot. destruct data as [| | | | | | d]; try reflexivity.
      exfalso. exact (Hnot d eq_refl).
    + unfold process_manual_data. intros e H.
      destruct (process_manual_body now data) as [snap | cause]; simpl in H;
        [discriminate H | injection H as <-; eauto].
Qed.

Lemma X5_witness :
  (exists snap, process_manual_data example_clock manual_example = Ok snap)
  /\ process_manual_data example_clock (VList [ VInt 1; VInt 2 ])
     = Raise (Exception "Error processing manual data: " AttributeError)
  /\ process_manual_data example_clock VNone
     = Raise (Exception "Error processing manual data: " AttributeError).
Proof.
  split; [| split].
  - apply (proj1 (X5_manual_adapter_returns_iff_fields_parse example_clock manual_example)).
    eexists _, _. split; [reflexivity |]. split; [vm_compute; reflexivity |].
    intros c raw Hc Hraw. simpl in Hc.
    repeat (destruct Hc as [<- | Hc];
            [try discriminate Hraw; injection Hraw as <-; vm_compute; eexists; reflexivity |]).
    destruct Hc.
  - apply (proj2 (X5_manual_adapter_returns_iff_fields_parse example_clock _)).
    intros d. discriminate.
  - apply (proj2 (X5_manual_adapter_returns_iff_fields_parse example_clock _)).
    intros d. discriminate.
Defined.

Section CellsConvert.

Context {B : Builtins}.

(** The amount of a row is defined exactly when [float] converts its cell,
    or rejects it with the [ValueError] the loop catches. *)
Lemma row_amount_returns row :
  (exists amount, row_amount row = Ok amount)
  <-> ((exists f, py_float (amount_cell row) = Ok f)
       \/ py_float (amount_cell row) = Raise ValueError).
Proof.
  unfold row_amount. destruct (py_float (amount_cell row)) as [f | e]; simpl.
  - split; eauto.
  - destruct e; simpl; (split; [intros [amount H] | intros [[f H] | H]]);
      try discriminate H; eauto.
Qed.

Lemma csv_step_returns state row amount :
  csv_state_ok state -> row_amount row = Ok amount ->
  exists state', csv_step state row = Ok state'.
Proof.
  destruct state as [income expenses]. intros (Hincome & Hkeys & Hfloats) Hrow.
  simpl in Hincome, Hkeys, Hfloats.
  pose proof (row_amount_is_amount _ _ Hrow) as Hamount.
  unfold csv_step. rewrite Hrow. cbn [bind].
  destruct (String.eqb _ "Income"); [eauto |].
  destruct (dict_mem _ expenses) eqn:Hmem.
  - rewrite dict_mem_keys in Hmem. apply existsb_exists in Hmem.
    destruct Hmem as (k & Hk & Heq). apply String.eqb_eq in Heq. subst k.
    destruct (dict_add_total _ _ _ Hk Hfloats Hamount) as (d' & -> & _).
    cbn [bind]. eauto.
  - assert (Hk : In "Others" (map fst expenses)) by (rewrite Hkeys; simpl; auto 10).
    destruct (dict_add_total _ _ _ Hk Hfloats Hamount) as (d' & -> & _).
    cbn [bind]. eauto.
Qed.

Lemma csv_loop_returns rows : forall state,
  csv_state_ok state ->
  Forall (fun row => exists amount, row_amount row = Ok amount) rows ->
  exists state', csv_loop rows state = Ok state' /\ csv_state_ok state'.
Proof.
  induction rows as [| row rows IH]; intros state Hstate Hrows.
  - exists state. split; [reflexivity | assumption].
  - inversion Hrows as [| ? ? [amount Hrow] Hrest]; subst.
    destruct (csv_step_returns _ _ _ Hstate Hrow) as [state1 Hstep].
    rewrite csv_loop_cons, Hstep. cbn [bind].
    exact (IH _ (csv_step_ok _ _ _ Hstate Hstep) Hrest).
Qed.

(** The loop stops at the first row whose amount is not defined. *)
Lemma csv_loop_amounts rows : forall state state',
  csv_loop rows state = Ok state' ->
  Forall (fun row => exists amount, row_amount row = Ok amount) rows.
Proof.
  induction rows as [| row rows IH]; intros state state' H; [constructor |].
  rewrite csv_loop_cons in H. bind_inv H. constructor; [| exact (IH _ _ H)].
  destruct state as [income expenses]. unfold csv_step in Ha. bind_inv Ha. eauto.
Qed.

End CellsConvert.

(** X6. For a frame that was read, the CSV adapter returns a Snapshot
    exactly when [float] converts the amount cell of every row or rejects it
    with [ValueError], the failure the loop catches row by row: any other
    failure of [float] on a cell, a [TypeError] for a cell that is no scalar,
    makes the adapter raise.  Every frame whose amount cells are booleans,
    floats, texts or 64-bit integers is accepted, whatever they hold.  The
    Snapshot has the source "csv" and the month and timestamp of the clock.
    When reading the file raised, the adapter raises an exception whose
    message is "Error processing CSV: " followed by that cause, and every
    failure of the adapter carries this prefix. *)
Theorem X6_csv_adapter_returns_iff_cells_convert {B : Builtins} (now : clock) :
  (forall rows,
     (exists snap, process_csv_data now (Ok rows) = Ok snap)
     <-> Forall (fun row =>
                   (exists f, py_float (amount_cell row) = Ok f)
                   \/ py_float (amount_cell row) = Raise ValueError) rows)
  /\ (forall rows,
        Forall (fun row => csv_cell (amount_cell row)) rows ->
        exists snap, process_csv_data now (Ok rows) = Ok snap)
  /\ (forall rows snap,
        process_csv_data now (Ok rows) = Ok snap ->
        field snap "source" = Some (VStr "csv")
        /\ field snap "month" = Some (VStr (now_month now))
        /\ field snap "timestamp" = Some (VStr (now_iso now)))
  /\ (forall e, process_csv_data now (Raise e)
                = Raise (Exception "Error processing CSV: " e))
  /\ (forall read e,
        process_csv_data now read = Raise e ->
        exists cause, e = Exception "Error processing CSV: " cause).
Proof.
  split; [| split; [| split; [| split]]].
  - intros rows. split.
    + intros [snap H]. destruct (csv_shape _ _ _ H) as (rows' & income & expenses & E & Hloop & _).
      injection E as <-.
      pose proof (csv_loop_amounts _ _ _ Hloop) as Hamounts.
      apply Forall_impl with (2 := Hamounts). intros row. apply row_amount_returns.
    + intros Hcells.
      assert (Hamounts : Forall (fun row => exists amount, row_amount row = Ok amount) rows).
      { apply Forall_impl with (2 := Hcells). intros row. apply row_amount_returns. }
      destruct (csv_loop_returns rows _ csv_initial_ok Hamounts)
        as ([income expenses] & Hloop & Hok).
      destruct (csv_state_derive _ Hok) as [metrics Hd]. simpl in Hd.
      unfold process_csv_data, process_csv_body. cbn [bind]. rewrite Hloop. cbn [bind].
      rewrite Hd. simpl. eauto.
  - intros rows Hrows. exact (process_csv_total now rows Hrows).
  - intros rows snap H.
    apply try_except_Ok in H. unfold process_csv_body in H. do 2 bind_inv H.
    destruct a0 as [income expenses]. bind_inv H. injection H as <-.
    destruct a0 as [[[total savings] rate] percentages]. repeat split.
  - reflexivity.
  - unfold process_csv_data. intros read e H.
    destruct (process_csv_body now read) as [snap | cause]; simpl in H;
      [discriminate H | injection H as <-; eauto].
Qed.

Lemma X6_witness :
  (exists snap, process_csv_data example_clock (Ok csv_example) = Ok snap)
  /\ process_csv_data example_clock
       (Ok [ {| category_text := "Rent";
                amount_cell := VList [ VInt 1200; VInt 1300 ] |} ])
     = Raise (Exception "Error processing CSV: " TypeError).
Proof.
  split; [| reflexivity].
  apply (proj1 (proj2 (X6_csv_adapter_returns_iff_cells_convert example_clock))
           csv_example).
  repeat constructor; simpl; lia.
Defined.

(** ** The numbers of a Snapshot *)





Section Rates.

Context {B : Builtins}.

Lemma percentages_positive (income : float) expenses percentages :
  num_gt (NFloat income) (NInt 0) = true ->
  float_valued expenses ->
  map_result
    (fun entry : string * num =>
       p <- percentage (NFloat income) (snd entry) ;; Ok (fst entry, p))
    expenses = Ok percentages ->
  forall c amount,
    dict_lookup c expenses = Some (NFloat amount) ->
    dict_lookup c percentages
    = Some (NFloat (round2 (PrimFloat.mul (PrimFloat.div amount income) 100))).
Proof.
  intros Hpos Hfloats. pose proof (positive_float_not_zero _ Hpos) as Hz.
  revert percentages.
  induction Hfloats as [| [k v] l [x Hx] _ IH]; intros percentages H c amount Hc;
    [discriminate Hc |].
  simpl in Hx. subst v. cbn [map_result] in H. bind_inv H. bind_inv H.
  injection H as <-. bind_inv Ha. injection Ha as <-.
  cbn [dict_lookup fst snd] in Hc |- *.
  destruct (String.eqb c k).
  - injection Hc as <-. unfold percentage in Ha1. rewrite Hpos in Ha1.
    simpl in Ha1. rewrite Hz in Ha1. simpl in Ha1. injection Ha1 as <-. reflexivity.
  - exact (IH _ Ha0 c amount Hc).
Qed.

End Rates.

(** X7. The rates of the Snapshot of either adapter follow one guard: when
    the income is not greater than 0 (zero, negative, or not a number) the
    savings rate and every expense percentage are the integer 0; when it is,
    the income and the savings are floats, the savings rate is
    [round(savings / income * 100, 2)] and the percentage of each category is
    [round(amount / income * 100, 2)], in float arithmetic, the division
    first. *)
Theorem X7_rates_follow_the_income_guard {B : Builtins} (now : clock) (snap : pyval) :
  ingested now snap ->
  exists income savings expenses percentages rate,
    field snap "income" = Some (of_num income)
    /\ field snap "savings" = Some (VFloat savings)
    /\ field snap "expenses" = Some (num_dict expenses)
    /\ field snap "expense_percentages" = Some (num_dict percentages)
    /\ field snap "savings_rate" = Some (of_num rate)
    /\ map fst percentages = EXPENSE_CATEGORIES
    /\ (num_gt income (NInt 0) = false ->
        rate = NInt 0
        /\ forall c, In c EXPENSE_CATEGORIES ->
             dict_lookup c percentages = Some (NInt 0))
    /\ (num_gt income (NInt 0) = true ->
        exists i,
          income = NFloat i
          /\ rate = NFloat (round2 (PrimFloat.mul (PrimFloat.div savings i) 100))
          /\ forall c amount,
               dict_lookup c expenses = Some (NFloat amount) ->
               dict_lookup c percentages
               = Some (NFloat (round2 (PrimFloat.mul (PrimFloat.div amount i) 100)))).
Proof.
  intros Hsnap.
  destruct (ingested_typed _ _ Hsnap)
    as (income & expenses & total & savings & rate & percentages & month & ts & source
        & -> & Hd & Hincome & Hkeys & Hfloats & _ & [s ->] & _).
  exists income, s, expenses, percentages, (py_round2 rate).
  do 5 (split; [reflexivity |]).
  assert (Hpk : map fst percentages = EXPENSE_CATEGORIES).
  { rewrite <- Hkeys. unfold derive in Hd. do 4 bind_inv Hd. injection Hd as _ _ _ <-.
    exact (map_result_Ok_fst (fun entry => percentage income (snd entry)) _ _ Ha2). }
  split; [exact Hpk |]. split.
  - intros Hpos. destruct (derive_not_positive _ _ _ _ _ _ Hpos Hd) as [-> ->].
    split; [reflexivity |]. intros c Hc. rewrite <- Hkeys in Hc.
    clear -Hc. induction expenses as [| [k v] l IH]; [destruct Hc |].
    cbn [map dict_lookup fst snd]. destruct (String.eqb_spec c k) as [| Hne]; [reflexivity |].
    destruct Hc as [Hc | Hc]; [simpl in Hc; congruence | exact (IH Hc)].
  - intros Hpos. destruct Hincome as [-> | [i ->]]; [discriminate Hpos |].
    exists i. split; [reflexivity |].
    pose proof (positive_float_not_zero _ Hpos) as Hz.
    unfold derive in Hd. rewrite Hpos in Hd. do 4 bind_inv Hd.
    injection Hd as _ Hs Hr Hp. subst a0 a1 a2.
    simpl in Ha1. rewrite Hz in Ha1. simpl in Ha1. injection Ha1 as <-.
    split; [reflexivity |].
    exact (percentages_positive i expenses percentages Hpos Hfloats Ha2).
Qed.

Lemma X7_witness :
  exists snap,
    process_manual_data example_clock manual_example = Ok snap
    /\ field snap "savings_rate" = Some (VFloat 14)
    /\ field snap "expense_percentages"
       = Some (VDict [ ("Rent", VFloat 30); ("Food", VFloat 16);
                       ("Transportation", VFloat 0); ("Shopping", VFloat 0);
                       ("Entertainment", VFloat 0); ("EMI", VFloat 40);
                       ("Utilities", VFloat 0); ("Healthcare", VFloat 0);
                       ("Others", VFloat 0) ]).
Proof.
  destruct (process_manual_data example_clock manual_example) as [snap | e] eqn:E;
    [| vm_compute in E; discriminate E].
  destruct (X7_rates_follow_the_income_guard example_clock snap
              (or_introl (ex_intro _ manual_example E)))
    as (income & savings & _).
  exists snap. split; [reflexivity |].
  vm_compute in E. injection E as <-. split; reflexivity.
Defined.

(** ** The client of the API *)

(** X9. [get_client] returns what the global [_client] holds afterwards.  A
    client that was built once is returned from then on without reading the
    environment or building another one.  While there is none, a client is
    returned exactly when the key is set, is not empty and the constructor
    accepted it; a failure is not remembered, the next call tries again. *)
Theorem X9_client_is_built_once {C : Type} (api : groq C) (_client : option C) :
  fst (get_client api _client) = snd (get_client api _client)
  /\ (forall client, _client = Some client -> get_client api _client = (Some client, Some client))
  /\ (_client = None ->
      forall client,
        get_client api _client = (Some client, Some client)
        <-> exists api_key,
              GROQ_API_KEY api = Some api_key /\ api_key <> "" /\ Groq api api_key = Ok client)
  /\ (_client = None ->
      (forall client, get_client api _client <> (Some client, Some client)) ->
      get_client api _client = (None, None)).
Proof.
  unfold get_client. split; [| split; [| split]].
  - destruct _client as [client |]; [reflexivity |].
    destruct (GROQ_API_KEY api) as [api_key |]; [| reflexivity].
    destruct (String.eqb api_key ""); [reflexivity |].
    destruct (Groq api api_key); reflexivity.
  - intros client ->. reflexivity.
  - intros -> client. split.
    + destruct (GROQ_API_KEY api) as [api_key |]; [| discriminate].
      destruct (String.eqb_spec api_key "") as [| Hne]; [discriminate |].
      destruct (Groq api api_key) as [c | e] eqn:E; [| discriminate].
      intros H. injection H as <-. exists api_key. auto.
    + intros (api_key & -> & Hne & E).
      destruct (String.eqb_spec api_key "") as [| _]; [contradiction |].
      rewrite E. reflexivity.
  - intros -> Hnone.
    destruct (GROQ_API_KEY api) as [api_key |]; [| reflexivity].
    destruct (String.eqb api_key ""); [reflexivity |].
    destruct (Groq api api_key) as [c | e]; [| reflexivity].
    exfalso. exact (Hnone c eq_refl).
Qed.

(** ** The rule-based report on the Snapshot of an adapter *)

Lemma py_lt_number v n k :
  as_num v = Some n -> py_lt v (VInt k) = Ok (num_lt n (NInt k)).
Proof. intros H. unfold py_lt, py_order. rewrite H. reflexivity. Qed.

Lemma format_amount precision grouping n :
  is_amount n -> exists text, py_format_fixed precision grouping (of_num n) = Ok text.
Proof.
  intros [-> | [f ->]]; cbn [of_num py_format_fixed].
  - rewrite int_to_float_0. cbn [bind]. eauto.
  - eauto.
Qed.

Lemma health_paragraph_total n :
  is_amount n -> exists paragraph, health_paragraph (of_num n) = Ok paragraph.
Proof.
  intros Hn. destruct (format_amount 1 false n Hn) as [text Htext].
  unfold health_paragraph.
  rewrite (py_ge_number _ n 20 (as_num_of_num n)). cbn [bind].
  destruct (num_ge n (NInt 20)); [rewrite Htext; cbn [bind]; eauto |].
  rewrite (py_ge_number _ n 10 (as_num_of_num n)). cbn [bind].
  destruct (num_ge n (NInt 10)); [rewrite Htext; cbn [bind]; eauto |].
  rewrite (py_gt_number _ n 0 (as_num_of_num n)). cbn [bind].
  destruct (num_gt n (NInt 0)); [rewrite Htext; cbn [bind]; eauto | eauto].
Qed.

(** The value under a key of the expenses of a Snapshot, with the default
    0: a float, or the integer 0. *)
Lemma py_get_amount k (expenses : list (string * num)) :
  float_valued expenses ->
  exists amount,
    is_amount amount /\ py_get (num_dict expenses) k (VInt 0) = Ok (of_num amount).
Proof.
  intros Hexp. unfold num_dict, py_get. rewrite (dict_lookup_map of_num).
  destruct (dict_lookup k expenses) as [v |] eqn:E; simpl.
  - exists v. split; [| reflexivity]. right. exact (float_valued_lookup _ _ _ Hexp E).
  - exists (NInt 0). split; [left |]; reflexivity.
Qed.

(** An income that counts as true in a condition can divide. *)
Lemma percent_of_true_income amount income :
  is_amount amount -> is_amount income -> py_truthy (of_num income) = true ->
  exists p,
    (q <- py_truediv (of_num amount) (of_num income) ;; py_mul q (VInt 100))
    = Ok (VFloat p).
Proof.
  intros Hamount Hincome Htrue.
  destruct Hincome as [-> | [f ->]]; [discriminate |].
  simpl in Htrue. apply negb_true_iff in Htrue.
  destruct Hamount as [-> | [a ->]]; unfold py_truediv, py_binop; simpl;
    rewrite Htrue; simpl; eexists; reflexivity.
Qed.

Lemma key_recommendations_total (expenses : list (string * num)) income rate :
  float_valued expenses -> is_amount income -> is_amount rate ->
  exists recommendations,
    key_recommendations (of_num income) (num_dict expenses) (of_num rate)
    = Ok recommendations.
Proof.
  intros Hexp Hincome Hrate. unfold key_recommendations.
  destruct (py_get_amount "EMI" expenses Hexp) as (emi & Hemi & ->). cbn [bind].
  rewrite (py_lt_number _ rate 20 (as_num_of_num rate)).
  destruct (py_truthy (of_num emi)); cbn [andb];
    [destruct (py_truthy (of_num income)) eqn:Htrue |].
  - destruct (percent_of_true_income _ _ Hemi Hincome Htrue) as [p Hp].
    apply bind_Ok in Hp. destruct Hp as (q & Hq & Hm).
    rewrite Hq. cbn [bind]. rewrite Hm. cbn [bind].
    change (py_gt (VFloat p) (VInt 40)) with (Ok (num_gt (NFloat p) (NInt 40))).
    cbn [bind]. destruct (num_gt (NFloat p) (NInt 40)); cbn [py_format_fixed bind];
      destruct (num_lt rate (NInt 20)); cbn [andb]; eauto.
  - cbn [bind]. rewrite andb_false_r. eauto.
  - cbn [bind]. destruct (num_lt rate (NInt 20) && py_truthy (of_num income))%bool; eauto.
Qed.

Lemma highlight_total n :
  is_amount n -> exists line, highlight (of_num n) = Ok line.
Proof.
  intros Hn. destruct (format_amount 0 true n Hn) as [text Htext].
  unfold highlight. rewrite (py_gt_number _ n 0 (as_num_of_num n)). cbn [bind].
  destruct (num_gt n (NInt 0)); [rewrite Htext; cbn [bind]; eauto | eauto].
Qed.

(** ** The analyzer on the numbers of a Snapshot *)

Lemma py_get_field financial_data k v default :
  field financial_data k = Some v -> py_get financial_data k default = Ok v.
Proof.
  destruct financial_data; try discriminate. simpl. intros ->. reflexivity.
Qed.

Lemma field_truthy financial_data k v :
  field financial_data k = Some v -> py_truthy financial_data = true.
Proof.
  destruct financial_data as [| | | | | | d]; try discriminate.
  destruct d; [discriminate | reflexivity].
Qed.

Lemma round2_amount {B : Builtins} n : is_amount n -> is_amount (py_round2 n).
Proof. intros [-> | [f ->]]; [left | right; eexists]; reflexivity. Qed.

(** The Snapshot of either adapter has these numbers. *)
Lemma ingested_numbers {B : Builtins} now snap :
  ingested now snap -> snapshot_numbers snap.
Proof.
  intros Hsnap.
  destruct (ingested_typed _ _ Hsnap)
    as (income & expenses & total & savings & rate & percentages & month & ts & source
        & -> & _ & Hincome & _ & Hfloats & Htotal & Hsavings & Hrate).
  exists income, expenses, total, savings, (py_round2 rate).
  repeat split; try assumption. apply round2_amount. exact Hrate.
Qed.

Ltac read_numbers H :=
  destruct H as (income & expenses & total & savings & rate
                 & Hi & Hincome & He & Hexp & Ht & Htotal & Hs & Hsavings
                 & Hr & Hrate).

Lemma report_total financial_data :
  snapshot_numbers financial_data ->
  exists text, get_rule_based_analysis financial_data = Ok text.
Proof.
  intros H. read_numbers H. unfold get_rule_based_analysis.
  rewrite (py_get_field _ _ _ _ Hi), (py_get_field _ _ _ _ He),
    (py_get_field _ _ _ _ Hs), (py_get_field _ _ _ _ Hr).
  cbn [bind].
  destruct (health_paragraph_total _ Hrate) as [paragraph ->].
  destruct (key_recommendations_total expenses income _ Hexp Hincome Hrate)
    as [recommendations ->].
  destruct (highlight_total savings (or_intror Hsavings)) as [line ->].
  cbn [bind]. eauto.
Qed.

(** One turn of the loop over the expenses of a Snapshot goes through. *)
Lemma breakdown_step_total income prompt k amount :
  is_amount income -> is_float amount ->
  exists prompt', breakdown_step (of_num income) prompt (k, of_num amount) = Ok prompt'.
Proof.
  intros Hincome Hamount. unfold breakdown_step.
  rewrite (py_gt_number _ amount 0 (as_num_of_num amount)). cbn [bind].
  destruct (num_gt amount (NInt 0)); [| eauto].
  rewrite (py_gt_number _ income 0 (as_num_of_num income)). cbn [bind].
  destruct (format_amount 2 true amount (or_intror Hamount)) as [amount_text Hat].
  destruct (num_gt income (NInt 0)) eqn:Hpos.
  - destruct (percent_of_income _ _ (or_intror Hamount) Hincome Hpos) as [p ->].
    cbn [bind]. rewrite Hat. cbn [bind py_format_fixed]. eauto.
  - cbn [bind]. rewrite Hat. cbn [bind py_format_fixed].
    rewrite int_to_float_0. cbn [bind]. eauto.
Qed.

Lemma breakdown_total income (expenses : list (string * num)) :
  is_amount income -> float_valued expenses ->
  forall prompt,
  exists prompt',
    fold_left (fun acc item => prompt <- acc ;; breakdown_step (of_num income) prompt item)
      (map (fun entry => (fst entry, of_num (snd entry))) expenses) (Ok prompt)
    = Ok prompt'.
Proof.
  intros Hincome. induction 1 as [| [k v] l Hv _ IH]; intros prompt; [simpl; eauto |].
  cbn [map fst snd].
  rewrite (fold_bind_cons (breakdown_step (of_num income))).
  destruct (breakdown_step_total income prompt k v Hincome Hv) as [prompt' ->].
  cbn [bind]. apply IH.
Qed.

Lemma prompt_total financial_data :
  snapshot_numbers financial_data ->
  exists prompt, analysis_prompt financial_data = Ok prompt.
Proof.
  intros H. read_numbers H. unfold analysis_prompt.
  rewrite (py_get_field _ _ _ _ Hi), (py_get_field _ _ _ _ He),
    (py_get_field _ _ _ _ Hs), (py_get_field _ _ _ _ Hr), (py_get_field _ _ _ _ Ht).
  cbn [bind].
  destruct (format_amount 2 true income Hincome) as [income_text ->].
  destruct (format_amount 2 true total (or_intror Htotal)) as [total_text ->].
  destruct (format_amount 2 true savings (or_intror Hsavings)) as [savings_text ->].
  destruct (format_amount 2 false rate Hrate) as [rate_text ->].
  cbn [bind num_dict py_items].
  match goal with
  | |- context [fold_left _ _ (Ok ?p)] =>
      destruct (breakdown_total income expenses Hincome Hexp p) as [prompt' ->]
  end.
  cbn [bind]. eauto.
Qed.

Lemma key_expenses_total (expenses : list (string * num)) :
  float_valued expenses ->
  exists texts,
    key_expenses (map (fun entry => (fst entry, of_num (snd entry))) expenses) = Ok texts.
Proof.
  induction 1 as [| [k v] l [f Hf] _ [texts IH]]; [simpl; eauto |].
  simpl in Hf. subst v. cbn [map fst snd key_expenses of_num].
  change (py_gt (VFloat f) (VInt 0)) with (Ok (num_gt (NFloat f) (NInt 0))).
  cbn [bind]. rewrite IH.
  destruct (num_gt (NFloat f) (NInt 0)); cbn [py_format_fixed bind]; eauto.
Qed.

Lemma context_total message_text financial_data :
  snapshot_numbers financial_data ->
  exists context, chat_context message_text financial_data = Ok context.
Proof.
  intros H. read_numbers H. unfold chat_context.
  rewrite (py_get_field _ _ _ _ Hi), (py_get_field _ _ _ _ He),
    (py_get_field _ _ _ _ Hs).
  cbn [bind].
  destruct (format_amount 2 true income Hincome) as [income_text ->].
  destruct (format_amount 2 true savings (or_intror Hsavings)) as [savings_text ->].
  cbn [bind num_dict py_items].
  destruct (key_expenses_total expenses Hexp) as [texts ->].
  cbn [bind]. eauto.
Qed.

(** The scorer takes its computed branch on these numbers. *)
Lemma health_total financial_data :
  snapshot_numbers financial_data ->
  exists score status color,
    calculate_financial_health financial_data = Ok (health_result score status color)
    /\ (status, color) = status_color score
    /\ status <> "Error"
    /\ 0 <= score <= 100.
Proof.
  intros H. read_numbers H.
  assert (Hbody : exists result, health_body financial_data = Ok result).
  { unfold health_body.
    rewrite (py_get_field _ _ _ _ Hi), (py_get_field _ _ _ _ He),
      (py_get_field _ _ _ _ Hs), (py_get_field _ _ _ _ Hr).
    cbn [bind].
    destruct (savings_rate_points_total _ _ (as_num_of_num rate)) as [p1 ->].
    destruct (positive_savings_points_total _ _ Hsavings Hincome) as [p2 ->].
    destruct (emi_points_total _ _ Hexp Hincome) as [p3 ->].
    destruct (balance_points_total _ _ Hexp Hincome) as [p4 ->].
    cbn [bind]. destruct (status_color _). eauto. }
  destruct Hbody as [result Hbody].
  destruct (health_body_Ok _ _ Hbody) as (score & Hrange & ->).
  exists score, (fst (status_color score)), (snd (status_color score)).
  split; [unfold calculate_financial_health; rewrite Hbody; reflexivity |].
  split; [symmetry; apply surjective_pairing |]. split; [| exact Hrange].
  pose proof (status_color_cases score) as Hcases.
  destruct (status_color score) as [st co]. simpl in Hcases |- *.
  destruct Hcases as [E | [E | [E | [E | []]]]]; injection E as <- _; discriminate.
Qed.

(** X10. The rule-based analysis never raises on the Snapshot an adapter
    returned: every comparison, division and number format of the report is
    defined on the values the adapters store, and a report is returned. *)
Theorem X10_report_for_every_snapshot {B : Builtins} (now : clock) (snap : pyval) :
  ingested now snap ->
  exists text, get_rule_based_analysis snap = Ok text.
Proof.
  intros Hsnap. exact (report_total snap (ingested_numbers now snap Hsnap)).
Qed.

(** ** The two entry points of the analyzer *)

Lemma get_client_global {C : Type} (api : groq C) (_client : option C) :
  fst (get_client api _client) = snd (get_client api _client).
Proof.
  unfold get_client. destruct _client as [client |]; [reflexivity |].
  destruct (GROQ_API_KEY api) as [api_key |]; [| reflexivity].
  destruct (String.eqb api_key ""); [reflexivity |].
  destruct (Groq api api_key); reflexivity.
Qed.

Lemma X10_witness :
  exists snap text,
    process_manual_data example_clock manual_example = Ok snap
    /\ get_rule_based_analysis snap = Ok text.
Proof.
  destruct (process_manual_data example_clock manual_example) as [snap | e] eqn:E;
    [| vm_compute in E; discriminate E].
  destruct (X10_report_for_every_snapshot example_clock snap
              (or_introl (ex_intro _ manual_example E))) as [text Htext].
  exists snap, text. split; [reflexivity | exact Htext].
Defined.

(** X11. [analyze_finances] sends at most one request, and only when a
    client is there and the prompt could be built.  Its answer is the content
    the API returned for that request, or else exactly what
    [get_rule_based_analysis] gives on the same data: without a client, and
    whenever building the prompt or calling the API raised.  The fallback is
    not guarded: [analyze_finances] raises exactly what the rule-based
    analysis raises, and only then. *)
Theorem X11_analysis_falls_back_to_the_rules {C : Type} (api : groq C)
  (financial_data : pyval) (_client : option C) :
  let rules := text <- get_rule_based_analysis financial_data ;; Ok (VStr text) in
  let '(answer, after, sent) := analyze_finances api financial_data _client in
  after = snd (get_client api _client)
  /\ (after = None -> answer = rules /\ sent = [])
  /\ (sent = []
      \/ exists prompt,
           analysis_prompt financial_data = Ok prompt
           /\ sent = [ analysis_request prompt ])
  /\ (answer = rules
      \/ exists client request content,
           after = Some client /\ sent = [ request ]
           /\ create api client request = Ok content /\ answer = Ok content)
  /\ (forall e, answer = Raise e -> get_rule_based_analysis financial_data = Raise e).
Proof.
  intros rules. unfold analyze_finances. fold rules.
  pose proof (get_client_global api _client) as Hglobal.
  destruct (get_client api _client) as [client after]. simpl in Hglobal. subst after.
  assert (Hraise : forall e, rules = Raise e ->
                             get_rule_based_analysis financial_data = Raise e).
  { intros e. unfold rules.
    destruct (get_rule_based_analysis financial_data); simpl; congruence. }
  assert (Hsame : try_except rules (fun _ => rules) = rules)
    by (destruct rules; reflexivity).
  destruct client as [client |].
  - destruct (analysis_prompt financial_data) as [prompt | e].
    + destruct (create api client (analysis_request prompt)) as [content | e] eqn:E;
        simpl.
      * split; [reflexivity |]. split; [discriminate |].
        split; [right; eauto |]. split; [| discriminate].
        right. exists client, (analysis_request prompt), content. auto.
      * split; [reflexivity |]. split; [discriminate |].
        split; [right; eauto |]. split; [left; reflexivity | exact Hraise].
    + simpl. split; [reflexivity |]. split; [discriminate |].
      split; [left; reflexivity |]. split; [left; reflexivity | exact Hraise].
  - rewrite Hsame. simpl. split; [reflexivity |]. split; [auto |].
    split; [left; reflexivity |]. split; [left; reflexivity | exact Hraise].
Qed.

(** X12. On the Snapshot an adapter returned [analyze_finances] never
    raises.  Without a client it sends nothing and returns the rule-based
    report.  With a client the prompt is always built and exactly one
    request is sent, with the prompt as user message, the model
    llama-3.1-8b-instant, temperature 0.7 and at most 1500 tokens; the answer
    is the content the API returned, or the rule-based report when the call
    raised. *)
Theorem X12_analysis_of_a_snapshot {B : Builtins} {C : Type} (now : clock)
  (api : groq C) (snap : pyval) (_client : option C) :
  ingested now snap ->
  exists text prompt,
    get_rule_based_analysis snap = Ok text
    /\ analysis_prompt snap = Ok prompt
    /\ match fst (get_client api _client) with
       | None => analyze_finances api snap _client = (Ok (VStr text), None, [])
       | Some client =>
           let request :=
             {| system_content := system_content (analysis_request prompt);
                user_content := prompt;
                model := "llama-3.1-8b-instant";
                temperature := seven_tenths;
                max_tokens := 1500 |} in
           analyze_finances api snap _client
           = (match create api client request with
              | Ok content => Ok content
              | Raise _ => Ok (VStr text)
              end, Some client, [ request ])
       end.
Proof.
  intros Hsnap. pose proof (ingested_numbers now snap Hsnap) as Hnumbers.
  destruct (report_total snap Hnumbers) as [text Htext].
  destruct (prompt_total snap Hnumbers) as [prompt Hprompt].
  exists text, prompt. split; [exact Htext |]. split; [exact Hprompt |].
  unfold analyze_finances. rewrite Htext, Hprompt.
  pose proof (get_client_global api _client) as Hglobal.
  destruct (get_client api _client) as [client after]. simpl in Hglobal. subst after.
  cbn [fst]. destruct client as [client |]; [| reflexivity].
  change (analysis_request prompt)
    with {| system_content := system_content (analysis_request prompt);
            user_content := prompt;
            model := "llama-3.1-8b-instant";
            temperature := seven_tenths;
            max_tokens := 1500 |}.
  cbv zeta. unfold try_except. cbn [bind].
  destruct (create api client _); reflexivity.
Qed.

Lemma X12_witness :
  exists snap text prompt,
    process_manual_data example_clock manual_example = Ok snap
    /\ get_rule_based_analysis snap = Ok text
    /\ analyze_finances unreachable_api snap None
       = (Ok (VStr text), Some tt, [ analysis_request prompt ])
    /\ analyze_finances no_key_api snap None = (Ok (VStr text), None, []).
Proof.
  destruct (process_manual_data example_clock manual_example) as [snap | e] eqn:E;
    [| vm_compute in E; discriminate E].
  pose proof (or_introl (ex_intro _ manual_example E) : ingested example_clock snap)
    as Hsnap.
  destruct (X12_analysis_of_a_snapshot example_clock unreachable_api snap None Hsnap)
    as (text & prompt & Htext & _ & Hcall).
  destruct (X12_analysis_of_a_snapshot example_clock no_key_api snap None Hsnap)
    as (text' & prompt' & Htext' & _ & Hnone).
  rewrite Htext in Htext'. injection Htext' as Heq. rewrite <- Heq in Hnone.
  exists snap, text, prompt. split; [reflexivity |]. split; [exact Htext |].
  split; [exact Hcall | exact Hnone].
Defined.

Lemma chat_never_raises {C : Type} (str : pyval -> string) (api : groq C)
  (user_message financial_data : pyval) (_client : option C) :
  exists response,
    fst (fst (chat_with_ai str api user_message financial_data _client)) = Ok response.
Proof.
  unfold chat_with_ai. destruct (get_client api _client) as [[client |] after].
  - destruct (chat_context (str user_message) financial_data) as [context | e].
    + destruct (create api client (chat_request context)); simpl; eauto.
    + simpl; eauto.
  - simpl; eauto.
Qed.

(** X13. [chat_with_ai] never raises and sends at most one request, only
    when a client is there and the context could be built.  Without a client
    it answers that the chat is unavailable; when building the context or
    calling the API raised it answers that it has trouble responding;
    otherwise its answer is the content the API returned. *)
Theorem X13_chat_always_answers {C : Type} (str : pyval -> string) (api : groq C)
  (user_message financial_data : pyval) (_client : option C) :
  let '(answer, after, sent) :=
    chat_with_ai str api user_message financial_data _client in
  after = snd (get_client api _client)
  /\ (after = None -> answer = Ok (VStr chat_unavailable) /\ sent = [])
  /\ (sent = []
      \/ exists context,
           chat_context (str user_message) financial_data = Ok context
           /\ sent = [ chat_request context ])
  /\ (exists response, answer = Ok response)
  /\ (forall client, after = Some client ->
      answer = Ok (VStr chat_trouble)
      \/ exists request content,
           sent = [ request ]
           /\ create api client request = Ok content /\ answer = Ok content).
Proof.
  unfold chat_with_ai.
  pose proof (get_client_global api _client) as Hglobal.
  destruct (get_client api _client) as [client after]. simpl in Hglobal. subst after.
  destruct client as [client |].
  - destruct (chat_context (str user_message) financial_data) as [context | e].
    + destruct (create api client (chat_request context)) as [content | e] eqn:E;
        simpl.
      * split; [reflexivity |]. split; [discriminate |].
        split; [right; eauto |]. split; [eauto |].
        intros c Hc. injection Hc as <-. right. eauto.
      * split; [reflexivity |]. split; [discriminate |].
        split; [right; eauto |]. split; [eauto |]. intros c _. left. reflexivity.
    + simpl. split; [reflexivity |]. split; [discriminate |].
      split; [left; reflexivity |]. split; [eauto |]. intros c _. left. reflexivity.
  - simpl. split; [reflexivity |]. split; [auto |].
    split; [left; reflexivity |]. split; [eauto |]. discriminate.
Qed.

Lemma empty_context message_text :
  exists context, chat_context message_text (VDict []) = Ok context.
Proof.
  unfold chat_context. cbn [py_get dict_lookup bind py_format_fixed].
  rewrite int_to_float_0. cbn [bind py_items key_expenses]. eauto.
Qed.

(** X14. On the Snapshot an adapter returned, and on the empty mapping that
    stands for a session without data, the chat context is always built: with
    a client exactly one request is sent, with the context as user message,
    the model llama-3.1-8b-instant, temperature 0.8 and at most 800 tokens,
    and the answer is the content the API returned, or the trouble message
    when the call raised. *)
Theorem X14_chat_about_a_snapshot {B : Builtins} {C : Type} (now : clock)
  (str : pyval -> string) (api : groq C) (user_message financial_data : pyval)
  (_client : option C) (client : C) :
  ingested now financial_data \/ financial_data = VDict [] ->
  fst (get_client api _client) = Some client ->
  exists context,
    chat_context (str user_message) financial_data = Ok context
    /\ let request :=
         {| system_content := system_content (chat_request context);
            user_content := context;
            model := "llama-3.1-8b-instant";
            temperature := eight_tenths;
            max_tokens := 800 |} in
       chat_with_ai str api user_message financial_data _client
       = (match create api client request with
          | Ok content => Ok content
          | Raise _ => Ok (VStr chat_trouble)
          end, Some client, [ request ]).
Proof.
  intros Hdata Hclient.
  assert (Hcontext : exists context,
            chat_context (str user_message) financial_data = Ok context).
  { destruct Hdata as [Hsnap | ->]; [| apply empty_context].
    exact (context_total _ _ (ingested_numbers now _ Hsnap)). }
  destruct Hcontext as [context Hcontext]. exists context.
  split; [exact Hcontext |].
  unfold chat_with_ai. rewrite Hcontext.
  pose proof (get_client_global api _client) as Hglobal.
  destruct (get_client api _client) as [c after]. simpl in Hglobal, Hclient.
  subst after c.
  change (chat_request context)
    with {| system_content := system_content (chat_request context);
            user_content := context;
            model := "llama-3.1-8b-instant";
            temperature := eight_tenths;
            max_tokens := 800 |}.
  cbv zeta. unfold try_except.
  destruct (create api client _); reflexivity.
Qed.

Lemma X14_witness :
  exists context,
    chat_context "How much should I save?" (VDict []) = Ok context
    /\ chat_with_ai (fun _ => "How much should I save?") unreachable_api
         (VStr "How much should I save?") (VDict []) None
       = (Ok (VStr chat_trouble), Some tt, [ chat_request context ]).
Proof.
  destruct (X14_chat_about_a_snapshot example_clock (fun _ => "How much should I save?")
              unreachable_api (VStr "How much should I save?") (VDict []) None tt
              (or_intror eq_refl) eq_refl) as (context & Hcontext & Hchat).
  exists context. split; [exact Hcontext | exact Hchat].
Defined.

(** ** The views *)

Lemma substring_all (s : string) : substring 0 (String.length s) s = s.
Proof. induction s as [| c s IH]; simpl; [reflexivity | rewrite IH; reflexivity]. Qed.

Lemma substring_suffix (stem suffix : string) :
  substring (String.length stem) (String.length suffix) (stem ++ suffix)%string = suffix.
Proof. induction stem as [| c stem IH]; simpl; [apply substring_all | exact IH]. Qed.

Lemma append_length (s t : string) :
  String.length (s ++ t)%string = (String.length s + String.length t)%nat.
Proof. induction s as [| c s IH]; simpl; [reflexivity | rewrite IH; reflexivity]. Qed.

Lemma substring_split (n : nat) (s : string) :
  (n <= String.length s)%nat ->
  s = (substring 0 n s ++ substring n (String.length s - n) s)%string.
Proof.
  revert n. induction s as [| c s IH]; intros [| n] H; simpl in *;
    try reflexivity; try lia.
  - rewrite substring_all. reflexivity.
  - f_equal. apply IH. lia.
Qed.

(** [s.endswith(suffix)] holds exactly for the texts that end with the
    characters of [suffix], in the same case. *)
Lemma endswith_spec (s suffix : string) :
  endswith s suffix = true <-> exists stem, s = (stem ++ suffix)%string.
Proof.
  unfold endswith. rewrite andb_true_iff, Nat.leb_le, String.eqb_eq. split.
  - intros [Hle Hsub]. exists (substring 0 (String.length s - String.length suffix) s).
    assert (Hn : (String.length s - String.length suffix <= String.length s)%nat) by lia.
    pose proof (substring_split _ s Hn) as Hsplit.
    replace (String.length s - (String.length s - String.length suffix))%nat
      with (String.length suffix) in Hsplit by lia.
    rewrite Hsub in Hsplit. exact Hsplit.
  - intros [stem ->]. rewrite append_length. split; [lia |].
    replace (String.length stem + String.length suffix - String.length suffix)%nat
      with (String.length stem) by lia.
    apply substring_suffix.
Qed.

(** X15. The view of a manual submission answers 200 exactly when
    [request.json] gave a document that [process_manual_data] accepts: then
    the Snapshot is what it stores in the session and what it sends back as
    [data].  In every other case it answers 400 and leaves the session as it
    was; when the adapter refused the document, the message carries the
    prefix of the view and then that of the adapter. *)
Theorem X15_manual_submission {B : Builtins} (message_of : exn -> string)
  (now : clock) (request_json : result pyval) (stored : option pyval) :
  let '(reply, stored') := process_manual message_of now request_json stored in
  (status reply = 200
   <-> exists data snap,
         request_json = Ok data /\ process_manual_data now data = Ok snap
         /\ stored' = Some snap
         /\ body reply
            = jsonify (VDict [ ("success", VBool true);
                               ("message", VStr "Data processed successfully!");
                               ("data", snap) ]))
  /\ (status reply <> 200 -> status reply = 400 /\ stored' = stored)
  /\ (forall data, request_json = Ok data ->
      status reply <> 200 ->
      exists cause,
        body reply
        = jsonify
            (VDict [ ("success", VBool false);
                     ("message",
                      VStr ("Error processing data: "
                            ++ "Error processing manual data: "
                            ++ exn_str message_of cause)%string) ])).
Proof.
  unfold process_manual.
  destruct request_json as [data | e]; cbn [bind].
  - destruct (process_manual_data now data) as [snap | e] eqn:E; cbn [status body accept refuse].
    + split; [split; [intros _; exists data, snap; repeat split; exact E | reflexivity] |].
      split; [intros H; contradiction H; reflexivity |].
      intros d _ H. contradiction H. reflexivity.
    + split; [split; [discriminate |] |].
      * intros (d & snap & Hd & Hsnap & _). injection Hd as <-. congruence.
      * split; [auto |]. intros d Hd _. injection Hd as <-.
        unfold process_manual_data in E.
        destruct (process_manual_body now data) as [snap | cause]; simpl in E;
          [discriminate E |].
        injection E as <-. exists cause. reflexivity.
  - cbn [status body refuse]. split; [split; [discriminate |] |].
    + intros (d & snap & Hd & _). discriminate Hd.
    + split; [auto |]. intros d Hd. discriminate Hd.
Qed.

(** X16. The view of an upload answers 200 exactly when the form has a file
    whose name is not empty and ends with the four characters [.csv] in
    lower case, saving it went through and [process_csv_data] returned: then
    the Snapshot is stored in the session and sent back.  In every other
    case, a name such as DATA.CSV among them, the answer is 400 and the
    session is left as it was.  A saved file whose frame could be read is
    always accepted, whatever its rows hold. *)
Theorem X16_upload {B : Builtins} (message_of : exn -> string) (now : clock)
  (request_files : result (option upload)) (stored : option pyval) :
  let '(reply, stored') := process_csv message_of now request_files stored in
  (status reply = 200
   <-> exists file stem snap,
         request_files = Ok (Some file)
         /\ filename file = (stem ++ ".csv")%string
         /\ save file = Ok tt
         /\ process_csv_data now (frame file) = Ok snap
         /\ stored' = Some snap
         /\ body reply
            = jsonify (VDict [ ("success", VBool true);
                               ("message", VStr "CSV processed successfully!");
                               ("data", snap) ]))
  /\ (status reply <> 200 -> status reply = 400 /\ stored' = stored)
  /\ (forall file stem rows,
        request_files = Ok (Some file) ->
        filename file = (stem ++ ".csv")%string ->
        save file = Ok tt -> frame file = Ok rows ->
        Forall (fun row => csv_cell (amount_cell row)) rows ->
        status reply = 200).
Proof.
  unfold process_csv.
  destruct request_files as [[file |] | e].
  - destruct (String.eqb_spec (filename file) "") as [Hempty | Hname].
    { cbn [status body refuse]. split; [split; [discriminate |] |].
      - intros (f & stem & snap & Hf & Hstem & _). injection Hf as <-.
        rewrite Hstem in Hempty. destruct stem; discriminate Hempty.
      - split; [auto |]. intros f stem rows Hf Hstem. injection Hf as <-.
        rewrite Hstem in Hempty. destruct stem; discriminate Hempty. }
    destruct (endswith (filename file) ".csv") eqn:Hends.
    + apply endswith_spec in Hends. destruct Hends as [stem Hstem].
      destruct (save file) as [[] | e] eqn:Hsave; cbn [bind].
      * destruct (process_csv_data now (frame file)) as [snap | e] eqn:E;
          cbn [status body accept refuse].
        -- split; [split; [intros _; exists file, stem, snap; repeat split; assumption | reflexivity] |].
           split; [intros H; contradiction H; reflexivity | reflexivity].
        -- split; [split; [discriminate |] |].
           ++ intros (f & st & snap & Hf & _ & _ & Hsnap & _). injection Hf as <-.
              congruence.
           ++ split; [auto |]. intros f st rows Hf _ _ Hrows Hcells.
              injection Hf as <-. rewrite Hrows in E.
              destruct (process_csv_total now rows Hcells) as [snap Hsnap]. congruence.
      * cbn [status body refuse]. split; [split; [discriminate |] |].
        -- intros (f & st & snap & Hf & _ & Hs & _). injection Hf as <-. congruence.
        -- split; [auto |]. intros f st rows Hf _ Hs. injection Hf as <-. congruence.
    + cbn [status body refuse].
      assert (Hno : forall stem, filename file <> (stem ++ ".csv")%string).
      { intros stem Hstem.
        assert (endswith (filename file) ".csv" = true)
          by (apply endswith_spec; eauto).
        congruence. }
      split; [split; [discriminate |] |].
      * intros (f & stem & snap & Hf & Hstem & _). injection Hf as <-.
        destruct (Hno stem Hstem).
      * split; [auto |]. intros f stem rows Hf Hstem. injection Hf as <-.
        destruct (Hno stem Hstem).
  - cbn [status body refuse]. split; [split; [discriminate |] |].
    + intros (f & stem & snap & Hf & _). discriminate Hf.
    + split; [auto |]. intros f stem rows Hf. discriminate Hf.
  - cbn [status body refuse]. split; [split; [discriminate |] |].
    + intros (f & stem & snap & Hf & _). discriminate Hf.
    + split; [auto |]. intros f stem rows Hf. discriminate Hf.
Qed.

(** X17. The analysis view answers 200 or 400.  While the session holds no
    financial data, or a value that counts as false, it answers 400 without
    looking for a client and without sending anything, and the two pages
    show the input page with the request to enter data first; the pages do
    so in no other case.  When there is data, the view answers 200 exactly
    when [analyze_finances] returned, with the requests that call sent: the
    scorer never makes the view fail, and a 400 carries what
    [analyze_finances] raised. *)
Theorem X17_analysis_view_needs_data {C : Type} (message_of : exn -> string)
  (api : groq C) (stored : option pyval) (_client : option C) :
  let financial_data := session_get stored VNone in
  let '(reply, after, sent) := analyze message_of api stored _client in
  (status reply = 200 \/ status reply = 400)
  /\ (py_truthy financial_data = false ->
      reply = refuse "No financial data found. Please enter data first."
      /\ after = _client /\ sent = [])
  /\ (py_truthy financial_data = false
      <-> body (dashboard stored)
          = render_template "input.html"
              [ ("error", VStr "Please enter your financial data first") ])
  /\ (py_truthy financial_data = false
      <-> body (chat_page stored)
          = render_template "input.html"
              [ ("error", VStr "Please enter your financial data first") ])
  /\ (py_truthy financial_data = true ->
      exists answer,
        analyze_finances api financial_data _client = (answer, after, sent)
        /\ (status reply = 200 <-> exists analysis, answer = Ok analysis)
        /\ (forall e, answer = Raise e ->
            reply = refuse ("Error analyzing data: " ++ exn_str message_of e)%string)).
Proof.
  intros financial_data. unfold analyze, dashboard, chat_page, page.
  fold financial_data.
  destruct (py_truthy financial_data) eqn:Htruthy; cbn [negb status body].
  - destruct (analyze_finances api financial_data _client) as [[answer after] sent].
    assert (Hhealth : exists health, calculate_financial_health financial_data = Ok health).
    { unfold calculate_financial_health.
      destruct (health_body financial_data); simpl; eauto. }
    destruct Hhealth as [health ->].
    destruct answer as [analysis | e]; cbn [bind status body refuse].
    + split; [left; reflexivity |]. split; [discriminate |].
      split; [split; discriminate |]. split; [split; discriminate |].
      intros _. exists (Ok analysis). split; [reflexivity |].
      split; [split; eauto | discriminate].
    + split; [right; reflexivity |]. split; [discriminate |].
      split; [split; discriminate |]. split; [split; discriminate |].
      intros _. exists (Raise e). split; [reflexivity |].
      split; [split; [discriminate | intros [analysis H]; discriminate H] |].
      intros e' H. injection H as <-. reflexivity.
  - split; [right; reflexivity |]. split; [auto |].
    split; [split; reflexivity |]. split; [split; reflexivity | discriminate].
Qed.

(** X18. When the session holds the numbers of a Snapshot, in whatever order
    its entries come back, the analysis view always answers 200, whatever the
    API does: the health score is a computed one, never the Error result, and
    the analysis is the content the API returned or the text of the
    rule-based report.  At most one request is sent, none without a
    client. *)
Theorem X18_analysis_view_on_a_snapshot {C : Type} (message_of : exn -> string)
  (api : groq C) (financial_data : pyval) (_client : option C) :
  snapshot_numbers financial_data ->
  exists analysis score status color sent,
    analyze message_of api (Some financial_data) _client
    = ({| body := jsonify (VDict [ ("success", VBool true); ("analysis", analysis);
                                   ("health_score", health_result score status color) ]);
          status := 200 |},
       snd (get_client api _client), sent)
    /\ calculate_financial_health financial_data
       = Ok (health_result score status color)
    /\ status <> "Error" /\ 0 <= score <= 100
    /\ ((exists text,
           get_rule_based_analysis financial_data = Ok text /\ analysis = VStr text)
        \/ exists client request,
             snd (get_client api _client) = Some client
             /\ sent = [ request ] /\ create api client request = Ok analysis)
    /\ (snd (get_client api _client) = None -> sent = [])
    /\ (List.length sent <= 1)%nat.
Proof.
  intros Hnumbers.
  destruct (health_total _ Hnumbers) as (score & st & color & Hhealth & _ & Hst & Hrange).
  destruct (report_total _ Hnumbers) as [text Htext].
  destruct (prompt_total _ Hnumbers) as [prompt Hprompt].
  assert (Htruthy : py_truthy financial_data = true).
  { destruct Hnumbers as (income & _ & _ & _ & _ & Hi & _). exact (field_truthy _ _ _ Hi). }
  unfold analyze. cbn [session_get]. rewrite Htruthy. cbn [negb].
  unfold analyze_finances. rewrite Htext, Hprompt, Hhealth.
  pose proof (get_client_global api _client) as Hglobal.
  destruct (get_client api _client) as [client after]. simpl in Hglobal. subst after.
  cbn [snd bind]. destruct client as [client |].
  - destruct (create api client (analysis_request prompt)) as [content | e] eqn:E;
      cbn [try_except bind].
    + exists content, score, st, color, [ analysis_request prompt ].
      split; [reflexivity |]. split; [reflexivity |]. split; [exact Hst |].
      split; [exact Hrange |]. split; [right; eauto |].
      split; [discriminate | simpl; lia].
    + exists (VStr text), score, st, color, [ analysis_request prompt ].
      split; [reflexivity |]. split; [reflexivity |]. split; [exact Hst |].
      split; [exact Hrange |]. split; [left; eauto |].
      split; [discriminate | simpl; lia].
  - cbn [try_except bind].
    exists (VStr text), score, st, color, [].
    split; [reflexivity |]. split; [reflexivity |]. split; [exact Hst |].
    split; [exact Hrange |]. split; [left; eauto |]. split; [reflexivity | simpl; lia].
Qed.

Lemma X18_witness :
  exists snap analysis sent,
    process_manual_data example_clock manual_example = Ok snap
    /\ analyze (fun _ => "") unreachable_api (Some snap) None
       = ({| body := jsonify (VDict [ ("success", VBool true); ("analysis", analysis);
                                      ("health_score",
                                       health_result 65 "Good" "lightgreen") ]);
             status := 200 |}, Some tt, sent).
Proof.
  destruct (process_manual_data example_clock manual_example) as [snap | e] eqn:E;
    [| vm_compute in E; discriminate E].
  destruct (X18_analysis_view_on_a_snapshot (fun _ => "") unreachable_api snap None
              (ingested_numbers example_clock snap
                 (or_introl (ex_intro _ manual_example E))))
    as (analysis & score & st & color & sent & Hview & Hhealth & _).
  exists snap, analysis, sent. split; [reflexivity |].
  rewrite Hview. vm_compute in E. injection E as <-.
  vm_compute in Hhealth. injection Hhealth as <- <- <-. reflexivity.
Defined.

(** X19. The chat view answers 200 exactly when [request.json] gave a
    mapping: then it answers whatever the session holds and whatever the API
    does, since [chat_with_ai] never raises, and the message it passes on is
    the field [message] of the mapping, or the empty text.  When
    [request.json] raised or gave another value the answer is 400, no client
    is looked for and nothing is sent. *)
Theorem X19_chat_view {C : Type} (message_of : exn -> string)
  (str : pyval -> string) (api : groq C) (request_json : result pyval)
  (stored : option pyval) (_client : option C) :
  let '(reply, after, sent) := chat message_of str api request_json stored _client in
  (status reply = 200
   <-> exists d, request_json = Ok (VDict d))
  /\ (forall d, request_json = Ok (VDict d) ->
      let user_message :=
        match dict_lookup "message" d with Some v => v | None => VStr "" end in
      let financial_data :=
        match stored with Some v => v | None => VDict [] end in
      exists answer,
        chat_with_ai str api user_message financial_data _client
        = (Ok answer, after, sent)
        /\ body reply
           = jsonify (VDict [ ("success", VBool true); ("response", answer) ]))
  /\ (status reply <> 200 -> status reply = 400 /\ after = _client /\ sent = []).
Proof.
  unfold chat.
  assert (Hget : forall d,
            py_get (VDict d) "message" (VStr "")
            = Ok match dict_lookup "message" d with Some v => v | None => VStr "" end).
  { intros d. unfold py_get. destruct (dict_lookup "message" d); reflexivity. }
  destruct request_json as [data | e]; cbn [bind].
  - destruct data as [| b | z | f | s | l | d];
      try (cbn [py_get status body refuse];
           split; [split; [discriminate | intros [d H]; discriminate H] |];
           split; [intros d H; discriminate H | auto]).
    rewrite Hget. cbn [session_get].
    set (user_message := match dict_lookup "message" d with
                         | Some v => v
                         | None => VStr ""
                         end).
    pose proof (chat_never_raises str api user_message
                  (session_get stored (VDict [])) _client) as Hanswer.
    unfold session_get in Hanswer |- *.
    destruct (chat_with_ai str api user_message
                match stored with Some v => v | None => VDict [] end _client)
      as [[answer after] sent] eqn:E.
    destruct Hanswer as [response Hresponse]. simpl in Hresponse. subst answer.
    cbn [status body].
    split; [split; [eauto | reflexivity] |]. split.
    + intros d' Hd'. injection Hd' as <-. exists response. split; [exact E | reflexivity].
    + intros H. contradiction H. reflexivity.
  - cbn [status body refuse].
    split; [split; [discriminate | intros [d H]; discriminate H] |].
    split; [intros d H; discriminate H | auto].
Qed.
